(** * uk101re: the 6502 core, the MC6850 ACIA and the motherboard bus

    A shallow embedding of [cpu6502.c], [mc6850.c], [motherboard.c] and of
    the keyboard/terminal primitives of [terminal.c].  The C program keeps
    its whole state in file-scope variables; here every C function becomes
    a computation in a state monad over one [machine] record that gathers
    those variables.  Fixed-width integers are [Z] with the conversions to
    [uint8_t], [uint16_t] and [int8_t] written where C performs them.  The
    time arithmetic of [timeutils.c] is embedded as functions that fail on
    signed overflow, and the inner loop of [main] in [uk101re.c] as a
    computation with fuel. *)

From Stdlib Require Import ZArith List Lia Bool Ascii String.
Import ListNotations.
Open Scope Z_scope.

(** ** Integer conversions of C *)

Definition u8 (v : Z) : Z := v mod 0x100.
Definition u16 (v : Z) : Z := v mod 0x10000.
Definition u32 (v : Z) : Z := v mod 0x100000000.

(** [(int8_t)v] for a byte [v]. *)
Definition s8 (v : Z) : Z :=
  let b := u8 v in if b <? 0x80 then b else b - 0x100.

(** A C scalar used as a condition, and the [int] a comparison or [!] yields. *)
Definition truth (v : Z) : bool := negb (v =? 0).
Definition of_bool (b : bool) : Z := if b then 1 else 0.

(** ** The state: the file-scope variables of the four C files *)

(** [cpu6502.c] *)
Record cpu6502 := mkCpu {
  cycles : Z;
  IRQ_PIN_LEVEL : Z;
  A : Z;
  X : Z;
  Y : Z;
  SP : Z;
  PC : Z;
  N_Flag : Z;
  V_Flag : Z;
  D_Flag : Z;
  I_Flag : Z;
  Z_Flag : Z;
  C_Flag : Z
}.

(** [mc6850.c] *)
Record mc6850 := mkAcia {
  TDR : Z;
  RDR : Z;
  CR : Z;
  SR : Z
}.

(** [terminal.c]: the keyboard source and the two output streams.
    [flag_datafile] is [options.flag_datafile]; [datafile] is what is left
    to read of the opened data file; [stdin_has_data] and [stdin_value] are
    the mailbox filled by the polling thread; [stdout] collects the bytes
    given to [putchar] and [stderr] the messages given to [fprintf]. *)
Record terminal := mkTerm {
  flag_datafile : Z;
  datasize : Z;
  datafile : list Z;
  stdin_has_data : Z;
  stdin_value : Z;
  stdout : list Z;
  stderr : list string
}.

(** [motherboard.c] owns the two arrays; the machine is the product. *)
Record machine := mkMachine {
  cpu : cpu6502;
  ROM : Z -> Z;
  RAM : Z -> Z;
  acia : mc6850;
  term : terminal
}.

Definition with_cpu (c : cpu6502) (m : machine) : machine :=
  mkMachine c (ROM m) (RAM m) (acia m) (term m).
Definition with_RAM (r : Z -> Z) (m : machine) : machine :=
  mkMachine (cpu m) (ROM m) r (acia m) (term m).
Definition with_acia (a : mc6850) (m : machine) : machine :=
  mkMachine (cpu m) (ROM m) (RAM m) a (term m).
Definition with_term (t : terminal) (m : machine) : machine :=
  mkMachine (cpu m) (ROM m) (RAM m) (acia m) t.

Definition with_cycles v c := mkCpu v (IRQ_PIN_LEVEL c) (A c) (X c) (Y c) (SP c) (PC c)
  (N_Flag c) (V_Flag c) (D_Flag c) (I_Flag c) (Z_Flag c) (C_Flag c).
Definition with_IRQ_PIN_LEVEL v c := mkCpu (cycles c) v (A c) (X c) (Y c) (SP c) (PC c)
  (N_Flag c) (V_Flag c) (D_Flag c) (I_Flag c) (Z_Flag c) (C_Flag c).
Definition with_A v c := mkCpu (cycles c) (IRQ_PIN_LEVEL c) v (X c) (Y c) (SP c) (PC c)
  (N_Flag c) (V_Flag c) (D_Flag c) (I_Flag c) (Z_Flag c) (C_Flag c).
Definition with_X v c := mkCpu (cycles c) (IRQ_PIN_LEVEL c) (A c) v (Y c) (SP c) (PC c)
  (N_Flag c) (V_Flag c) (D_Flag c) (I_Flag c) (Z_Flag c) (C_Flag c).
Definition with_Y v c := mkCpu (cycles c) (IRQ_PIN_LEVEL c) (A c) (X c) v (SP c) (PC c)
  (N_Flag c) (V_Flag c) (D_Flag c) (I_Flag c) (Z_Flag c) (C_Flag c).
Definition with_SP v c := mkCpu (cycles c) (IRQ_PIN_LEVEL c) (A c) (X c) (Y c) v (PC c)
  (N_Flag c) (V_Flag c) (D_Flag c) (I_Flag c) (Z_Flag c) (C_Flag c).
Definition with_PC v c := mkCpu (cycles c) (IRQ_PIN_LEVEL c) (A c) (X c) (Y c) (SP c) v
  (N_Flag c) (V_Flag c) (D_Flag c) (I_Flag c) (Z_Flag c) (C_Flag c).
Definition with_N_Flag v c := mkCpu (cycles c) (IRQ_PIN_LEVEL c) (A c) (X c) (Y c) (SP c) (PC c)
  v (V_Flag c) (D_Flag c) (I_Flag c) (Z_Flag c) (C_Flag c).
Definition with_V_Flag v c := mkCpu (cycles c) (IRQ_PIN_LEVEL c) (A c) (X c) (Y c) (SP c) (PC c)
  (N_Flag c) v (D_Flag c) (I_Flag c) (Z_Flag c) (C_Flag c).
Definition with_D_Flag v c := mkCpu (cycles c) (IRQ_PIN_LEVEL c) (A c) (X c) (Y c) (SP c) (PC c)
  (N_Flag c) (V_Flag c) v (I_Flag c) (Z_Flag c) (C_Flag c).
Definition with_I_Flag v c := mkCpu (cycles c) (IRQ_PIN_LEVEL c) (A c) (X c) (Y c) (SP c) (PC c)
  (N_Flag c) (V_Flag c) (D_Flag c) v (Z_Flag c) (C_Flag c).
Definition with_Z_Flag v c := mkCpu (cycles c) (IRQ_PIN_LEVEL c) (A c) (X c) (Y c) (SP c) (PC c)
  (N_Flag c) (V_Flag c) (D_Flag c) (I_Flag c) v (C_Flag c).
Definition with_C_Flag v c := mkCpu (cycles c) (IRQ_PIN_LEVEL c) (A c) (X c) (Y c) (SP c) (PC c)
  (N_Flag c) (V_Flag c) (D_Flag c) (I_Flag c) (Z_Flag c) v.

(** ** The state monad the C functions live in *)

Definition M (T : Type) : Type := machine -> T * machine.

Definition ret {T} (v : T) : M T := fun m => (v, m).
Definition bind {T U} (c : M T) (k : T -> M U) : M U :=
  fun m => let (v, m') := c m in k v m'.

Notation "x <- c ;; k" := (bind c (fun x => k))
  (at level 61, c at next level, right associativity).
Notation "c ;; k" := (bind c (fun _ => k))
  (at level 61, right associativity).

(** Final state and result of a computation. *)
Definition exec {T} (c : M T) (m : machine) : machine := snd (c m).
Definition eval {T} (c : M T) (m : machine) : T := fst (c m).

(** Reading and assigning a CPU variable. *)
Definition get (f : cpu6502 -> Z) : M Z := fun m => (f (cpu m), m).
Definition put (w : Z -> cpu6502 -> cpu6502) (v : Z) : M unit :=
  fun m => (tt, with_cpu (w v (cpu m)) m).

(** [cycles += n]; [cycles] is an [int] that a step starts at 0, it never
    comes near the limits of [int]. *)
Definition add_cycles (n : Z) : M unit :=
  c <- get cycles ;; put with_cycles (c + n).

(** ** terminal.c *)

(** [printf]'s [%0wX] on an [unsigned int]: upper-case hexadecimal, at least
    [w] digits. *)
Definition hex_digit (d : Z) : ascii :=
  nth (Z.to_nat d) (list_ascii_of_string "0123456789ABCDEF") "0"%char.

Fixpoint hex_digits (n : nat) (v : Z) : list ascii :=
  match n with
  | O => []
  | S k => hex_digits k (Z.shiftr v 4) ++ [hex_digit (Z.land v 0xF)]
  end.

Fixpoint strip_zeros (w : nat) (l : list ascii) : list ascii :=
  match l with
  | c :: t =>
      if (Ascii.eqb c "0" && (w <? List.length l)%nat)%bool then strip_zeros w t else l
  | [] => []
  end.

Definition printf_X (w : nat) (v : Z) : string :=
  string_of_list_ascii (strip_zeros w (hex_digits 8 (u32 v))).

Definition check_keyboard_ready : M Z := fun m =>
  let t := term m in
  if truth (flag_datafile t)
  then (of_bool (negb (datasize t =? 0)), m)
  else (stdin_has_data t, m).

(** [fgetc]: the next byte of the stream, or [EOF]. *)
Definition fgetc (f : list Z) : Z * list Z :=
  match f with
  | b :: rest => (b, rest)
  | [] => (-1, [])
  end.

Definition read_keyboard : M Z := fun m =>
  let t := term m in
  let '(ch, t') :=
    if truth (flag_datafile t) then
      if truth (datasize t) then
        let (ch, rest) := fgetc (datafile t) in
        let size := datasize t - 1 in
        (ch, mkTerm (if size =? 0 then 0 else flag_datafile t) size rest
               (stdin_has_data t) (stdin_value t) (stdout t) (stderr t))
      else (0, t)
    else
      if truth (stdin_has_data t) then
        (stdin_value t,
         mkTerm (flag_datafile t) (datasize t) (datafile t)
                0 (stdin_value t) (stdout t) (stderr t))
      else (0, t) in
  (* LF -> CR translation *)
  let ch := if ch =? 0x0A then 0x0D else ch in
  (u8 ch, with_term t' m).

(** [write_terminal(uint8_t byte)]: the byte goes to the standard output. *)
Definition write_terminal (byte : Z) : M unit := fun m =>
  let t := term m in
  (tt, with_term (mkTerm (flag_datafile t) (datasize t) (datafile t)
                         (stdin_has_data t) (stdin_value t)
                         (stdout t ++ [u8 byte]) (stderr t)) m).

(** [fprintf(stderr, ...)] of one formatted message. *)
Definition fprintf_stderr (msg : string) : M unit := fun m =>
  let t := term m in
  (tt, with_term (mkTerm (flag_datafile t) (datasize t) (datafile t)
                         (stdin_has_data t) (stdin_value t)
                         (stdout t) (stderr t ++ [msg])) m).

(** ** mc6850.c *)

Definition get_SR : M Z := fun m => (SR (acia m), m).
Definition put_SR (v : Z) : M unit := fun m =>
  let a := acia m in (tt, with_acia (mkAcia (TDR a) (RDR a) (CR a) v) m).
Definition get_RDR : M Z := fun m => (RDR (acia m), m).
Definition put_RDR (v : Z) : M unit := fun m =>
  let a := acia m in (tt, with_acia (mkAcia (TDR a) v (CR a) (SR a)) m).
Definition put_CR (v : Z) : M unit := fun m =>
  let a := acia m in (tt, with_acia (mkAcia (TDR a) (RDR a) v (SR a)) m).

Definition mc6850_reset : M unit := fun m =>
  (tt, with_acia (mkAcia 0x00 0x00 0x00 0x0E) m).

(** Read a byte from the ACIA.  [address & 0x0001] is 0 or 1; the last
    branch stands for the missing [default] of the C [switch]. *)
Definition mc6850_readbyte (address : Z) : M Z :=
  if negb (truth (Z.land address 0x0800)) then
    match Z.land address 0x0001 with
    | 0 => (* SR *)
        ready <- check_keyboard_ready ;;
        (if truth ready
         then (sr <- get_SR ;; put_SR (u8 (Z.lor sr 0x01)))
         else ret tt) ;;
        get_SR
    | 1 => (* RDR *)
        key <- read_keyboard ;;
        put_RDR key ;;
        data <- get_RDR ;;
        sr <- get_SR ;;
        put_SR (u8 (Z.land sr 0xFE)) ;; (* Clear RDRF *)
        ret data
    | _ => ret 0
    end
  else
    (* ACIA not enabled *)
    ret 0xFF.

(** Write a byte to the ACIA; [data] is a [uint8_t]. *)
Definition mc6850_writebyte (address data : Z) : M unit :=
  let data := u8 data in
  if negb (truth (Z.land address 0x0800)) then
    match Z.land address 0x0001 with
    | 0 => (* CR *)
        put_CR data
    | 1 => (* TDR *)
        write_terminal data ;;
        sr <- get_SR ;;
        put_SR (u8 (Z.lor sr 0x02))
    | _ => ret tt
    end
  else
    (* Writes with A11 = 1 are ignored *)
    ret tt.

(** ** motherboard.c *)

Definition ROMMASK : Z := 0x7FFF.
Definition RAMMASK : Z := 0x7FFF.

Definition rom_readbyte (address : Z) : M Z := fun m =>
  (ROM m (Z.land address ROMMASK), m).

(** Writing to the ROM does nothing. *)
Definition rom_writebyte (address data : Z) : M unit := ret tt.

Definition ram_readbyte (address : Z) : M Z := fun m =>
  (RAM m (Z.land address RAMMASK), m).

(** Assignment to a cell of an array. *)
Definition store (i v : Z) (mem : Z -> Z) : Z -> Z :=
  fun a => if a =? i then v else mem a.

(** [RAM[address & RAMMASK] = data], the cell being a [uint8_t]. *)
Definition ram_writebyte (address data : Z) : M unit := fun m =>
  (tt, with_RAM (store (Z.land address RAMMASK) (u8 data) (RAM m)) m).

Definition in_range (lo hi v : Z) : bool := (lo <=? v) && (v <=? hi).

(** The address decoder: a [switch] over GCC case ranges, first match wins.
    [address] is a [uint16_t]: the argument is converted on entry. *)
Definition motherboard_readbyte (address : Z) : M Z :=
  let address := u16 address in
  if in_range 0x0000 0x7FFF address then ram_readbyte address
  else if in_range 0x8000 0xEFFF address then rom_readbyte address
  else if in_range 0xF000 0xF7FF address then mc6850_readbyte address
  else if in_range 0xF800 0xFFFF address then rom_readbyte address
  else (* Reading a not used address *) ret 0xFF.

Definition motherboard_writebyte (address data : Z) : M unit :=
  let address := u16 address in
  if in_range 0x0000 0x7FFF address then ram_writebyte address data
  else if in_range 0x8000 0xEFFF address then rom_writebyte address data
  else if in_range 0xF000 0xF7FF address then mc6850_writebyte address data
  else if in_range 0xF800 0xFFFF address then rom_writebyte address data
  else (* Writing to a not used address *) ret tt.

(** ** cpu6502.c *)

Definition IRQ_VECTOR : Z := 0xFFFE.
Definition RST_VECTOR : Z := 0xFFFC.
Definition NMI_VECTOR : Z := 0xFFFA.

Definition B_Flag_Mask : Z := 0x10.

(** Splits a byte into status register flags. *)
Definition set_P (data : Z) : M unit :=
  put with_N_Flag (Z.land data 0x80) ;;
  put with_V_Flag (Z.land data 0x40) ;;
  put with_D_Flag (Z.land data 0x08) ;;
  put with_I_Flag (Z.land data 0x04) ;;
  put with_Z_Flag (Z.land data 0x02) ;;
  put with_C_Flag (Z.land data 0x01).

(** Assemble the Status Register into a byte. *)
Definition get_P : M Z :=
  let P := 0x20 in
  n <- get N_Flag ;; let P := if truth n then Z.lor P 0x80 else P in
  v <- get V_Flag ;; let P := if truth v then Z.lor P 0x40 else P in
  d <- get D_Flag ;; let P := if truth d then Z.lor P 0x08 else P in
  i <- get I_Flag ;; let P := if truth i then Z.lor P 0x04 else P in
  z <- get Z_Flag ;; let P := if truth z then Z.lor P 0x02 else P in
  c <- get C_Flag ;; let P := if truth c then Z.lor P 0x01 else P in
  ret P.

(** Compose a 16-bit word from two bytes. *)
Definition word (high low : Z) : Z := u16 (Z.lor (Z.shiftl high 8) low).

Definition read_byte (address : Z) : M Z := motherboard_readbyte address.

Definition write_byte (address data : Z) : M unit :=
  motherboard_writebyte address data.

Definition read_word (address : Z) : M Z :=
  low <- read_byte address ;;
  let address := u16 (address + 1) in
  high <- read_byte address ;;
  ret (word high low).

(** Fetch a byte from Program Counter and advance it. *)
Definition fetch : M Z :=
  pc <- get PC ;;
  put with_PC (u16 (pc + 1)) ;;
  read_byte pc.

Definition fetch16 : M Z :=
  low <- fetch ;;
  high <- fetch ;;
  ret (word high low).

Definition update_NZ (data : Z) : M unit :=
  put with_N_Flag (Z.land data 0x80) ;;
  put with_Z_Flag (of_bool (data =? 0)).

Definition push (data : Z) : M unit :=
  sp <- get SP ;;
  write_byte (Z.lor 0x0100 sp) data ;;
  put with_SP (u8 (sp - 1)).

Definition pop : M Z :=
  sp <- get SP ;;
  put with_SP (u8 (sp + 1)) ;;
  sp <- get SP ;;
  read_byte (Z.lor 0x0100 sp).

Definition push16 (data : Z) : M unit :=
  push (Z.land (Z.shiftr data 8) 0xFF) ;;
  push (Z.land data 0xFF).

Definition pop16 : M Z :=
  low <- pop ;;
  high <- pop ;;
  ret (word high low).

(** Update C, Z, N flags according to a comparison ([a - b] is an [int]). *)
Definition compare (a b : Z) : M unit :=
  put with_C_Flag (of_bool (a >=? b)) ;;
  put with_Z_Flag (of_bool (negb (truth (a - b)))) ;;
  put with_N_Flag (u8 (Z.land (a - b) 0x80)).

(** Performs an Interrupt Request. *)
Definition do_irq (vector : Z) : M unit :=
  pc <- get PC ;;
  push16 pc ;;                    (* Push program counter *)
  p <- get_P ;;
  push p ;;                       (* Push Status register *)
  put with_I_Flag 0x01 ;;         (* Set Interrupt Disable flag *)
  pc <- read_word vector ;;
  put with_PC pc ;;               (* Load PC from vector *)
  add_cycles 7.

(** *** Addressing modes *)

Definition absolute : M Z := fetch16.

Definition absoluteX : M Z :=
  address <- fetch16 ;; x <- get X ;; ret (u16 (address + x)).

Definition absoluteX_1 : M Z :=
  address <- fetch16 ;;
  x <- get X ;;
  let e_address := u16 (address + x) in
  (if Z.land address 0xFF00 =? Z.land e_address 0xFF00
   then ret tt else add_cycles 1) ;;
  ret e_address.

Definition absoluteY : M Z :=
  address <- fetch16 ;; y <- get Y ;; ret (u16 (address + y)).

Definition absoluteY_1 : M Z :=
  address <- fetch16 ;;
  y <- get Y ;;
  let e_address := u16 (address + y) in
  (if Z.land address 0xFF00 =? Z.land e_address 0xFF00
   then ret tt else add_cycles 1) ;;
  ret e_address.

Definition inmediate : M Z :=
  pc <- get PC ;;
  put with_PC (u16 (pc + 1)) ;;
  ret pc.

Definition indirect : M Z :=
  address <- fetch16 ;; read_word address.

Definition indirectX : M Z :=
  operand <- fetch ;;
  x <- get X ;;
  let addr := u8 (operand + x) in
  low <- read_byte addr ;;
  let addr := u8 (addr + 1) in
  high <- read_byte addr ;;
  ret (word high low).

Definition indirectY : M Z :=
  addr <- fetch ;;
  low <- read_byte addr ;;
  let addr := u8 (addr + 1) in
  high <- read_byte addr ;;
  y <- get Y ;;
  ret (u16 (word high low + y)).

Definition indirectY_1 : M Z :=
  addr <- fetch ;;
  low <- read_byte addr ;;
  let addr := u8 (addr + 1) in
  high <- read_byte addr ;;
  y <- get Y ;;
  let e_address := u16 (word high low + y) in
  (if Z.shiftr e_address 8 =? high then ret tt else add_cycles 1) ;;
  ret e_address.

Definition zeropage : M Z := fetch.

Definition zeropageX : M Z :=
  operand <- fetch ;; x <- get X ;; ret (Z.land (operand + x) 0x00FF).

Definition zeropageY : M Z :=
  operand <- fetch ;; y <- get Y ;; ret (Z.land (operand + y) 0x00FF).

(** *** Instruction cores *)

(** ADC: Add Memory to Accumulator with Carry.  [dec_l] and [dec_h] are
    [uint16_t]; the flags and [A] are [uint8_t]. *)
Definition ADC (address : Z) : M unit :=
  d <- get D_Flag ;;
  if truth d then
    (* Decimal mode *)
    op1 <- get A ;;
    op2 <- read_byte address ;;
    c <- get C_Flag ;;
    let dec_l := u16 (Z.land op1 0x0F + Z.land op2 0x0F + of_bool (truth c)) in
    let dec_h := u16 (Z.land op1 0xF0 + Z.land op2 0xF0) in
    put with_Z_Flag (of_bool (negb (truth (Z.land (dec_l + dec_h) 0xFF)))) ;;
    let adj := dec_l >? 0x09 in
    let dec_h := if adj then u16 (dec_h + 0x10) else dec_h in
    let dec_l := if adj then u16 (dec_l + 0x06) else dec_l in
    put with_N_Flag (u8 (Z.land dec_h 0x80)) ;;
    put with_V_Flag
      (u8 (Z.land (Z.land (Z.lnot (Z.lxor op1 op2)) (Z.lxor op1 dec_h)) 0x80)) ;;
    let dec_h := if dec_h >? 0x90 then u16 (dec_h + 0x60) else dec_h in
    put with_C_Flag (u8 (Z.shiftr dec_h 8)) ;;
    put with_A (u8 (Z.lor (Z.land dec_l 0x000F) (Z.land dec_h 0x00F0)))
  else
    (* Binary mode *)
    op1 <- get A ;;
    op2 <- read_byte address ;;
    c <- get C_Flag ;;
    let aux := u16 (op1 + op2 + of_bool (truth c)) in
    put with_A (u8 (Z.land aux 0x00FF)) ;;
    a <- get A ;;
    update_NZ a ;;
    put with_C_Flag (u8 (Z.shiftr aux 8)) ;;
    a <- get A ;;
    put with_V_Flag
      (of_bool ((Z.land op1 0x80 =? Z.land op2 0x80)
                && negb (Z.land op1 0x80 =? Z.land a 0x80))).

Definition AND (address : Z) : M unit :=
  data <- read_byte address ;;
  a <- get A ;;
  put with_A (Z.land a data) ;;
  a <- get A ;;
  update_NZ a.

Definition ASL (address : Z) : M unit :=
  data <- read_byte address ;;
  put with_C_Flag (Z.land data 0x80) ;;
  let data := u8 (Z.shiftl data 1) in
  update_NZ data ;;
  write_byte address data.

Definition ASL_ACC : M unit :=
  a <- get A ;;
  put with_C_Flag (Z.land a 0x80) ;;
  put with_A (u8 (Z.shiftl a 1)) ;;
  a <- get A ;;
  update_NZ a.

Definition BIT (address : Z) : M unit :=
  data <- read_byte address ;;
  put with_N_Flag (Z.land data 0x80) ;;
  put with_V_Flag (Z.land data 0x40) ;;
  a <- get A ;;
  put with_Z_Flag (of_bool (negb (truth (Z.land data a)))).

Definition BRK : M unit :=
  pc <- get PC ;;
  put with_PC (u16 (pc + 1)) ;;             (* Skip break mark byte *)
  pc <- get PC ;;
  push16 pc ;;                              (* Push program counter *)
  p <- get_P ;;
  push (Z.lor p B_Flag_Mask) ;;             (* Set B flag *)
  put with_I_Flag 0x01 ;;                   (* Set Interrupt flag *)
  pc <- read_word IRQ_VECTOR ;;
  put with_PC pc.

(** BXX: Branch on condition. *)
Definition BXX (condition : Z) : M unit :=
  pc <- get PC ;;
  put with_PC (u16 (pc + 1)) ;;
  reljmp <- read_byte pc ;;
  if truth condition then
    add_cycles 1 ;; (* Branch taken *)
    pc <- get PC ;;
    let e_address := u16 (pc + u16 (s8 reljmp)) in
    (if Z.land e_address 0xFF00 =? Z.land pc 0xFF00
     then ret tt else add_cycles 1) ;; (* Branch to different page *)
    put with_PC e_address
  else ret tt.

Definition CLC : M unit := put with_C_Flag 0x00.
Definition CLD : M unit := put with_D_Flag 0x00.
Definition CLI : M unit := put with_I_Flag 0x00.
Definition CLV : M unit := put with_V_Flag 0x00.

Definition CMP (address : Z) : M unit :=
  data <- read_byte address ;; a <- get A ;; compare a data.

Definition CPX (address : Z) : M unit :=
  data <- read_byte address ;; x <- get X ;; compare x data.

Definition CPY (address : Z) : M unit :=
  data <- read_byte address ;; y <- get Y ;; compare y data.

Definition DEC (address : Z) : M unit :=
  data <- read_byte address ;;
  let data := u8 (data - 1) in
  update_NZ data ;;
  write_byte address data.

Definition DEX : M unit :=
  x <- get X ;; put with_X (u8 (x - 1)) ;; x <- get X ;; update_NZ x.

Definition DEY : M unit :=
  y <- get Y ;; put with_Y (u8 (y - 1)) ;; y <- get Y ;; update_NZ y.

Definition EOR (address : Z) : M unit :=
  data <- read_byte address ;;
  a <- get A ;;
  put with_A (Z.lxor a data) ;;
  a <- get A ;;
  update_NZ a.

Definition INC (address : Z) : M unit :=
  data <- read_byte address ;;
  let data := u8 (data + 1) in
  update_NZ data ;;
  write_byte address data.

Definition INX : M unit :=
  x <- get X ;; put with_X (u8 (x + 1)) ;; x <- get X ;; update_NZ x.

Definition INY : M unit :=
  y <- get Y ;; put with_Y (u8 (y + 1)) ;; y <- get Y ;; update_NZ y.

Definition JMP (address : Z) : M unit := put with_PC address.

(** JSR: Jump to subroutine; [push16] takes a [uint16_t]. *)
Definition JSR (address : Z) : M unit :=
  pc <- get PC ;;
  push16 (u16 (pc - 1)) ;;
  put with_PC address.

Definition LDA (address : Z) : M unit :=
  data <- read_byte address ;; put with_A data ;; a <- get A ;; update_NZ a.

Definition LDX (address : Z) : M unit :=
  data <- read_byte address ;; put with_X data ;; x <- get X ;; update_NZ x.

Definition LDY (address : Z) : M unit :=
  data <- read_byte address ;; put with_Y data ;; y <- get Y ;; update_NZ y.

Definition LSR (address : Z) : M unit :=
  data <- read_byte address ;;
  put with_C_Flag (Z.land data 0x01) ;;
  let data := Z.shiftr data 1 in
  update_NZ data ;;
  write_byte address data.

Definition LSR_ACC : M unit :=
  a <- get A ;;
  put with_C_Flag (Z.land a 0x01) ;;
  put with_A (Z.shiftr a 1) ;;
  a <- get A ;;
  update_NZ a.

Definition ORA (address : Z) : M unit :=
  data <- read_byte address ;;
  a <- get A ;;
  put with_A (Z.lor a data) ;;
  a <- get A ;;
  update_NZ a.

Definition PHA : M unit := a <- get A ;; push a.

Definition PHP : M unit :=
  p <- get_P ;; push (Z.lor p B_Flag_Mask). (* B Flag should be active *)

Definition PLA : M unit :=
  data <- pop ;; put with_A data ;; a <- get A ;; update_NZ a.

Definition PLP : M unit := data <- pop ;; set_P data.

Definition ROL (address : Z) : M unit :=
  data <- read_byte address ;;
  oldC_Flag <- get C_Flag ;;
  put with_C_Flag (Z.land data 0x80) ;;
  let data := u8 (Z.shiftl data 1) in
  let data := if truth oldC_Flag then Z.lor data 0x01 else data in
  update_NZ data ;;
  write_byte address data.

Definition ROL_ACC : M unit :=
  oldC_Flag <- get C_Flag ;;
  a <- get A ;;
  put with_C_Flag (Z.land a 0x80) ;;
  put with_A (u8 (Z.shiftl a 1)) ;;
  a <- get A ;;
  (if truth oldC_Flag then put with_A (Z.lor a 0x01) else ret tt) ;;
  a <- get A ;;
  update_NZ a.

Definition ROR (address : Z) : M unit :=
  data <- read_byte address ;;
  oldC_Flag <- get C_Flag ;;
  put with_C_Flag (Z.land data 0x01) ;;
  let data := Z.shiftr data 1 in
  let data := if truth oldC_Flag then Z.lor data 0x80 else data in
  update_NZ data ;;
  write_byte address data.

Definition ROR_ACC : M unit :=
  oldC_Flag <- get C_Flag ;;
  a <- get A ;;
  put with_C_Flag (Z.land a 0x01) ;;
  put with_A (Z.shiftr a 1) ;;
  a <- get A ;;
  (if truth oldC_Flag then put with_A (Z.lor a 0x80) else ret tt) ;;
  a <- get A ;;
  update_NZ a.

Definition RTI : M unit :=
  p <- pop ;;
  set_P p ;;          (* Pull status register *)
  pc <- pop16 ;;
  put with_PC pc.     (* Pull program counter *)

(** RTS: Return from subroutine. *)
Definition RTS : M unit :=
  w <- pop16 ;; put with_PC (u16 (w + 1)).

(** SBC: Subtract with carry.  [aux], [dec_l], [dec_h] are [uint16_t]. *)
Definition SBC (address : Z) : M unit :=
  d <- get D_Flag ;;
  if truth d then
    (* Decimal mode *)
    op1 <- get A ;;
    op2 <- read_byte address ;;
    c <- get C_Flag ;;
    let borrow := of_bool (c =? 0x00) in
    let aux := u16 (op1 - op2 - borrow) in
    let dec_l := u16 (Z.land op1 0x0F - Z.land op2 0x0F - borrow) in
    let dec_h := u16 (Z.land op1 0xF0 - Z.land op2 0xF0) in
    let adj := truth (Z.land dec_l 0x10) in
    let dec_l := if adj then u16 (dec_l - 6) else dec_l in
    let dec_h := if adj then u16 (dec_h - 1) else dec_h in
    put with_V_Flag (u8 (Z.land (Z.land (Z.lxor op1 op2) (Z.lxor op1 aux)) 0x80)) ;;
    put with_C_Flag (of_bool (negb (truth (Z.land aux 0xFF00)))) ;;
    put with_Z_Flag (of_bool (negb (truth (Z.land aux 0x00FF)))) ;;
    put with_N_Flag (u8 (Z.land aux 0x0080)) ;;
    let dec_h := if truth (Z.land dec_h 0x0100) then u16 (dec_h - 0x60) else dec_h in
    put with_A (u8 (Z.lor (Z.land dec_l 0x0F) (Z.land dec_h 0xF0)))
  else
    (* Binary mode: identical to ADC but for the inverted operand *)
    op1 <- get A ;;
    data <- read_byte address ;;
    let op2 := u8 (Z.lnot data) in
    c <- get C_Flag ;;
    let aux := u16 (op1 + op2 + of_bool (truth c)) in
    put with_A (u8 (Z.land aux 0x00FF)) ;;
    a <- get A ;;
    update_NZ a ;;
    put with_C_Flag (u8 (Z.shiftr aux 8)) ;;
    a <- get A ;;
    put with_V_Flag
      (of_bool ((Z.land op1 0x80 =? Z.land op2 0x80)
                && negb (Z.land op1 0x80 =? Z.land a 0x80))).

Definition SEC : M unit := put with_C_Flag 0x01.
Definition SED : M unit := put with_D_Flag 0x01.
Definition SEI : M unit := put with_I_Flag 0x01.

Definition STA (address : Z) : M unit := a <- get A ;; write_byte address a.
Definition STX (address : Z) : M unit := x <- get X ;; write_byte address x.
Definition STY (address : Z) : M unit := y <- get Y ;; write_byte address y.

Definition TAX : M unit := a <- get A ;; put with_X a ;; x <- get X ;; update_NZ x.
Definition TAY : M unit := a <- get A ;; put with_Y a ;; y <- get Y ;; update_NZ y.
Definition TSX : M unit := sp <- get SP ;; put with_X sp ;; x <- get X ;; update_NZ x.
Definition TXA : M unit := x <- get X ;; put with_A x ;; a <- get A ;; update_NZ a.
Definition TXS : M unit := x <- get X ;; put with_SP x.
Definition TYA : M unit := y <- get Y ;; put with_A y ;; a <- get A ;; update_NZ a.

(** Resets CPU. *)
Definition cpu_reset : M unit :=
  put with_A 0x00 ;;
  put with_X 0x00 ;;
  put with_Y 0x00 ;;
  put with_SP 0xFD ;;
  set_P 0x36 ;; (* nv10dIZc *)
  pc <- read_word RST_VECTOR ;;
  put with_PC pc.

Definition newline : string := String "010"%char EmptyString.

(** The text of
    [fprintf(stderr, "\nError: illegal opcode 0x%02X at 0x%04X. Resseting CPU\n", opcode, PC - 1)];
    both arguments are [int]s read by [%X] as [unsigned int]. *)
Definition illegal_opcode_message (opcode pc : Z) : string :=
  (newline ++ "Error: illegal opcode 0x" ++ printf_X 2 opcode
           ++ " at 0x" ++ printf_X 4 (pc - 1) ++ ". Resseting CPU" ++ newline)%string.

Definition illegal_opcode (opcode : Z) : M unit :=
  pc <- get PC ;;
  fprintf_stderr (illegal_opcode_message opcode pc) ;;
  cpu_reset.

(** Fire IRQ: the pin level is saved for later use. *)
Definition cpu_irq (level : Z) : M unit := put with_IRQ_PIN_LEVEL level.

(** Fire NMI: the interrupt is done whenever [cpu_nmi] is called. *)
Definition cpu_nmi : M unit := do_irq NMI_VECTOR.

(** The [switch (opcode)] of [cpu_execute]: one arm per value of a byte.
    The C switch has no [default]; the last arm stands for it. *)
Definition execute_opcode (opcode : Z) : M unit :=
  match opcode with
  | 0x00 => BRK ;; add_cycles 7
  | 0x01 => address <- indirectX ;; ORA address ;; add_cycles 6
  | 0x02 => illegal_opcode opcode
  | 0x03 => illegal_opcode opcode
  | 0x04 => illegal_opcode opcode
  | 0x05 => address <- zeropage ;; ORA address ;; add_cycles 3
  | 0x06 => address <- zeropage ;; ASL address ;; add_cycles 5
  | 0x07 => illegal_opcode opcode
  | 0x08 => PHP ;; add_cycles 3
  | 0x09 => address <- inmediate ;; ORA address ;; add_cycles 2
  | 0x0A => ASL_ACC ;; add_cycles 2
  | 0x0B => illegal_opcode opcode
  | 0x0C => illegal_opcode opcode
  | 0x0D => address <- absolute ;; ORA address ;; add_cycles 4
  | 0x0E => address <- absolute ;; ASL address ;; add_cycles 6
  | 0x0F => illegal_opcode opcode
  | 0x10 => f <- get N_Flag ;; BXX (of_bool (negb (truth f))) ;; add_cycles 2
  | 0x11 => address <- indirectY_1 ;; ORA address ;; add_cycles 5
  | 0x12 => illegal_opcode opcode
  | 0x13 => illegal_opcode opcode
  | 0x14 => illegal_opcode opcode
  | 0x15 => address <- zeropageX ;; ORA address ;; add_cycles 4
  | 0x16 => address <- zeropageX ;; ASL address ;; add_cycles 6
  | 0x17 => illegal_opcode opcode
  | 0x18 => CLC ;; add_cycles 2
  | 0x19 => address <- absoluteY_1 ;; ORA address ;; add_cycles 4
  | 0x1A => illegal_opcode opcode
  | 0x1B => illegal_opcode opcode
  | 0x1C => illegal_opcode opcode
  | 0x1D => address <- absoluteX_1 ;; ORA address ;; add_cycles 4
  | 0x1E => address <- absoluteX ;; ASL address ;; add_cycles 7
  | 0x1F => illegal_opcode opcode
  | 0x20 => address <- absolute ;; JSR address ;; add_cycles 6
  | 0x21 => address <- indirectX ;; AND address ;; add_cycles 6
  | 0x22 => illegal_opcode opcode
  | 0x23 => illegal_opcode opcode
  | 0x24 => address <- zeropage ;; BIT address ;; add_cycles 3
  | 0x25 => address <- zeropage ;; AND address ;; add_cycles 3
  | 0x26 => address <- zeropage ;; ROL address ;; add_cycles 5
  | 0x27 => illegal_opcode opcode
  | 0x28 => PLP ;; add_cycles 4
  | 0x29 => address <- inmediate ;; AND address ;; add_cycles 2
  | 0x2A => ROL_ACC ;; add_cycles 2
  | 0x2B => illegal_opcode opcode
  | 0x2C => address <- absolute ;; BIT address ;; add_cycles 4
  | 0x2D => address <- absolute ;; AND address ;; add_cycles 4
  | 0x2E => address <- absolute ;; ROL address ;; add_cycles 6
  | 0x2F => illegal_opcode opcode
  | 0x30 => f <- get N_Flag ;; BXX f ;; add_cycles 2
  | 0x31 => address <- indirectY_1 ;; AND address ;; add_cycles 5
  | 0x32 => illegal_opcode opcode
  | 0x33 => illegal_opcode opcode
  | 0x34 => illegal_opcode opcode
  | 0x35 => address <- zeropageX ;; AND address ;; add_cycles 4
  | 0x36 => address <- zeropageX ;; ROL address ;; add_cycles 6
  | 0x37 => illegal_opcode opcode
  | 0x38 => SEC ;; add_cycles 2
  | 0x39 => address <- absoluteY_1 ;; AND address ;; add_cycles 4
  | 0x3A => illegal_opcode opcode
  | 0x3B => illegal_opcode opcode
  | 0x3C => illegal_opcode opcode
  | 0x3D => address <- absoluteX_1 ;; AND address ;; add_cycles 4
  | 0x3E => address <- absoluteX ;; ROL address ;; add_cycles 7
  | 0x3F => illegal_opcode opcode
  | 0x40 => RTI ;; add_cycles 6
  | 0x41 => address <- indirectX ;; EOR address ;; add_cycles 6
  | 0x42 => illegal_opcode opcode
  | 0x43 => illegal_opcode opcode
  | 0x44 => illegal_opcode opcode
  | 0x45 => address <- zeropage ;; EOR address ;; add_cycles 3
  | 0x46 => address <- zeropage ;; LSR address ;; add_cycles 5
  | 0x47 => illegal_opcode opcode
  | 0x48 => PHA ;; add_cycles 3
  | 0x49 => address <- inmediate ;; EOR address ;; add_cycles 2
  | 0x4A => LSR_ACC ;; add_cycles 2
  | 0x4B => illegal_opcode opcode
  | 0x4C => address <- absolute ;; JMP address ;; add_cycles 3
  | 0x4D => address <- absolute ;; EOR address ;; add_cycles 4
  | 0x4E => address <- absolute ;; LSR address ;; add_cycles 6
  | 0x4F => illegal_opcode opcode
  | 0x50 => f <- get V_Flag ;; BXX (of_bool (negb (truth f))) ;; add_cycles 2
  | 0x51 => address <- indirectY_1 ;; EOR address ;; add_cycles 5
  | 0x52 => illegal_opcode opcode
  | 0x53 => illegal_opcode opcode
  | 0x54 => illegal_opcode opcode
  | 0x55 => address <- zeropageX ;; EOR address ;; add_cycles 4
  | 0x56 => address <- zeropageX ;; LSR address ;; add_cycles 6
  | 0x57 => illegal_opcode opcode
  | 0x58 => CLI ;; add_cycles 2
  | 0x59 => address <- absoluteY_1 ;; EOR address ;; add_cycles 4
  | 0x5A => illegal_opcode opcode
  | 0x5B => illegal_opcode opcode
  | 0x5C => illegal_opcode opcode
  | 0x5D => address <- absoluteX_1 ;; EOR address ;; add_cycles 4
  | 0x5E => address <- absoluteX ;; LSR address ;; add_cycles 7
  | 0x5F => illegal_opcode opcode
  | 0x60 => RTS ;; add_cycles 6
  | 0x61 => address <- indirectX ;; ADC address ;; add_cycles 6
  | 0x62 => illegal_opcode opcode
  | 0x63 => illegal_opcode opcode
  | 0x64 => illegal_opcode opcode
  | 0x65 => address <- zeropage ;; ADC address ;; add_cycles 3
  | 0x66 => address <- zeropage ;; ROR address ;; add_cycles 5
  | 0x67 => illegal_opcode opcode
  | 0x68 => PLA ;; add_cycles 4
  | 0x69 => address <- inmediate ;; ADC address ;; add_cycles 2
  | 0x6A => ROR_ACC ;; add_cycles 2
  | 0x6B => illegal_opcode opcode
  | 0x6C => address <- indirect ;; JMP address ;; add_cycles 5
  | 0x6D => address <- absolute ;; ADC address ;; add_cycles 4
  | 0x6E => address <- absolute ;; ROR address ;; add_cycles 6
  | 0x6F => illegal_opcode opcode
  | 0x70 => f <- get V_Flag ;; BXX f ;; add_cycles 2
  | 0x71 => address <- indirectY_1 ;; ADC address ;; add_cycles 5
  | 0x72 => illegal_opcode opcode
  | 0x73 => illegal_opcode opcode
  | 0x74 => illegal_opcode opcode
  | 0x75 => address <- zeropageX ;; ADC address ;; add_cycles 4
  | 0x76 => address <- zeropageX ;; ROR address ;; add_cycles 6
  | 0x77 => illegal_opcode opcode
  | 0x78 => SEI ;; add_cycles 2
  | 0x79 => address <- absoluteY_1 ;; ADC address ;; add_cycles 4
  | 0x7A => illegal_opcode opcode
  | 0x7B => illegal_opcode opcode
  | 0x7C => illegal_opcode opcode
  | 0x7D => address <- absoluteX_1 ;; ADC address ;; add_cycles 4
  | 0x7E => address <- absoluteX ;; ROR address ;; add_cycles 7
  | 0x7F => illegal_opcode opcode
  | 0x80 => illegal_opcode opcode
  | 0x81 => address <- indirectX ;; STA address ;; add_cycles 6
  | 0x82 => illegal_opcode opcode
  | 0x83 => illegal_opcode opcode
  | 0x84 => address <- zeropage ;; STY address ;; add_cycles 3
  | 0x85 => address <- zeropage ;; STA address ;; add_cycles 3
  | 0x86 => address <- zeropage ;; STX address ;; add_cycles 3
  | 0x87 => illegal_opcode opcode
  | 0x88 => DEY ;; add_cycles 2
  | 0x89 => illegal_opcode opcode
  | 0x8A => TXA ;; add_cycles 2
  | 0x8B => illegal_opcode opcode
  | 0x8C => address <- absolute ;; STY address ;; add_cycles 4
  | 0x8D => address <- absolute ;; STA address ;; add_cycles 4
  | 0x8E => address <- absolute ;; STX address ;; add_cycles 4
  | 0x8F => illegal_opcode opcode
  | 0x90 => f <- get C_Flag ;; BXX (of_bool (negb (truth f))) ;; add_cycles 2
  | 0x91 => address <- indirectY ;; STA address ;; add_cycles 6
  | 0x92 => illegal_opcode opcode
  | 0x93 => illegal_opcode opcode
  | 0x94 => address <- zeropageX ;; STY address ;; add_cycles 4
  | 0x95 => address <- zeropageX ;; STA address ;; add_cycles 4
  | 0x96 => address <- zeropageY ;; STX address ;; add_cycles 4
  | 0x97 => illegal_opcode opcode
  | 0x98 => TYA ;; add_cycles 2
  | 0x99 => address <- absoluteY ;; STA address ;; add_cycles 5
  | 0x9A => TXS ;; add_cycles 2
  | 0x9B => illegal_opcode opcode
  | 0x9C => illegal_opcode opcode
  | 0x9D => address <- absoluteX ;; STA address ;; add_cycles 5
  | 0x9E => illegal_opcode opcode
  | 0x9F => illegal_opcode opcode
  | 0xA0 => address <- inmediate ;; LDY address ;; add_cycles 2
  | 0xA1 => address <- indirectX ;; LDA address ;; add_cycles 6
  | 0xA2 => address <- inmediate ;; LDX address ;; add_cycles 2
  | 0xA3 => illegal_opcode opcode
  | 0xA4 => address <- zeropage ;; LDY address ;; add_cycles 3
  | 0xA5 => address <- zeropage ;; LDA address ;; add_cycles 3
  | 0xA6 => address <- zeropage ;; LDX address ;; add_cycles 3
  | 0xA7 => illegal_opcode opcode
  | 0xA8 => TAY ;; add_cycles 2
  | 0xA9 => address <- inmediate ;; LDA address ;; add_cycles 2
  | 0xAA => TAX ;; add_cycles 2
  | 0xAB => illegal_opcode opcode
  | 0xAC => address <- absolute ;; LDY address ;; add_cycles 4
  | 0xAD => address <- absolute ;; LDA address ;; add_cycles 4
  | 0xAE => address <- absolute ;; LDX address ;; add_cycles 4
  | 0xAF => illegal_opcode opcode
  | 0xB0 => f <- get C_Flag ;; BXX f ;; add_cycles 2
  | 0xB1 => address <- indirectY_1 ;; LDA address ;; add_cycles 5
  | 0xB2 => illegal_opcode opcode
  | 0xB3 => illegal_opcode opcode
  | 0xB4 => address <- zeropageX ;; LDY address ;; add_cycles 4
  | 0xB5 => address <- zeropageX ;; LDA address ;; add_cycles 4
  | 0xB6 => address <- zeropageY ;; LDX address ;; add_cycles 4
  | 0xB7 => illegal_opcode opcode
  | 0xB8 => CLV ;; add_cycles 2
  | 0xB9 => address <- absoluteY_1 ;; LDA address ;; add_cycles 4
  | 0xBA => TSX ;; add_cycles 2
  | 0xBB => illegal_opcode opcode
  | 0xBC => address <- absoluteX_1 ;; LDY address ;; add_cycles 4
  | 0xBD => address <- absoluteX_1 ;; LDA address ;; add_cycles 4
  | 0xBE => address <- absoluteY_1 ;; LDX address ;; add_cycles 4
  | 0xBF => illegal_opcode opcode
  | 0xC0 => address <- inmediate ;; CPY address ;; add_cycles 2
  | 0xC1 => address <- indirectX ;; CMP address ;; add_cycles 6
  | 0xC2 => illegal_opcode opcode
  | 0xC3 => illegal_opcode opcode
  | 0xC4 => address <- zeropage ;; CPY address ;; add_cycles 3
  | 0xC5 => address <- zeropage ;; CMP address ;; add_cycles 3
  | 0xC6 => address <- zeropage ;; DEC address ;; add_cycles 5
  | 0xC7 => illegal_opcode opcode
  | 0xC8 => INY ;; add_cycles 2
  | 0xC9 => address <- inmediate ;; CMP address ;; add_cycles 2
  | 0xCA => DEX ;; add_cycles 2
  | 0xCB => illegal_opcode opcode
  | 0xCC => address <- absolute ;; CPY address ;; add_cycles 4
  | 0xCD => address <- absolute ;; CMP address ;; add_cycles 4
  | 0xCE => address <- absolute ;; DEC address ;; add_cycles 6
  | 0xCF => illegal_opcode opcode
  | 0xD0 => f <- get Z_Flag ;; BXX (of_bool (negb (truth f))) ;; add_cycles 2
  | 0xD1 => address <- indirectY_1 ;; CMP address ;; add_cycles 5
  | 0xD2 => illegal_opcode opcode
  | 0xD3 => illegal_opcode opcode
  | 0xD4 => illegal_opcode opcode
  | 0xD5 => address <- zeropageX ;; CMP address ;; add_cycles 4
  | 0xD6 => address <- zeropageX ;; DEC address ;; add_cycles 6
  | 0xD7 => illegal_opcode opcode
  | 0xD8 => CLD ;; add_cycles 2
  | 0xD9 => address <- absoluteY_1 ;; CMP address ;; add_cycles 4
  | 0xDA => illegal_opcode opcode
  | 0xDB => illegal_opcode opcode
  | 0xDC => illegal_opcode opcode
  | 0xDD => address <- absoluteX_1 ;; CMP address ;; add_cycles 4
  | 0xDE => address <- absoluteX ;; DEC address ;; add_cycles 7
  | 0xDF => illegal_opcode opcode
  | 0xE0 => address <- inmediate ;; CPX address ;; add_cycles 2
  | 0xE1 => address <- indirectX ;; SBC address ;; add_cycles 6
  | 0xE2 => illegal_opcode opcode
  | 0xE3 => illegal_opcode opcode
  | 0xE4 => address <- zeropage ;; CPX address ;; add_cycles 3
  | 0xE5 => address <- zeropage ;; SBC address ;; add_cycles 3
  | 0xE6 => address <- zeropage ;; INC address ;; add_cycles 5
  | 0xE7 => illegal_opcode opcode
  | 0xE8 => INX ;; add_cycles 2
  | 0xE9 => address <- inmediate ;; SBC address ;; add_cycles 2
  | 0xEA => add_cycles 2
  | 0xEB => illegal_opcode opcode
  | 0xEC => address <- absolute ;; CPX address ;; add_cycles 4
  | 0xED => address <- absolute ;; SBC address ;; add_cycles 4
  | 0xEE => address <- absolute ;; INC address ;; add_cycles 6
  | 0xEF => illegal_opcode opcode
  | 0xF0 => f <- get Z_Flag ;; BXX f ;; add_cycles 2
  | 0xF1 => address <- indirectY_1 ;; SBC address ;; add_cycles 5
  | 0xF2 => illegal_opcode opcode
  | 0xF3 => illegal_opcode opcode
  | 0xF4 => illegal_opcode opcode
  | 0xF5 => address <- zeropageX ;; SBC address ;; add_cycles 4
  | 0xF6 => address <- zeropageX ;; INC address ;; add_cycles 6
  | 0xF7 => illegal_opcode opcode
  | 0xF8 => SED ;; add_cycles 2
  | 0xF9 => address <- absoluteY_1 ;; SBC address ;; add_cycles 4
  | 0xFA => illegal_opcode opcode
  | 0xFB => illegal_opcode opcode
  | 0xFC => illegal_opcode opcode
  | 0xFD => address <- absoluteX_1 ;; SBC address ;; add_cycles 4
  | 0xFE => address <- absoluteX ;; INC address ;; add_cycles 7
  | 0xFF => illegal_opcode opcode
  | _ => ret tt
  end.

(** Execute one instruction. *)
Definition cpu_execute : M Z :=
  put with_cycles 0 ;;
  (* Whenever IRQ_PIN_LEVEL is low and I flag is zero an interrupt must be made *)
  irq <- get IRQ_PIN_LEVEL ;;
  i <- get I_Flag ;;
  (if negb (truth irq || truth i) then do_irq IRQ_VECTOR else ret tt) ;;
  (* Now, just interpret opcodes *)
  pc <- get PC ;;
  put with_PC (u16 (pc + 1)) ;;
  opcode <- read_byte pc ;;
  execute_opcode opcode ;;
  get cycles.

(** [motherboard_reset]: resets the ACIA, then the CPU. *)
Definition motherboard_reset : M unit :=
  mc6850_reset ;;
  cpu_reset.

(** ** timeutils.c *)

(** [struct timespec]: [tv_sec] is a [time_t] and [tv_nsec] a [long], both
    signed 64-bit integers. *)
Record timespec := mkTimespec {
  tv_sec : Z;
  tv_nsec : Z
}.

Definition LONG_MIN : Z := - 2 ^ 63.
Definition LONG_MAX : Z := 2 ^ 63 - 1.

(** The result of a signed operation: outside the type the behaviour is
    undefined, which is [None] here. *)
Definition long (z : Z) : option Z :=
  if (LONG_MIN <=? z) && (z <=? LONG_MAX) then Some z else None.

Definition and_then {T U} (o : option T) (k : T -> option U) : option U :=
  match o with
  | Some v => k v
  | None => None
  end.

Notation "x <-- o ;; k" := (and_then o (fun x => k))
  (at level 61, o at next level, right associativity).

(** A timersub function for timespec. *)
Definition timerspecsub (stop start : timespec) : option timespec :=
  d <-- long (tv_nsec stop - tv_nsec start) ;;
  if d <? 0 then
    s <-- long (tv_sec stop - tv_sec start) ;;
    s <-- long (s - 1) ;;
    n <-- long (d + 1000000000) ;;
    Some (mkTimespec s n)
  else
    s <-- long (tv_sec stop - tv_sec start) ;;
    Some (mkTimespec s d).

(** timespec to nanoseconds, microseconds and milliseconds; [/] of C
    truncates. *)
Definition timespec_to_ns (t : timespec) : option Z :=
  p <-- long (tv_sec t * 1000000000) ;; long (p + tv_nsec t).

Definition timespec_to_us (t : timespec) : option Z :=
  p <-- long (tv_sec t * 1000000) ;; long (p + Z.quot (tv_nsec t) 1000).

Definition timespec_to_ms (t : timespec) : option Z :=
  p <-- long (tv_sec t * 1000) ;; long (p + Z.quot (tv_nsec t) 1000000).

(** ** uk101re.c *)

(** The inner loop of [main],
    [while (cycles < 20000) cycles += cpu_execute();], run for at most
    [fuel] steps: [None] when the fuel runs out before the loop ends. *)
Fixpoint time_slice (fuel : nat) (cycles : Z) : M (option Z) :=
  if cycles <? 20000 then
    match fuel with
    | O => ret None
    | S k => n <- cpu_execute ;; time_slice k (cycles + n)
    end
  else ret (Some cycles).

(** * Concrete machines for the scenarios *)

(** An array holding [bytes] from index [base] on, and [rest] elsewhere. *)
Definition load (base : Z) (bytes : list Z) (rest : Z -> Z) : Z -> Z :=
  fun a =>
    if in_range base (base + Z.of_nat (List.length bytes) - 1) a
    then nth (Z.to_nat (a - base)) bytes 0
    else rest a.

Definition blank : Z -> Z := fun _ => 0.

Definition acia_reset : mc6850 := mkAcia 0x00 0x00 0x00 0x0E.
Definition term_idle : terminal := mkTerm 0 0 [] 0 0 [] [].

(** The machine after power-on and [motherboard_reset], for a ROM and a RAM
    image: IRQ pin high, registers and flags as [cpu_reset] leaves them. *)
Definition power_on (rom ram : Z -> Z) : machine :=
  exec motherboard_reset
    (mkMachine (mkCpu 0 1 0 0 0 0 0 0 0 0 0 0 0) rom ram (mkAcia 0 0 0 0) term_idle).

(** Running [n] steps, keeping the cycle counts the driver adds up. *)
Fixpoint run (n : nat) (m : machine) : Z * machine :=
  match n with
  | O => (0, m)
  | S k => let (c, m1) := cpu_execute m in
           let (cs, m2) := run k m1 in (c + cs, m2)
  end.

(** * Specification vocabulary

    The notions the theorems are stated with. *)

(** A value that fits the C type. *)
Definition byte (v : Z) : Prop := 0 <= v < 0x100.
Definition word16 (v : Z) : Prop := 0 <= v < 0x10000.

(** The CPU services an IRQ in this step. *)
Definition irq_serviced (m : machine) : bool :=
  negb (truth (IRQ_PIN_LEVEL (cpu m)) || truth (I_Flag (cpu m))).

(** The interrupt test that opens [cpu_execute], and the fetch and dispatch
    that close it. *)
Definition irq_check : M unit :=
  put with_cycles 0 ;;
  irq <- get IRQ_PIN_LEVEL ;;
  i <- get I_Flag ;;
  (if negb (truth irq || truth i) then do_irq IRQ_VECTOR else ret tt).

Definition fetch_execute : M unit :=
  pc <- get PC ;;
  put with_PC (u16 (pc + 1)) ;;
  opcode <- read_byte pc ;;
  execute_opcode opcode.

(** The byte a fetch at [PC] yields. *)
Definition fetched_opcode (m : machine) : Z := eval (read_byte (PC (cpu m))) m.

(** The 151 opcodes of the documented 6502 instruction set, by row of the
    opcode matrix. *)
Definition documented_opcodes : list Z :=
  [0x00; 0x01; 0x05; 0x06; 0x08; 0x09; 0x0A; 0x0D; 0x0E;
   0x10; 0x11; 0x15; 0x16; 0x18; 0x19; 0x1D; 0x1E;
   0x20; 0x21; 0x24; 0x25; 0x26; 0x28; 0x29; 0x2A; 0x2C; 0x2D; 0x2E;
   0x30; 0x31; 0x35; 0x36; 0x38; 0x39; 0x3D; 0x3E;
   0x40; 0x41; 0x45; 0x46; 0x48; 0x49; 0x4A; 0x4C; 0x4D; 0x4E;
   0x50; 0x51; 0x55; 0x56; 0x58; 0x59; 0x5D; 0x5E;
   0x60; 0x61; 0x65; 0x66; 0x68; 0x69; 0x6A; 0x6C; 0x6D; 0x6E;
   0x70; 0x71; 0x75; 0x76; 0x78; 0x79; 0x7D; 0x7E;
   0x81; 0x84; 0x85; 0x86; 0x88; 0x8A; 0x8C; 0x8D; 0x8E;
   0x90; 0x91; 0x94; 0x95; 0x96; 0x98; 0x99; 0x9A; 0x9D;
   0xA0; 0xA1; 0xA2; 0xA4; 0xA5; 0xA6; 0xA8; 0xA9; 0xAA; 0xAC; 0xAD; 0xAE;
   0xB0; 0xB1; 0xB4; 0xB5; 0xB6; 0xB8; 0xB9; 0xBA; 0xBC; 0xBD; 0xBE;
   0xC0; 0xC1; 0xC4; 0xC5; 0xC6; 0xC8; 0xC9; 0xCA; 0xCC; 0xCD; 0xCE;
   0xD0; 0xD1; 0xD5; 0xD6; 0xD8; 0xD9; 0xDD; 0xDE;
   0xE0; 0xE1; 0xE4; 0xE5; 0xE6; 0xE8; 0xE9; 0xEA; 0xEC; 0xED; 0xEE;
   0xF0; 0xF1; 0xF5; 0xF6; 0xF8; 0xF9; 0xFD; 0xFE].

Definition documented (opcode : Z) : bool :=
  existsb (Z.eqb opcode) documented_opcodes.

(** An opcode byte outside the documented set. *)
Definition illegal (opcode : Z) : Prop :=
  byte opcode /\ documented opcode = false.

(** The values of a byte, in order. *)
Definition all_bytes : list Z := map Z.of_nat (seq 0 256).

(** The eight conditional branches of the 6502 and whether each is taken. *)
Definition branch_taken (opcode : Z) (c : cpu6502) : option bool :=
  match opcode with
  | 0x10 => Some (negb (truth (N_Flag c)))   (* BPL *)
  | 0x30 => Some (truth (N_Flag c))          (* BMI *)
  | 0x50 => Some (negb (truth (V_Flag c)))   (* BVC *)
  | 0x70 => Some (truth (V_Flag c))          (* BVS *)
  | 0x90 => Some (negb (truth (C_Flag c)))   (* BCC *)
  | 0xB0 => Some (truth (C_Flag c))          (* BCS *)
  | 0xD0 => Some (negb (truth (Z_Flag c)))   (* BNE *)
  | 0xF0 => Some (truth (Z_Flag c))          (* BEQ *)
  | _ => None
  end.

(** Packed BCD: a byte read as a two-digit decimal number, and back. *)
Definition valid_bcd (v : Z) : Prop := 0 <= v / 16 <= 9 /\ 0 <= v mod 16 <= 9.
Definition dec (v : Z) : Z := 10 * (v / 16) + v mod 16.
Definition bcd (n : Z) : Z := 16 * (n / 10) + n mod 10.

(** The machine [do_irq] leaves: the return address and the packed flags
    on the stack, I set, PC from the vector, seven cycles more. *)
Definition after_irq (vector : Z) (m : machine) : machine :=
  let c := cpu m in
  mkMachine
    (mkCpu (cycles c + 7) (IRQ_PIN_LEVEL c) (A c) (X c) (Y c)
           (u8 (SP c - 3))
           (word (ROM m (Z.land (vector + 1) ROMMASK)) (ROM m (Z.land vector ROMMASK)))
           (N_Flag c) (V_Flag c) (D_Flag c) 0x01 (Z_Flag c) (C_Flag c))
    (ROM m)
    (store (0x0100 + u8 (SP c - 2)) (eval get_P m)
       (store (0x0100 + u8 (SP c - 1)) (PC c mod 0x100)
          (store (0x0100 + SP c) (PC c / 0x100) (RAM m))))
    (acia m) (term m).

(** The step as claim C1 words it: the interrupt entry, then return. *)
Definition irq_only_step : M Z :=
  put with_cycles 0 ;; do_irq IRQ_VECTOR ;; get cycles.

(** ** Machines of the counterexamples *)

(** Reset vector [0x0000], IRQ vector [0x0200]; [CLI] at [0x0000] and
    [LDA #$42] at [0x0200].  After the [CLI] has run the IRQ pin is pulled
    low. *)
Definition rom_c1 : Z -> Z := load 0x7FFC [0x00; 0x00; 0x00; 0x02] blank.
Definition ram_c1 : Z -> Z := load 0x0200 [0xA9; 0x42] (load 0x0000 [0x58] blank).
Definition m_c1 : machine :=
  exec (cpu_irq 0) (exec cpu_execute (power_on rom_c1 ram_c1)).

(** NMI vector [0x0300] with a [NOP] there; the machine is fresh from reset,
    so I is set. *)
Definition rom_c2 : Z -> Z := load 0x7FFA [0x00; 0x03; 0x00; 0x00; 0x00; 0x00] blank.
Definition ram_c2 : Z -> Z := load 0x0300 [0xEA] blank.
Definition m_c2 : machine := power_on rom_c2 ram_c2.

(** Reset vector [0xFFFF], and [0x02] in the last byte of the ROM. *)
Definition rom_c3 : Z -> Z := load 0x7FFC [0xFF; 0xFF; 0x00; 0x02] blank.
Definition m_c3 : machine := power_on rom_c3 blank.

(** Reset vector [0x0000], IRQ vector [0x0200]; [CLI] at [0x0000] and
    [BNE +2] at [0x0200], reached with Z set: a branch not taken. *)
Definition ram_c5 : Z -> Z := load 0x0200 [0xD0; 0x02] (load 0x0000 [0x58] blank).
Definition m_c5 : machine :=
  exec (cpu_irq 0) (exec cpu_execute (power_on rom_c1 ram_c5)).

(** The third scenario of the specification, before its [BEQ]: reset vector
    [0x00F0], [LDA #$00; BEQ +16] there, the [LDA] done. *)
Definition m_s3 : machine :=
  exec cpu_execute
    (power_on (load 0x7FFC [0xF0; 0x00] blank) (load 0x00F0 [0xA9; 0x00; 0xF0; 0x10] blank)).

(** The fourth scenario of the specification: [JSR $0006] at [0x0000],
    [RTS] at [0x0006], the machine fresh from reset. *)
Definition m_s4 : machine :=
  power_on blank (load 0x0000 [0x20; 0x06; 0x00; 0x00; 0x00; 0x00; 0x60] blank).

(** A machine fresh from reset whose keyboard mailbox holds ['A']. *)
Definition m_kbd : machine :=
  with_term (mkTerm 0 0 [] 1 0x41 [] []) (power_on blank blank).

(** [A] and [C_Flag] as the decimal branch of [ADC] computes them from the
    accumulator, the operand and the carry flag. *)
Definition adc_decimal (op1 op2 c : Z) : Z * Z :=
  let dec_l := u16 (Z.land op1 0x0F + Z.land op2 0x0F + of_bool (truth c)) in
  let dec_h := u16 (Z.land op1 0xF0 + Z.land op2 0xF0) in
  let adj := dec_l >? 0x09 in
  let dec_h := if adj then u16 (dec_h + 0x10) else dec_h in
  let dec_l := if adj then u16 (dec_l + 0x06) else dec_l in
  let dec_h := if dec_h >? 0x90 then u16 (dec_h + 0x60) else dec_h in
  (u8 (Z.lor (Z.land dec_l 0x000F) (Z.land dec_h 0x00F0)), u8 (Z.shiftr dec_h 8)).

Definition valid_bcdb (v : Z) : bool := (v / 16 <=? 9) && (v mod 16 <=? 9).

(** Decimal addition is right at the operands [a], [b] for both carries. *)
Definition adc_decimal_ok (a b : Z) : bool :=
  implb (valid_bcdb a && valid_bcdb b)
    (forallb
       (fun c =>
          let s := dec a + dec b + c in
          let r := adc_decimal a b c in
          (fst r =? bcd (s mod 100)) && (snd r =? of_bool (100 <=? s)))
       [0; 1]).

(** Decimal mode on, [A = 0x15], carry clear, and [0x27] at [0x0010]. *)
Definition m_c4 : machine :=
  mkMachine (mkCpu 0 1 0x15 0 0 0xFD 0 0 0 1 4 0 0) blank (load 0x0010 [0x27] blank)
            acia_reset term_idle.

(** * Further vocabulary *)

(** The translation [read_keyboard] applies to a byte: LF becomes CR. *)
Definition lf_to_cr (b : Z) : Z := if b =? 0x0A then 0x0D else b.

(** [n] successive calls of [read_keyboard], with the bytes they return. *)
Fixpoint read_keys (n : nat) : M (list Z) :=
  match n with
  | O => ret []
  | S k => b <- read_keyboard ;; bs <- read_keys k ;; ret (b :: bs)
  end.

(** A machine in binary mode with carry set: [A = 0x50], [X = 0x01],
    [Y = 0xFF], [PC = 0x0200], and [0xF0] at [0x0010]. *)
Definition m_alu : machine :=
  mkMachine (mkCpu 0 1 0x50 0x01 0xFF 0xFD 0x0200 0 0 0 4 0 1) blank
            (load 0x0010 [0xF0] blank) acia_reset term_idle.

(** The same in decimal mode, with [0x27] at [0x0010] and [A = 0x15]. *)
Definition m_dec : machine :=
  mkMachine (mkCpu 0 1 0x15 0 0 0xFD 0 0 0 1 4 0 0) blank
            (load 0x0010 [0x27] blank) acia_reset term_idle.

(** [PC = 0x0200] at the operand bytes [FF 80], [X = 0x01], [Y = 0xFF]; page
    zero holds [0x12] at [0x00] and [0x80] at [0xFF]. *)
Definition m_idx : machine :=
  mkMachine (mkCpu 0 1 0 0x01 0xFF 0xFD 0x0200 0 0 0 4 0 0) blank
            (load 0x0200 [0xFF; 0x80] (load 0x00FF [0x80] (load 0x0000 [0x12] blank)))
            acia_reset term_idle.

(** [PC = 0x0200] at the pointer [0x02FF]; [0x02FF] holds [0x34] and
    [0x0300] holds [0x12]. *)
Definition m_jmp : machine :=
  mkMachine (mkCpu 0 1 0 0x01 0xFF 0xFD 0x0200 0 0 0 4 0 0) blank
            (load 0x0200 [0xFF; 0x02] (load 0x02FF [0x34; 0x12] blank))
            acia_reset term_idle.

(** A machine fresh from reset reading its keys from a data file that holds
    ["A", LF, "B"]. *)
Definition m_file : machine :=
  with_term (mkTerm 1 3 [0x41; 0x0A; 0x42] 0 0 [] []) (power_on blank blank).

(** The same with an empty data file, and a key waiting in the mailbox. *)
Definition m_empty_file : machine :=
  with_term (mkTerm 1 0 [] 1 0x41 [] []) (power_on blank blank).

(** A machine fresh from reset with [LDA #$41; STA $F001] at the reset
    target [0x0000]. *)
Definition m_out : machine :=
  power_on blank (load 0x0000 [0xA9; 0x41; 0x8D; 0x01; 0xF0] blank).

(** [PC] at a [JMP] to itself at [0x0200], 19990 cycles into a slice. *)
Definition m_loop : machine :=
  mkMachine (mkCpu 0 1 0 0 0 0xFD 0x0200 0 0 0 4 0 0) blank
            (load 0x0200 [0x4C; 0x00; 0x02] blank) acia_reset term_idle.

(** The time a [timespec] stands for, in nanoseconds, and what makes it
    a normal one of moderate size. *)
Definition nanoseconds (t : timespec) : Z := tv_sec t * 1000000000 + tv_nsec t.

Definition normal (t : timespec) : Prop :=
  - 2 ^ 32 <= tv_sec t <= 2 ^ 32 /\ 0 <= tv_nsec t < 1000000000.

(** ** Invariants of a computation *)

(** [c] leaves the ROM as it finds it. *)
Definition keeps_ROM {T} (c : M T) : Prop :=
  forall m, ROM (exec c m) = ROM m.

(** [c] adds at least [lo] and at most [hi] to the cycle counter. *)
Definition adds (lo hi : Z) {T} (c : M T) : Prop :=
  forall m,
    cycles (cpu m) + lo <= cycles (cpu (exec c m)) <= cycles (cpu m) + hi.

(** [m] with [k] more cycles counted. *)
Definition shift_cycles (k : Z) (m : machine) : machine :=
  with_cpu (with_cycles (cycles (cpu m) + k) (cpu m)) m.

(** [c] never looks at the cycle counter: started with [k] more cycles
    counted it returns the same, and leaves the same state with [k] more
    cycles counted. *)
Definition ignores_cycles {T} (c : M T) : Prop :=
  forall k m, c (shift_cycles k m) = (eval c m, shift_cycles k (exec c m)).

(** ** The C types of the state *)

(** Every [uint8_t] field of the CPU holds a byte and [PC] a 16-bit word;
    [cycles] is an [int]. *)
Definition cpu_typed (c : cpu6502) : Prop :=
  byte (IRQ_PIN_LEVEL c) /\ byte (A c) /\ byte (X c) /\ byte (Y c)
  /\ byte (SP c) /\ word16 (PC c)
  /\ byte (N_Flag c) /\ byte (V_Flag c) /\ byte (D_Flag c)
  /\ byte (I_Flag c) /\ byte (Z_Flag c) /\ byte (C_Flag c).

Definition acia_typed (a : mc6850) : Prop :=
  byte (TDR a) /\ byte (RDR a) /\ byte (CR a) /\ byte (SR a).

(** The registers, the cells of both memories and what went to the
    terminal are within their types. *)
Definition machine_typed (m : machine) : Prop :=
  cpu_typed (cpu m)
  /\ (forall a, byte (ROM m a))
  /\ (forall a, byte (RAM m a))
  /\ acia_typed (acia m)
  /\ Forall byte (stdout (term m)).

(** From a typed state [c] leaves a typed state, returns a value in [Q]
    and sends at most [n] bytes to the terminal. *)
Definition typed (n : nat) {T} (Q : T -> Prop) (c : M T) : Prop :=
  forall m, machine_typed m ->
    machine_typed (exec c m)
    /\ Q (eval c m)
    /\ exists l, stdout (term (exec c m)) = stdout (term m) ++ l
                 /\ (List.length l <= n)%nat.

(** * Proof automation *)

(** Splitting a conjunction of closed facts without reducing them. *)
Ltac split_all := repeat match goal with |- _ /\ _ => split end.

(** A closed equation between integers, by evaluation. *)
Ltac eval_Z := match goal with |- @eq Z _ _ => vm_compute; reflexivity end.

(** Reduction of the projections and updates of the state records. *)
Ltac state_simpl :=
  cbv beta delta
      [with_cpu with_RAM with_acia with_term
       with_cycles with_IRQ_PIN_LEVEL with_A with_X with_Y with_SP with_PC
       with_N_Flag with_V_Flag with_D_Flag with_I_Flag with_Z_Flag with_C_Flag] in *;
  cbn [cpu ROM RAM acia term
       cycles IRQ_PIN_LEVEL A X Y SP PC N_Flag V_Flag D_Flag I_Flag Z_Flag C_Flag
       fst snd] in *.

(** The head constant of an application. *)
Ltac head_of t :=
  lazymatch t with
  | ?f _ => head_of f
  | _ => t
  end.

(** Case analysis of a positive number down to its eighth bit. *)
Ltac bits n p tac :=
  lazymatch n with
  | O => tac
  | S ?k => destruct p as [p | p |]; [bits k p tac | bits k p tac | tac]
  end.

(** * Basic facts *)

(** ** Exhaustive checks over the values of a byte *)

Lemma all_bytes_complete (v : Z) : byte v -> In v all_bytes.
Proof.
  intros [H0 H1]. unfold all_bytes.
  rewrite <- (Z2Nat.id v) by assumption.
  apply in_map, in_seq. lia.
Qed.

Lemma forall_byte (P : Z -> bool) :
  forallb P all_bytes = true -> forall v, byte v -> P v = true.
Proof.
  intros H v Hv. rewrite forallb_forall in H. apply H, all_bytes_complete, Hv.
Qed.

Lemma forall_byte2 (P : Z -> Z -> bool) :
  forallb (fun a => forallb (P a) all_bytes) all_bytes = true ->
  forall a b, byte a -> byte b -> P a b = true.
Proof.
  intros H a b Ha Hb.
  apply (forall_byte (P a)); [| exact Hb].
  apply (forall_byte (fun a => forallb (P a) all_bytes)); assumption.
Qed.

Lemma u8_byte v : byte (u8 v).
Proof. unfold byte, u8. apply Z.mod_pos_bound. lia. Qed.

Lemma u16_word16 v : word16 (u16 v).
Proof. unfold word16, u16. apply Z.mod_pos_bound. lia. Qed.

Create HintDb c_int.
#[local] Hint Resolve u8_byte u16_word16 : c_int.

Lemma u8_id v : byte v -> u8 v = v.
Proof. intros H. apply Z.mod_small, H. Qed.

Lemma u16_id v : word16 v -> u16 v = v.
Proof. intros H. apply Z.mod_small, H. Qed.

(** The stack lives in page one. *)
Lemma stack_address sp : byte sp -> Z.lor 0x0100 sp = 0x0100 + sp.
Proof.
  intros H. apply Z.eqb_eq.
  apply (forall_byte (fun sp => Z.lor 0x0100 sp =? 0x0100 + sp)); [| exact H].
  vm_compute. reflexivity.
Qed.

Lemma ram_index a : 0 <= a <= 0x7FFF -> Z.land a RAMMASK = a.
Proof.
  intros H. change RAMMASK with (Z.ones 15).
  rewrite Z.land_ones by lia. apply Z.mod_small.
  change (2 ^ 15) with 0x8000. lia.
Qed.

(** A 16-bit value is its two bytes. *)
Lemma word_split v : word16 v -> v = 0x100 * (v / 0x100) + v mod 0x100 /\ byte (v / 0x100) /\ byte (v mod 0x100).
Proof.
  intros [H0 H1]. unfold byte. repeat split.
  - apply Z.div_mod. lia.
  - apply Z.div_pos; lia.
  - apply Z.div_lt_upper_bound; lia.
  - apply Z.mod_pos_bound. lia.
  - apply Z.mod_pos_bound. lia.
Qed.

Lemma page_mask v : word16 v -> Z.land v 0xFF00 = 0x100 * (v / 0x100).
Proof.
  intros H. destruct (word_split v H) as (E & Hh & Hl).
  rewrite E at 1. apply Z.eqb_eq.
  apply (forall_byte2 (fun h l => Z.land (0x100 * h + l) 0xFF00 =? 0x100 * h)); try assumption.
  vm_compute. reflexivity.
Qed.

Lemma same_page_test a b :
  word16 a -> word16 b ->
  (Z.land a 0xFF00 =? Z.land b 0xFF00) = (a / 0x100 =? b / 0x100).
Proof.
  intros Ha Hb. rewrite !page_mask by assumption.
  destruct (Z.eqb_spec (a / 0x100) (b / 0x100)) as [E | E].
  - rewrite E. apply Z.eqb_refl.
  - apply Z.eqb_neq. lia.
Qed.

(** ** Reads leave the CPU and the two arrays alone *)

Lemma check_keyboard_ready_state m : snd (check_keyboard_ready m) = m.
Proof. unfold check_keyboard_ready. destruct (truth _); reflexivity. Qed.

Lemma mc6850_readbyte_frame address m :
  exists v a t, mc6850_readbyte address m = (v, mkMachine (cpu m) (ROM m) (RAM m) a t).
Proof.
  destruct m as [c rom ram a t]. unfold mc6850_readbyte.
  destruct (negb (truth (Z.land address 0x0800))); [| repeat eexists ].
  destruct (Z.land address 0x0001) as [| [p | p |] | p]; try (repeat eexists; fail).
  - unfold bind, check_keyboard_ready. simpl.
    destruct (truth (flag_datafile t)); simpl.
    + destruct (truth (of_bool _)); repeat eexists.
    + destruct (truth (stdin_has_data t)); repeat eexists.
  - unfold bind, read_keyboard. simpl.
    destruct (truth (flag_datafile t)); [destruct (truth (datasize t)); [destruct (fgetc _) |] | destruct (truth (stdin_has_data t))];
      repeat eexists.
Qed.

Lemma read_byte_frame address m :
  exists v a t, read_byte address m = (v, mkMachine (cpu m) (ROM m) (RAM m) a t).
Proof.
  unfold read_byte, motherboard_readbyte. cbv zeta.
  destruct (in_range 0x0000 0x7FFF (u16 address)); [destruct m; repeat eexists |].
  destruct (in_range 0x8000 0xEFFF (u16 address)); [destruct m; repeat eexists |].
  destruct (in_range 0xF000 0xF7FF (u16 address)); [apply mc6850_readbyte_frame |].
  destruct (in_range 0xF800 0xFFFF (u16 address)); destruct m; repeat eexists.
Qed.

(** What a read returns and does to the devices does not depend on the CPU. *)
Lemma mc6850_readbyte_with_cpu address c m :
  mc6850_readbyte address (with_cpu c m) =
  (eval (mc6850_readbyte address) m, with_cpu c (exec (mc6850_readbyte address) m)).
Proof.
  destruct m as [c0 rom ram a t]. unfold mc6850_readbyte, eval, exec.
  destruct (negb (truth (Z.land address 0x0800))); [| reflexivity ].
  destruct (Z.land address 0x0001) as [| [p | p |] | p]; try reflexivity.
  - unfold bind, check_keyboard_ready. simpl.
    destruct (truth (flag_datafile t)); simpl.
    + destruct (truth (of_bool _)); reflexivity.
    + destruct (truth (stdin_has_data t)); reflexivity.
  - unfold bind, read_keyboard. simpl.
    destruct (truth (flag_datafile t)); [destruct (truth (datasize t)); [destruct (fgetc _) |] | destruct (truth (stdin_has_data t))];
      reflexivity.
Qed.

Lemma read_byte_with_cpu address c m :
  read_byte address (with_cpu c m) =
  (eval (read_byte address) m, with_cpu c (exec (read_byte address) m)).
Proof.
  unfold read_byte, motherboard_readbyte, eval, exec. cbv zeta.
  destruct (in_range 0x0000 0x7FFF (u16 address)); [destruct m; reflexivity |].
  destruct (in_range 0x8000 0xEFFF (u16 address)); [destruct m; reflexivity |].
  destruct (in_range 0xF000 0xF7FF (u16 address)); [apply mc6850_readbyte_with_cpu |].
  destruct (in_range 0xF800 0xFFFF (u16 address)); destruct m; reflexivity.
Qed.

(** * The bus and the ACIA *)

(** Inside the window [0xF000-0xF7FF] address bit 11 is never set: the ACIA
    is selected by every access the decoder hands to it. *)
Lemma acia_window_selected address :
  0xF000 <= address <= 0xF7FF -> Z.land address 0x0800 = 0.
Proof.
  intros H.
  assert (W : word16 address) by (unfold word16; lia).
  destruct (word_split address W) as (E & Hh & Hl).
  assert (R : in_range 0xF0 0xF7 (address / 0x100) = true).
  { unfold in_range. apply andb_true_intro. split; apply Z.leb_le.
    - apply Z.div_le_lower_bound; lia.
    - apply Z.lt_succ_r. apply Z.div_lt_upper_bound; lia. }
  rewrite E. apply Z.eqb_eq.
  generalize
    (forall_byte2
       (fun h l => implb (in_range 0xF0 0xF7 h) (Z.land (0x100 * h + l) 0x0800 =? 0))
       ltac:(vm_compute; reflexivity) _ _ Hh Hl).
  rewrite R. simpl. trivial.
Qed.

Lemma decode_acia address :
  0xF000 <= address <= 0xF7FF ->
  motherboard_readbyte address = mc6850_readbyte address.
Proof.
  intros H. unfold motherboard_readbyte, in_range. cbv zeta. rewrite (u16_id address) by (unfold word16; lia).
  replace (0x0000 <=? address) with true by (symmetry; apply Z.leb_le; lia).
  replace (address <=? 0x7FFF) with false by (symmetry; apply Z.leb_gt; lia).
  replace (0x8000 <=? address) with true by (symmetry; apply Z.leb_le; lia).
  replace (address <=? 0xEFFF) with false by (symmetry; apply Z.leb_gt; lia).
  replace (0xF000 <=? address) with true by (symmetry; apply Z.leb_le; lia).
  replace (address <=? 0xF7FF) with true by (symmetry; apply Z.leb_le; lia).
  reflexivity.
Qed.

(** C7 - A write to any address of the ROM region ([0x8000-0xEFFF] and
    [0xF800-0xFFFF]) is discarded: the whole machine, RAM, ROM and ACIA
    included, is left as it was.  A read that reaches no device returns
    [0xFF] and a write that reaches none does nothing: this is what the
    ACIA does whenever address bit 11 is set.  The decoder itself leaves
    no address without a device: the four case ranges of its switch cover
    every [uint16_t], so that every read and write goes to the RAM, the
    ROM or the ACIA and the [default] branches are never taken; and no
    address of the ACIA window [0xF000-0xF7FF] has bit 11 set. *)
Theorem rom_write_discarded_unmapped_inert (m : machine) (address data : Z) :
  ((0x8000 <= address <= 0xEFFF \/ 0xF800 <= address <= 0xFFFF) ->
     motherboard_writebyte address data m = (tt, m))
  /\ (Z.land address 0x0800 <> 0 ->
        mc6850_readbyte address m = (0xFF, m)
        /\ mc6850_writebyte address data m = (tt, m))
  /\ (let a := u16 address in
      in_range 0x0000 0x7FFF a || in_range 0x8000 0xEFFF a
        || in_range 0xF000 0xF7FF a || in_range 0xF800 0xFFFF a = true
      /\ motherboard_readbyte address =
           (if in_range 0x0000 0x7FFF a then ram_readbyte a
            else if in_range 0xF000 0xF7FF a then mc6850_readbyte a
            else rom_readbyte a)
      /\ motherboard_writebyte address data =
           (if in_range 0x0000 0x7FFF a then ram_writebyte a data
            else if in_range 0xF000 0xF7FF a then mc6850_writebyte a data
            else rom_writebyte a data)
      /\ (in_range 0xF000 0xF7FF a = true -> Z.land a 0x0800 = 0)).
Proof.
  split; [| split].
  - intros H. unfold motherboard_writebyte, in_range. cbv zeta.
    rewrite (u16_id address) by (unfold word16; lia).
    replace (address <=? 0x7FFF) with false by (symmetry; apply Z.leb_gt; lia).
    rewrite andb_false_r.
    destruct H as [H | H].
    + replace (0x8000 <=? address) with true by (symmetry; apply Z.leb_le; lia).
      replace (address <=? 0xEFFF) with true by (symmetry; apply Z.leb_le; lia).
      reflexivity.
    + replace (address <=? 0xEFFF) with false by (symmetry; apply Z.leb_gt; lia).
      replace (address <=? 0xF7FF) with false by (symmetry; apply Z.leb_gt; lia).
      replace (0xF800 <=? address) with true by (symmetry; apply Z.leb_le; lia).
      replace (address <=? 0xFFFF) with true by (symmetry; apply Z.leb_le; lia).
      rewrite !andb_false_r. reflexivity.
  - intros H. unfold mc6850_readbyte, mc6850_writebyte, truth.
    apply Z.eqb_neq in H. rewrite H. split; reflexivity.
  - intros a. pose proof (u16_word16 address) as W. fold a in W.
    unfold motherboard_readbyte, motherboard_writebyte. cbv zeta. fold a.
    clearbody a. unfold word16 in W.
    split_all.
    + unfold in_range.
      repeat match goal with
             | |- context [?x <=? ?y] => destruct (Z.leb_spec x y); try lia
             end; reflexivity.
    + unfold in_range.
      repeat match goal with
             | |- context [?x <=? ?y] => destruct (Z.leb_spec x y); try lia
             end; reflexivity.
    + unfold in_range.
      repeat match goal with
             | |- context [?x <=? ?y] => destruct (Z.leb_spec x y); try lia
             end; reflexivity.
    + intros R. apply acia_window_selected.
      unfold in_range in R. apply andb_true_iff in R.
      rewrite !Z.leb_le in R. exact R.
Qed.

(** C8 - For every address of the window [0xF000-0xF7FF] (bit 11 is clear
    there): a read at an even address asks [check_keyboard_ready] and, if
    it reports ready, sets bit 0 of [SR], then returns [SR]; a read at an
    odd address takes one byte from [read_keyboard] into [RDR], clears
    bit 0 of [SR] and returns that byte. *)
Theorem acia_read (m : machine) (address : Z) :
  0xF000 <= address <= 0xF7FF ->
  let a := acia m in
  (Z.land address 1 = 0 ->
     let sr := u8 (Z.lor (SR a) 0x01) in
     motherboard_readbyte address m =
       (if truth (eval check_keyboard_ready m)
        then (sr, with_acia (mkAcia (TDR a) (RDR a) (CR a) sr) m)
        else (SR a, m))
     /\ Z.testbit sr 0 = true)
  /\ (Z.land address 1 = 1 ->
        let key := eval read_keyboard m in
        let sr := u8 (Z.land (SR a) 0xFE) in
        motherboard_readbyte address m =
          (key, with_acia (mkAcia (TDR a) key (CR a) sr) (exec read_keyboard m))
        /\ Z.testbit sr 0 = false).
Proof.
  intros H a. rewrite (decode_acia address H).
  unfold mc6850_readbyte. rewrite (acia_window_selected address H).
  change (negb (truth 0)) with true. cbv iota.
  split; intros E; rewrite E.
  - split.
    + unfold bind, eval.
      pose proof (check_keyboard_ready_state m) as S.
      destruct (check_keyboard_ready m) as [ready m']. simpl in S. subst m'.
      simpl fst. destruct (truth ready); [| destruct m; reflexivity].
      destruct m; reflexivity.
    + unfold u8. change 0x100 with (2 ^ 8).
      rewrite Z.mod_pow2_bits_low by lia.
      rewrite Z.lor_spec. apply orb_true_r.
  - split.
    + unfold bind, eval, exec.
      assert (F : acia (snd (read_keyboard m)) = acia m)
        by (unfold read_keyboard; destruct m as [c rom ram ac t]; simpl;
            destruct (truth (flag_datafile t));
            [destruct (truth (datasize t)); [destruct (fgetc _) |] | destruct (truth (stdin_has_data t))];
            reflexivity).
      destruct (read_keyboard m) as [key m']. simpl in F |- *.
      unfold get_RDR, get_SR, put_SR, put_RDR, ret. simpl. rewrite F.
      destruct m'; reflexivity.
    + unfold u8. change 0x100 with (2 ^ 8).
      rewrite Z.mod_pow2_bits_low by lia.
      rewrite Z.land_spec. apply andb_false_r.
Qed.

Lemma cpu_reset_spec m :
  cpu_reset m =
  (tt, with_cpu (mkCpu (cycles (cpu m)) (IRQ_PIN_LEVEL (cpu m)) 0x00 0x00 0x00 0xFD
                       (word (ROM m 0x7FFD) (ROM m 0x7FFC)) 0x00 0x00 0x00 0x04 0x02 0x00) m).
Proof.
  destruct m as [c rom ram a t].
  cbv [cpu_reset set_P read_word read_byte motherboard_readbyte rom_readbyte bind put get ret
       with_cpu with_A with_X with_Y with_SP with_PC with_N_Flag with_V_Flag with_D_Flag
       with_I_Flag with_Z_Flag with_C_Flag cpu ROM RAM acia term
       cycles IRQ_PIN_LEVEL A X Y SP PC N_Flag V_Flag D_Flag I_Flag Z_Flag C_Flag].
  reflexivity.
Qed.

(** C9 - [motherboard_reset] is idempotent: a second reset returns the very
    machine the first one left, CPU registers and flags, ACIA registers, RAM
    and ROM alike. *)
Theorem reset_idempotent (m : machine) :
  exec motherboard_reset (exec motherboard_reset m) = exec motherboard_reset m.
Proof.
  unfold exec, motherboard_reset, bind, mc6850_reset.
  rewrite !cpu_reset_spec. destruct m; reflexivity.
Qed.

(** * The CPU *)

(** ** The packed status byte *)

Lemma get_P_pure m : get_P m = (eval get_P m, m).
Proof. reflexivity. Qed.

(** Bit 5 of the packed flags is always set and bit 4 never: B has no
    storage, it is added by [PHP] and [BRK] only. *)
Lemma get_P_bits m :
  byte (eval get_P m)
  /\ Z.testbit (eval get_P m) 5 = true
  /\ Z.testbit (eval get_P m) 4 = false
  /\ Z.testbit (eval get_P m) 2 = truth (I_Flag (cpu m)).
Proof.
  unfold eval, get_P, bind, get, ret, byte. simpl.
  destruct (truth (N_Flag (cpu m))), (truth (V_Flag (cpu m))),
    (truth (D_Flag (cpu m))), (truth (I_Flag (cpu m))),
    (truth (Z_Flag (cpu m))), (truth (C_Flag (cpu m)));
    vm_compute; intuition congruence.
Qed.

(** ** The stack *)

Lemma push_spec data m :
  byte (SP (cpu m)) ->
  push data m =
  (tt, mkMachine (with_SP (u8 (SP (cpu m) - 1)) (cpu m)) (ROM m)
                 (store (0x0100 + SP (cpu m)) (u8 data) (RAM m)) (acia m) (term m)).
Proof.
  intros H. unfold push, write_byte, motherboard_writebyte, bind, get, put.
  cbv zeta. rewrite (stack_address _ H).
  rewrite (u16_id (0x0100 + SP (cpu m))) by (unfold word16, byte in *; lia).
  assert (R : in_range 0x0000 0x7FFF (0x0100 + SP (cpu m)) = true).
  { unfold in_range, byte in *. apply andb_true_intro. split; apply Z.leb_le; lia. }
  rewrite R. unfold ram_writebyte.
  rewrite ram_index by (unfold byte in H; lia).
  destruct m; reflexivity.
Qed.

Lemma u8_pred_pred sp k : u8 (u8 (sp - 1) - k) = u8 (sp - (1 + k)).
Proof.
  unfold u8. rewrite Zminus_mod_idemp_l. f_equal. lia.
Qed.

Lemma high_byte v : word16 v -> Z.land (Z.shiftr v 8) 0xFF = v / 0x100.
Proof.
  intros H. destruct (word_split v H) as (_ & Hh & _).
  rewrite Z.shiftr_div_pow2 by lia. change (2 ^ 8) with 0x100.
  change 0xFF with (Z.ones 8). rewrite Z.land_ones by lia.
  apply Z.mod_small. exact Hh.
Qed.

Lemma low_byte v : Z.land v 0xFF = v mod 0x100.
Proof. change 0xFF with (Z.ones 8). rewrite Z.land_ones by lia. reflexivity. Qed.

(** Reading the top of the ROM, where the vectors are. *)
Lemma read_rom_top address m :
  0xF800 <= address <= 0xFFFF ->
  read_byte address m = (ROM m (Z.land address ROMMASK), m).
Proof.
  intros H. unfold read_byte, motherboard_readbyte, in_range.
  cbv zeta. rewrite (u16_id address) by (unfold word16; lia).
  replace (address <=? 0x7FFF) with false by (symmetry; apply Z.leb_gt; lia).
  replace (address <=? 0xEFFF) with false by (symmetry; apply Z.leb_gt; lia).
  replace (address <=? 0xF7FF) with false by (symmetry; apply Z.leb_gt; lia).
  replace (0xF800 <=? address) with true by (symmetry; apply Z.leb_le; lia).
  replace (address <=? 0xFFFF) with true by (symmetry; apply Z.leb_le; lia).
  rewrite !andb_false_r. reflexivity.
Qed.

Lemma read_vector vector m :
  0xF800 <= vector < 0xFFFF ->
  read_word vector m =
  (word (ROM m (Z.land (vector + 1) ROMMASK)) (ROM m (Z.land vector ROMMASK)), m).
Proof.
  intros H. unfold read_word, bind.
  rewrite (u16_id (vector + 1)) by (unfold word16; lia).
  rewrite !read_rom_top by lia. reflexivity.
Qed.

(** ** Interrupt entry *)

Lemma do_irq_spec vector m :
  0xF800 <= vector < 0xFFFF ->
  byte (SP (cpu m)) -> word16 (PC (cpu m)) ->
  do_irq vector m = (tt, after_irq vector m).
Proof.
  intros Hv Hsp Hpc.
  destruct (get_P_bits m) as (Pb & _).
  destruct (word_split _ Hpc) as (_ & Hh & Hl).
  unfold after_irq.
  set (p := eval get_P m) in *.
  destruct m as [[cy irq a x y sp pc n v d i z c] rom ram ac t].
  assert (Ep : forall cy' irq' a' x' y' sp' pc' rom' ram' ac' t',
             eval get_P (mkMachine (mkCpu cy' irq' a' x' y' sp' pc' n v d i z c)
                                   rom' ram' ac' t') = p) by reflexivity.
  state_simpl.
  unfold do_irq, push16, bind, get. state_simpl.
  rewrite push_spec by assumption. state_simpl.
  rewrite push_spec by (state_simpl; auto with c_int). state_simpl.
  rewrite get_P_pure, Ep.
  rewrite push_spec by (state_simpl; auto with c_int). state_simpl.
  unfold put at 1. state_simpl.
  rewrite read_vector by assumption. state_simpl.
  unfold put, add_cycles, bind, get. state_simpl.
  rewrite !u8_pred_pred. simpl Z.add.
  rewrite high_byte, low_byte by assumption.
  rewrite (u8_id p), (u8_id (pc / 0x100)), (u8_id (pc mod 0x100)) by assumption.
  reflexivity.
Qed.

(** ** The shape of a step *)

Lemma cpu_execute_decompose m :
  cpu_execute m = (fetch_execute ;; get cycles) (exec irq_check m).
Proof.
  unfold cpu_execute, irq_check, fetch_execute, exec, bind, put, get. state_simpl.
  destruct (negb _); [destruct (do_irq _ _) as [u m1] |];
    simpl; destruct (read_byte _ _); reflexivity.
Qed.

Lemma irq_check_idle m :
  irq_serviced m = false ->
  exec irq_check m = with_cpu (with_cycles 0 (cpu m)) m.
Proof.
  unfold irq_serviced, irq_check, exec, bind, put, get. state_simpl.
  intros H. rewrite H. reflexivity.
Qed.

Lemma irq_check_serviced m :
  irq_serviced m = true ->
  byte (SP (cpu m)) -> word16 (PC (cpu m)) ->
  exec irq_check m = after_irq IRQ_VECTOR (with_cpu (with_cycles 0 (cpu m)) m).
Proof.
  unfold irq_serviced, irq_check, exec, bind, put, get. state_simpl.
  intros H Hsp Hpc. rewrite H.
  rewrite do_irq_spec; [reflexivity | unfold IRQ_VECTOR; lia | assumption | assumption].
Qed.

Lemma fetch_execute_eq m :
  fetch_execute m =
  execute_opcode (fetched_opcode m)
    (with_cpu (with_PC (u16 (PC (cpu m) + 1)) (cpu m))
              (exec (read_byte (PC (cpu m))) m)).
Proof.
  unfold fetch_execute, fetched_opcode, bind, get, put.
  rewrite read_byte_with_cpu. reflexivity.
Qed.

Lemma fetched_opcode_with_cpu c m :
  PC c = PC (cpu m) -> fetched_opcode (with_cpu c m) = fetched_opcode m.
Proof.
  intros E. unfold fetched_opcode.
  change (cpu (with_cpu c m)) with c. rewrite E.
  unfold eval at 1. rewrite read_byte_with_cpu. reflexivity.
Qed.

(** ** The opcode switch, case by case *)

Lemma execute_opcode_default op : ~ byte op -> execute_opcode op = ret tt.
Proof.
  intros H. destruct op as [| p | p]; [| | reflexivity].
  - exfalso. apply H. unfold byte. lia.
  - bits 8%nat p ltac:(first [reflexivity | exfalso; apply H; unfold byte; lia]).
Qed.

(** A property of every arm of the switch is a property of the switch. *)
Lemma execute_opcode_cases (P : Z -> M unit -> Prop) :
  Forall (fun op => P op (execute_opcode op)) all_bytes ->
  (forall op, ~ byte op -> P op (ret tt)) ->
  forall op, P op (execute_opcode op).
Proof.
  intros Hb Hd op.
  destruct (Z_le_dec 0 op) as [H0 |]; [destruct (Z_le_dec op 0xFF) as [H1 |] |].
  - rewrite Forall_forall in Hb. apply Hb, all_bytes_complete. unfold byte; lia.
  - rewrite execute_opcode_default by (unfold byte; lia). apply Hd. unfold byte; lia.
  - rewrite execute_opcode_default by (unfold byte; lia). apply Hd. unfold byte; lia.
Qed.

(** Each arm of the switch in turn. *)
Ltac each_opcode P tac :=
  apply (execute_opcode_cases P);
  [ let l := eval vm_compute in all_bytes in change all_bytes with l;
    repeat (apply Forall_cons;
            [cbv beta; unfold execute_opcode; cbv beta iota; tac |]);
    apply Forall_nil
  | intros op Hop; cbv beta ].

(** ** Illegal opcodes *)

(** The opcode switch sends every byte outside the documented set to
    [illegal_opcode]. *)
Lemma opcode_table :
  Forall (fun op => documented op = true \/ execute_opcode op = illegal_opcode op)
         all_bytes.
Proof.
  let l := eval vm_compute in all_bytes in change all_bytes with l.
  repeat (apply Forall_cons; [first [left; reflexivity | right; reflexivity] |]).
  apply Forall_nil.
Qed.

Lemma illegal_dispatch op : illegal op -> execute_opcode op = illegal_opcode op.
Proof.
  intros [Hb Hd].
  pose proof opcode_table as T. rewrite Forall_forall in T.
  destruct (T op (all_bytes_complete op Hb)) as [D | E]; [congruence | exact E].
Qed.

(** What [illegal_opcode] leaves: the message on the error stream, the CPU
    as [cpu_reset] sets it; [cycles] and the IRQ pin are not touched. *)
Lemma illegal_opcode_spec opcode m :
  illegal_opcode opcode m =
  (tt, mkMachine
         (mkCpu (cycles (cpu m)) (IRQ_PIN_LEVEL (cpu m)) 0x00 0x00 0x00 0xFD
                (word (ROM m 0x7FFD) (ROM m 0x7FFC)) 0x00 0x00 0x00 0x04 0x02 0x00)
         (ROM m) (RAM m) (acia m)
         (mkTerm (flag_datafile (term m)) (datasize (term m)) (datafile (term m))
                 (stdin_has_data (term m)) (stdin_value (term m)) (stdout (term m))
                 (stderr (term m) ++ [illegal_opcode_message opcode (PC (cpu m))]))).
Proof.
  unfold illegal_opcode, bind, get, fprintf_stderr.
  rewrite cpu_reset_spec. destruct m; reflexivity.
Qed.


(** ** Interrupts *)

Lemma store_eq i v mem : store i v mem i = v.
Proof. unfold store. rewrite Z.eqb_refl. reflexivity. Qed.

Lemma store_neq i v mem a : a <> i -> store i v mem a = mem a.
Proof. unfold store. intros H. apply Z.eqb_neq in H. rewrite H. reflexivity. Qed.

Lemma stack_slots_distinct sp :
  byte sp -> u8 (sp - 1) <> sp /\ u8 (sp - 2) <> sp /\ u8 (sp - 2) <> u8 (sp - 1).
Proof.
  intros H.
  generalize
    (forall_byte
       (fun sp => negb (u8 (sp - 1) =? sp) && negb (u8 (sp - 2) =? sp)
                  && negb (u8 (sp - 2) =? u8 (sp - 1)))
       ltac:(vm_compute; reflexivity) sp H).
  rewrite !andb_true_iff, !negb_true_iff, !Z.eqb_neq. tauto.
Qed.

Lemma word_little_endian high low :
  byte high -> byte low -> word high low = low + 0x100 * high.
Proof.
  intros Hh Hl. apply Z.eqb_eq.
  apply (forall_byte2 (fun h l => word h l =? l + 0x100 * h)); try assumption.
  vm_compute. reflexivity.
Qed.

(** What [after_irq] amounts to, field by field. *)
Lemma after_irq_fields vector m :
  0xF800 <= vector < 0xFFFF -> byte (SP (cpu m)) ->
  let c := cpu m in
  let m1 := after_irq vector m in
  cycles (cpu m1) = cycles c + 7
  /\ SP (cpu m1) = u8 (SP c - 3)
  /\ RAM m1 (0x0100 + SP c) = PC c / 0x100
  /\ RAM m1 (0x0100 + u8 (SP c - 1)) = PC c mod 0x100
  /\ RAM m1 (0x0100 + u8 (SP c - 2)) = eval get_P m
  /\ Z.testbit (eval get_P m) 4 = false
  /\ I_Flag (cpu m1) = 0x01
  /\ PC (cpu m1) = word (eval (read_byte (vector + 1)) m) (eval (read_byte vector) m).
Proof.
  intros Hv Hsp c m1. subst c m1.
  destruct (stack_slots_distinct _ Hsp) as (D1 & D2 & D3).
  destruct (get_P_bits m) as (_ & _ & B4 & _).
  assert (R : forall a, 0xF800 <= a <= 0xFFFF ->
                     eval (read_byte a) m = ROM m (Z.land a ROMMASK))
    by (intros a Ha; unfold eval; rewrite read_rom_top by lia; reflexivity).
  rewrite !R by lia.
  unfold after_irq. cbn [RAM cpu cycles SP PC I_Flag fst].
  repeat split; try assumption.
  - rewrite !store_neq by lia. apply store_eq.
  - rewrite store_neq by lia. apply store_eq.
  - apply store_eq.
Qed.

(** *** Instructions count their cycles without looking at the counter *)

Lemma ignores_cycles_ret {T} (v : T) : ignores_cycles (ret v).
Proof. intros k m. reflexivity. Qed.

Lemma ignores_cycles_bind {T U} (c : M T) (f : T -> M U) :
  ignores_cycles c -> (forall v, ignores_cycles (f v)) -> ignores_cycles (bind c f).
Proof.
  intros Hc Hf k m. unfold bind, eval, exec. rewrite Hc.
  unfold eval, exec. destruct (c m) as [v m1]. cbn [fst snd].
  rewrite Hf. reflexivity.
Qed.

Lemma ignores_cycles_get f :
  (forall k c, f (with_cycles (cycles c + k) c) = f c) -> ignores_cycles (get f).
Proof.
  intros H k m. unfold get, shift_cycles, eval, exec.
  cbn [fst snd cpu with_cpu]. rewrite H. reflexivity.
Qed.

Lemma ignores_cycles_put w v :
  (forall k c, w v (with_cycles (cycles c + k) c) = with_cycles (cycles (w v c) + k) (w v c)) ->
  ignores_cycles (put w v).
Proof.
  intros H k m. unfold put, shift_cycles, eval, exec.
  cbn [fst snd cpu ROM RAM acia term with_cpu]. rewrite H. reflexivity.
Qed.

Lemma ignores_cycles_add_cycles n : ignores_cycles (add_cycles n).
Proof.
  intros k m. destruct m as [[] rom ram a t].
  unfold add_cycles, bind, get, put, shift_cycles, eval, exec, with_cpu, with_cycles.
  cbn [fst snd cpu ROM RAM acia term cycles IRQ_PIN_LEVEL A X Y SP PC
       N_Flag V_Flag D_Flag I_Flag Z_Flag C_Flag].
  do 3 f_equal. lia.
Qed.

Lemma ignores_cycles_read_byte address : ignores_cycles (read_byte address).
Proof.
  intros k m. unfold shift_cycles. rewrite read_byte_with_cpu.
  destruct (read_byte_frame address m) as (v & a & t & E).
  unfold eval, exec. rewrite E. reflexivity.
Qed.

Lemma write_byte_with_cpu address data c m :
  write_byte address data (with_cpu c m) =
  (tt, with_cpu c (exec (write_byte address data) m)).
Proof.
  destruct m as [c0 rom ram a t].
  unfold write_byte, motherboard_writebyte, mc6850_writebyte, exec. cbv zeta.
  repeat match goal with
         | |- context [if ?b then _ else _] => destruct b
         | |- context [match ?z with 0 => _ | Z.pos _ => _ | Z.neg _ => _ end] =>
             destruct z as [| [| |] |]
         end; reflexivity.
Qed.

Lemma ignores_cycles_write_byte address data :
  ignores_cycles (write_byte address data).
Proof.
  intros k m. unfold shift_cycles. rewrite write_byte_with_cpu.
  assert (C : cpu (exec (write_byte address data) m) = cpu m).
  { destruct m as [c0 rom ram a t].
    unfold write_byte, motherboard_writebyte, mc6850_writebyte, exec. cbv zeta.
    repeat match goal with
           | |- context [if ?b then _ else _] => destruct b
           | |- context [match ?z with 0 => _ | Z.pos _ => _ | Z.neg _ => _ end] =>
               destruct z as [| [| |] |]
           end; reflexivity. }
  unfold eval. rewrite C.
  destruct (write_byte address data m) as [[] m1]. reflexivity.
Qed.

Lemma ignores_cycles_fprintf_stderr msg : ignores_cycles (fprintf_stderr msg).
Proof. intros k m. reflexivity. Qed.

Ltac ignores_cycles_step :=
  lazymatch goal with
  | |- ignores_cycles (ret _) => apply ignores_cycles_ret
  | |- ignores_cycles (bind _ _) => apply ignores_cycles_bind; [| intro]
  | |- ignores_cycles (add_cycles _) => apply ignores_cycles_add_cycles
  | |- ignores_cycles (get _) => apply ignores_cycles_get; intros ? []; reflexivity
  | |- ignores_cycles (put _ _) => apply ignores_cycles_put; intros ? []; reflexivity
  | |- ignores_cycles (read_byte _) => apply ignores_cycles_read_byte
  | |- ignores_cycles (write_byte _ _) => apply ignores_cycles_write_byte
  | |- ignores_cycles (fprintf_stderr _) => apply ignores_cycles_fprintf_stderr
  | |- ignores_cycles (if ?b then _ else _) => destruct b
  | |- ignores_cycles ?c => let h := head_of c in unfold h; cbv beta zeta
  end.

Lemma ignores_cycles_execute_opcode op : ignores_cycles (execute_opcode op).
Proof.
  revert op.
  each_opcode (fun (_ : Z) (c : M unit) => ignores_cycles c)
              ltac:(repeat ignores_cycles_step).
  apply ignores_cycles_ret.
Qed.

Lemma ignores_cycles_fetch_execute : ignores_cycles fetch_execute.
Proof.
  unfold fetch_execute.
  repeat first [apply ignores_cycles_execute_opcode | ignores_cycles_step].
Qed.

(** A step started with [k] cycles on the counter and no interrupt test:
    it returns [k] more than the step that starts from 0. *)
Lemma fetch_execute_from k m :
  cycles (cpu m) = k ->
  irq_serviced m = false ->
  (fetch_execute ;; get cycles) m =
  (k + eval cpu_execute m, shift_cycles k (exec cpu_execute m)).
Proof.
  intros Hk Hirq.
  set (m0 := with_cpu (with_cycles 0 (cpu m)) m).
  assert (E0 : m = shift_cycles k m0).
  { unfold m0, shift_cycles. destruct m as [[] rom ram a t].
    cbn [cpu cycles] in Hk. rewrite <- Hk. reflexivity. }
  assert (E1 : cpu_execute m = (fetch_execute ;; get cycles) m0)
    by (rewrite cpu_execute_decompose, (irq_check_idle m Hirq); reflexivity).
  unfold eval, exec. rewrite E1. rewrite E0 at 1.
  unfold bind. rewrite ignores_cycles_fetch_execute.
  unfold eval, exec. destruct (fetch_execute m0) as [[] m2].
  unfold get, shift_cycles. cbn [fst snd cpu with_cpu].
  destruct m2 as [[] rom2 ram2 a2 t2]. cbn [cpu cycles with_cycles].
  f_equal. lia.
Qed.

(** C1, as amended - When the IRQ pin is low and I is clear, the step
    services the IRQ (pushes PC, high byte first, then the packed flags with
    bit 4 clear; sets I; loads PC little-endian from [0xFFFE/0xFFFF]; counts
    7 cycles) and goes on, in the same step, to fetch and execute the
    instruction at that PC.  The count returned is 7 plus that
    instruction's: 7 plus what a step returns that starts where the entry
    ends, [m1], where there is no IRQ to service and the step only fetches
    and executes that instruction; and the state left is the one that step
    leaves, with 7 more cycles on the counter. *)
Theorem irq_step (m : machine) :
  IRQ_PIN_LEVEL (cpu m) = 0 -> I_Flag (cpu m) = 0 ->
  byte (SP (cpu m)) -> word16 (PC (cpu m)) ->
  let c := cpu m in
  let m1 := after_irq IRQ_VECTOR (with_cpu (with_cycles 0 c) m) in
  cpu_execute m = (fetch_execute ;; get cycles) m1
  /\ cycles (cpu m1) = 7
  /\ SP (cpu m1) = u8 (SP c - 3)
  /\ RAM m1 (0x0100 + SP c) = PC c / 0x100
  /\ RAM m1 (0x0100 + u8 (SP c - 1)) = PC c mod 0x100
  /\ RAM m1 (0x0100 + u8 (SP c - 2)) = eval get_P m
  /\ Z.testbit (eval get_P m) 4 = false
  /\ I_Flag (cpu m1) = 0x01
  /\ PC (cpu m1) = word (eval (read_byte 0xFFFF) m) (eval (read_byte 0xFFFE) m)
  /\ irq_serviced m1 = false
  /\ eval cpu_execute m = 7 + eval cpu_execute m1
  /\ exec cpu_execute m = shift_cycles 7 (exec cpu_execute m1).
Proof.
  intros Hirq Hi Hsp Hpc c m1.
  assert (S : irq_serviced m = true)
    by (unfold irq_serviced; rewrite Hirq, Hi; reflexivity).
  assert (E : cpu_execute m = (fetch_execute ;; get cycles) m1)
    by (rewrite cpu_execute_decompose, irq_check_serviced by assumption; reflexivity).
  assert (V : 0xF800 <= IRQ_VECTOR < 0xFFFF) by (unfold IRQ_VECTOR; lia).
  pose proof (after_irq_fields IRQ_VECTOR (with_cpu (with_cycles 0 c) m) V Hsp) as F.
  cbv zeta in F. fold m1 in F.
  assert (F' : cycles (cpu m1) = 7
               /\ SP (cpu m1) = u8 (SP c - 3)
               /\ RAM m1 (0x0100 + SP c) = PC c / 0x100
               /\ RAM m1 (0x0100 + u8 (SP c - 1)) = PC c mod 0x100
               /\ RAM m1 (0x0100 + u8 (SP c - 2)) = eval get_P m
               /\ Z.testbit (eval get_P m) 4 = false
               /\ I_Flag (cpu m1) = 0x01
               /\ PC (cpu m1) = word (eval (read_byte 0xFFFF) m) (eval (read_byte 0xFFFE) m))
    by (clear E; destruct m as [[]]; exact F).
  destruct F' as (F1 & F2 & F3 & F4 & F5 & F6 & F7 & F8).
  assert (S1 : irq_serviced m1 = false).
  { unfold irq_serviced. rewrite F7. change (truth 1) with true.
    rewrite orb_true_r. reflexivity. }
  pose proof (fetch_execute_from 7 m1 F1 S1) as G. rewrite <- E in G.
  split_all; try assumption.
  - unfold eval at 1. rewrite G. reflexivity.
  - unfold exec at 1. rewrite G. reflexivity.
Qed.

Lemma irq_step_witness :
  cpu_execute m_c1 =
    (fetch_execute ;; get cycles)
      (after_irq IRQ_VECTOR (with_cpu (with_cycles 0 (cpu m_c1)) m_c1))
  /\ eval cpu_execute m_c1 =
       7 + eval cpu_execute (after_irq IRQ_VECTOR (with_cpu (with_cycles 0 (cpu m_c1)) m_c1))
  /\ eval cpu_execute (after_irq IRQ_VECTOR (with_cpu (with_cycles 0 (cpu m_c1)) m_c1)) = 2
  /\ eval cpu_execute m_c1 = 9.
Proof.
  assert (H : cpu_execute m_c1 =
                (fetch_execute ;; get cycles)
                  (after_irq IRQ_VECTOR (with_cpu (with_cycles 0 (cpu m_c1)) m_c1))
              /\ eval cpu_execute m_c1 =
                   7 + eval cpu_execute
                         (after_irq IRQ_VECTOR (with_cpu (with_cycles 0 (cpu m_c1)) m_c1))).
  { destruct (irq_step m_c1) as (E & _ & _ & _ & _ & _ & _ & _ & _ & _ & N & _);
      [vm_compute; reflexivity | vm_compute; reflexivity
      | vm_compute; split; congruence | vm_compute; split; congruence |].
    split; [exact E | exact N]. }
  destruct H as (E & N).
  split_all; [exact E | exact N | vm_compute; reflexivity | vm_compute; reflexivity].
Defined.

(** C1, counterexample - With the IRQ pin low and I clear, the step does not
    stop after the interrupt entry: it returns 9 cycles, not 7, and has
    executed the [LDA #$42] found at the IRQ vector's target [0x0200]. *)
Lemma irq_step_does_not_return_after_entry :
  IRQ_PIN_LEVEL (cpu m_c1) = 0 /\ I_Flag (cpu m_c1) = 0
  /\ cpu_execute m_c1 <> irq_only_step m_c1
  /\ eval irq_only_step m_c1 = 7
  /\ eval cpu_execute m_c1 = 9
  /\ PC (cpu (exec irq_only_step m_c1)) = 0x0200
  /\ PC (cpu (exec cpu_execute m_c1)) = 0x0202
  /\ A (cpu (exec irq_only_step m_c1)) = 0x00
  /\ A (cpu (exec cpu_execute m_c1)) = 0x42.
Proof.
  split_all; try eval_Z.
  intros E. apply (f_equal fst) in E. vm_compute in E. discriminate E.
Qed.

(** C2, as amended - [cpu_nmi] performs the interrupt entry at once, whatever
    the I flag: it pushes PC, high byte first, then the packed flags with
    bit 4 clear, sets I, loads PC little-endian from [0xFFFA/0xFFFB] and
    adds 7 to [cycles].  Nothing is latched: the next step services no
    IRQ (I is set) and starts by fetching the opcode at that PC. *)
Theorem nmi_immediate (m : machine) :
  byte (SP (cpu m)) -> word16 (PC (cpu m)) ->
  let c := cpu m in
  let m1 := exec cpu_nmi m in
  SP (cpu m1) = u8 (SP c - 3)
  /\ RAM m1 (0x0100 + SP c) = PC c / 0x100
  /\ RAM m1 (0x0100 + u8 (SP c - 1)) = PC c mod 0x100
  /\ RAM m1 (0x0100 + u8 (SP c - 2)) = eval get_P m
  /\ Z.testbit (eval get_P m) 4 = false
  /\ I_Flag (cpu m1) = 0x01
  /\ PC (cpu m1) = word (eval (read_byte 0xFFFB) m) (eval (read_byte 0xFFFA) m)
  /\ cycles (cpu m1) = cycles c + 7
  /\ cpu_execute m1 = (fetch_execute ;; get cycles) (with_cpu (with_cycles 0 (cpu m1)) m1).
Proof.
  intros Hsp Hpc c m1.
  assert (V : 0xF800 <= NMI_VECTOR < 0xFFFF) by (unfold NMI_VECTOR; lia).
  assert (E : m1 = after_irq NMI_VECTOR m)
    by (unfold m1, exec, cpu_nmi; rewrite do_irq_spec by assumption; reflexivity).
  pose proof (after_irq_fields NMI_VECTOR m V Hsp) as F. cbv zeta in F.
  rewrite <- E in F. fold c in F.
  destruct F as (F1 & F2 & F3 & F4 & F5 & F6 & F7 & F8).
  repeat split; try assumption.
  rewrite cpu_execute_decompose, irq_check_idle; [reflexivity |].
  unfold irq_serviced. rewrite F7. apply negb_false_iff, orb_true_r.
Qed.

Lemma nmi_immediate_witness :
  PC (cpu (exec cpu_nmi m_c2)) = 0x0300
  /\ I_Flag (cpu (exec cpu_nmi m_c2)) = 0x01
  /\ SP (cpu (exec cpu_nmi m_c2)) = 0xFA.
Proof.
  assert (Hsp : byte (SP (cpu m_c2))) by (vm_compute; split; congruence).
  assert (Hpc : word16 (PC (cpu m_c2))) by (vm_compute; split; congruence).
  destruct (nmi_immediate m_c2 Hsp Hpc) as (S & _ & _ & _ & _ & I & P & _).
  split; [| split].
  - rewrite P. vm_compute. reflexivity.
  - exact I.
  - rewrite S. vm_compute. reflexivity.
Defined.

(** C2, counterexample - On a machine fresh from reset, [cpu_nmi] alone has
    already moved PC to the NMI handler and SP down by three, and the step
    that follows returns 2 cycles (the [NOP] of the handler), not 7 or
    more. *)
Lemma nmi_is_not_latched :
  PC (cpu m_c2) = 0x0000 /\ PC (cpu (exec cpu_nmi m_c2)) = 0x0300
  /\ SP (cpu m_c2) = 0xFD /\ SP (cpu (exec cpu_nmi m_c2)) = 0xFA
  /\ eval cpu_execute (exec cpu_nmi m_c2) = 2.
Proof. vm_compute. split_all; reflexivity. Qed.

(** C3, at the failing input - The reset vector is [0xFFFF] and the last
    byte of the ROM is the illegal opcode [0x02].  The step fetches it at
    [0xFFFF]; the message names [0xFFFFFFFF]: [PC] has wrapped to 0 and
    [PC - 1] is the [int] -1. *)
Theorem illegal_opcode_message_at_FFFF :
  PC (cpu m_c3) = 0xFFFF
  /\ fetched_opcode m_c3 = 0x02
  /\ documented 0x02 = false
  /\ stderr (term (exec cpu_execute m_c3)) =
       [(newline ++ "Error: illegal opcode 0x02 at 0xFFFFFFFF. Resseting CPU" ++ newline)%string]
  /\ printf_X 4 0xFFFF = "FFFF"%string.
Proof. vm_compute. split_all; reflexivity. Qed.

(** ** Branches *)

Lemma read_byte_cpu address m : cpu (exec (read_byte address) m) = cpu m.
Proof.
  unfold exec. destruct (read_byte_frame address m) as (v & a & t & E).
  rewrite E. reflexivity.
Qed.

Lemma read_byte_RAM address m : RAM (exec (read_byte address) m) = RAM m.
Proof.
  unfold exec. destruct (read_byte_frame address m) as (v & a & t & E).
  rewrite E. reflexivity.
Qed.

Lemma u16_succ v k : u16 (u16 (v + 1) + k) = u16 (v + (1 + k)).
Proof. unfold u16. rewrite Zplus_mod_idemp_l. f_equal. lia. Qed.

Lemma u16_add_r a b : u16 (a + u16 b) = u16 (a + b).
Proof. unfold u16. apply Zplus_mod_idemp_r. Qed.

Lemma truth_of_bool b : truth (of_bool b) = b.
Proof. destruct b; reflexivity. Qed.

(** [BXX] on a machine whose PC is at the displacement byte. *)
Lemma BXX_spec condition m :
  let c := cpu m in
  let pc := u16 (PC c + 1) in
  let target := u16 (pc + s8 (eval (read_byte (PC c)) m)) in
  BXX condition m =
  (tt, with_cpu
         (if truth condition
          then with_PC target
                 (with_cycles (cycles c + (if target / 0x100 =? pc / 0x100 then 1 else 2))
                              (with_PC pc c))
          else with_PC pc c)
         (exec (read_byte (PC c)) m)).
Proof.
  intros c pc target.
  unfold BXX, bind, get, put.
  rewrite read_byte_with_cpu.
  destruct (truth condition); [| reflexivity].
  unfold add_cycles, bind, get, put. state_simpl.
  rewrite u16_add_r. fold c. fold pc. fold target.
  rewrite same_page_test by apply u16_word16.
  destruct (target / 0x100 =? pc / 0x100); unfold ret; state_simpl;
    rewrite <- ?Z.add_assoc; reflexivity.
Qed.

(** The opcodes [branch_taken] knows are dispatched to [BXX] with that
    condition, and two cycles are added. *)
Lemma branch_dispatch opcode taken m :
  branch_taken opcode (cpu m) = Some taken ->
  exists condition,
    truth condition = taken
    /\ execute_opcode opcode m = (BXX condition ;; add_cycles 2) m.
Proof.
  unfold branch_taken. intros H.
  destruct opcode as [| p | p]; try discriminate H.
  repeat (match goal with q : positive |- _ => destruct q end; try discriminate H);
    injection H as H; eexists; (split; [| reflexivity]); try exact H.
  all: rewrite truth_of_bool; exact H.
Qed.

(** C5, as amended - For each of the eight conditional branches the
    instruction adds 2 cycles when the condition is false, 3 when it is
    true and the target lies in the page of the PC that follows the operand
    fetch, 4 when it is true and the target's high byte differs.  That is
    the count the step returns when it services no IRQ; a step that first
    services an IRQ and then executes the branch returns 7 more. *)
Theorem branch_step_cycles (m : machine) (taken : bool) :
  byte (SP (cpu m)) -> word16 (PC (cpu m)) ->
  let m0 := exec irq_check m in
  let c := cpu m0 in
  branch_taken (fetched_opcode m0) c = Some taken ->
  let pc := u16 (PC c + 2) in
  let reljmp := eval (read_byte (u16 (PC c + 1))) (exec (read_byte (PC c)) m0) in
  let target := u16 (pc + s8 reljmp) in
  eval cpu_execute m =
    (if irq_serviced m then 7 else 0)
    + (if taken then (if target / 0x100 =? pc / 0x100 then 3 else 4) else 2)
  /\ PC (cpu (exec cpu_execute m)) = (if taken then target else pc).
Proof.
  intros Hsp Hpc m0 c Hb pc reljmp target.
  assert (Hcyc : cycles c = if irq_serviced m then 7 else 0).
  { unfold c, m0. destruct (irq_serviced m) eqn:S.
    - rewrite irq_check_serviced by assumption. reflexivity.
    - rewrite irq_check_idle by assumption. reflexivity. }
  rewrite <- Hcyc.
  set (m1 := with_cpu (with_PC (u16 (PC (cpu m0) + 1)) (cpu m0))
                      (exec (read_byte (PC (cpu m0))) m0)).
  assert (Hb1 : branch_taken (fetched_opcode m0) (cpu m1) = Some taken).
  { rewrite <- Hb. unfold m1, c, branch_taken. cbn [cpu with_cpu].
    destruct (cpu m0); reflexivity. }
  destruct (branch_dispatch _ _ _ Hb1) as (condition & Ht & E).
  assert (Epc : PC (cpu m1) = u16 (PC c + 1)) by reflexivity.
  assert (Ecy : cycles (cpu m1) = cycles c) by reflexivity.
  assert (Erd : eval (read_byte (PC (cpu m1))) m1 = reljmp).
  { unfold reljmp. rewrite Epc. unfold m1, eval at 1.
    rewrite read_byte_with_cpu. reflexivity. }
  assert (R : exists m2,
             cpu_execute m = (cycles (cpu m2), m2)
             /\ cycles (cpu m2) =
                  cycles c + (if taken
                              then (if target / 0x100 =? pc / 0x100 then 3 else 4)
                              else 2)
             /\ PC (cpu m2) = (if taken then target else pc)).
  { rewrite cpu_execute_decompose. fold m0.
    unfold bind at 1. rewrite fetch_execute_eq. fold m1.
    rewrite E. unfold bind at 1. rewrite BXX_spec.
    rewrite Erd, Epc, Ecy, (u16_succ (PC c) 1). change (1 + 1) with 2.
    fold pc. fold target. rewrite Ht.
    unfold add_cycles, bind, get, put. eexists. split; [reflexivity |].
    destruct taken; [destruct (target / 0x100 =? pc / 0x100) |];
      cbn [fst snd cpu with_cpu cycles PC with_PC with_cycles];
      (split; [lia | reflexivity]). }
  destruct R as (m2 & R & Rc & Rp).
  unfold eval, exec. rewrite R. cbn [fst snd]. split; assumption.
Qed.

Lemma branch_step_cycles_witness :
  eval cpu_execute m_c5 = 7 + 2
  /\ eval cpu_execute m_s3 = 0 + 4.
Proof.
  split.
  - apply (branch_step_cycles m_c5 false); vm_compute; try reflexivity; split; congruence.
  - apply (branch_step_cycles m_s3 true); vm_compute; try reflexivity; split; congruence.
Defined.

(** C5, counterexample - [BNE] with Z set, a branch not taken, executed by
    a step that serviced an IRQ first: the step returns 9 cycles, not 2. *)
Lemma branch_after_irq_costs_more :
  fetched_opcode (exec irq_check m_c5) = 0xD0
  /\ branch_taken 0xD0 (cpu (exec irq_check m_c5)) = Some false
  /\ eval cpu_execute m_c5 = 9.
Proof. vm_compute. split_all; reflexivity. Qed.

(** ** Subroutine call and return *)

Lemma read_ram address m :
  0 <= address <= 0x7FFF -> read_byte address m = (RAM m address, m).
Proof.
  intros H. unfold read_byte, motherboard_readbyte, in_range, ram_readbyte.
  cbv zeta. rewrite (u16_id address) by (unfold word16; lia).
  replace (0x0000 <=? address) with true by (symmetry; apply Z.leb_le; lia).
  replace (address <=? 0x7FFF) with true by (symmetry; apply Z.leb_le; lia).
  rewrite ram_index by assumption. reflexivity.
Qed.

Lemma pop_spec m :
  byte (SP (cpu m)) ->
  pop m = (RAM m (0x0100 + u8 (SP (cpu m) + 1)),
           with_cpu (with_SP (u8 (SP (cpu m) + 1)) (cpu m)) m).
Proof.
  intros H. unfold pop, bind, get, put. cbn [cpu with_cpu SP with_SP].
  pose proof (u8_byte (SP (cpu m) + 1)) as B.
  rewrite stack_address by assumption.
  rewrite read_ram by (unfold byte in B; lia).
  reflexivity.
Qed.

Lemma fetch_frame m :
  exists v m',
    fetch m = (v, m')
    /\ cpu m' = with_PC (u16 (PC (cpu m) + 1)) (cpu m)
    /\ RAM m' = RAM m.
Proof.
  unfold fetch, bind, get, put. rewrite read_byte_with_cpu.
  do 2 eexists. split; [reflexivity |]. split.
  - reflexivity.
  - cbn [RAM with_cpu]. apply read_byte_RAM.
Qed.

Lemma fetch16_frame m :
  exists v m',
    fetch16 m = (v, m')
    /\ cpu m' = with_PC (u16 (PC (cpu m) + 2)) (cpu m)
    /\ RAM m' = RAM m.
Proof.
  unfold fetch16, bind.
  destruct (fetch_frame m) as (lo & ma & Ea & Ca & Ra). rewrite Ea.
  destruct (fetch_frame ma) as (hi & mb & Eb & Cb & Rb). rewrite Eb.
  do 2 eexists. split; [reflexivity |]. split.
  - rewrite Cb, Ca. cbn [PC with_PC]. rewrite (u16_succ _ 1).
    destruct (cpu m); reflexivity.
  - congruence.
Qed.

(** [JSR] once its operand has been fetched: the word [PC - 1] goes on the
    stack, high byte first. *)
Lemma JSR_spec address m :
  byte (SP (cpu m)) ->
  let c := cpu m in
  let w := u16 (PC c - 1) in
  exists m',
    JSR address m = (tt, m')
    /\ cpu m' = with_PC address (with_SP (u8 (SP c - 2)) c)
    /\ RAM m' = store (0x0100 + u8 (SP c - 1)) (w mod 0x100)
                  (store (0x0100 + SP c) (w / 0x100) (RAM m)).
Proof.
  intros Hsp c w.
  destruct (word_split w (u16_word16 _)) as (_ & Hh & Hl).
  unfold JSR, push16, bind, get. fold c. fold w.
  rewrite push_spec by assumption.
  rewrite push_spec by (cbn [cpu SP with_SP]; auto with c_int).
  rewrite high_byte, low_byte by apply u16_word16.
  rewrite (u8_id (w / 0x100)), (u8_id (w mod 0x100)) by assumption.
  unfold put. eexists. split; [reflexivity |].
  cbn [cpu RAM with_cpu SP with_SP]. fold c. rewrite u8_pred_pred.
  split; [destruct c |]; reflexivity.
Qed.

(** [RTS]: the word on top of the stack, plus one. *)
Lemma RTS_spec m :
  byte (SP (cpu m)) ->
  let c := cpu m in
  let low := RAM m (0x0100 + u8 (SP c + 1)) in
  let high := RAM m (0x0100 + u8 (SP c + 2)) in
  RTS m = (tt, with_cpu (with_PC (u16 (word high low + 1)) (with_SP (u8 (SP c + 2)) c)) m).
Proof.
  intros Hsp c low high.
  unfold RTS, pop16, bind.
  rewrite pop_spec by assumption.
  rewrite pop_spec by (cbn [cpu with_cpu SP with_SP]; apply u8_byte).
  unfold ret, put. cbn [cpu with_cpu SP with_SP RAM]. fold c.
  replace (u8 (u8 (SP c + 1) + 1)) with (u8 (SP c + 2))
    by (unfold u8; rewrite Zplus_mod_idemp_l; f_equal; lia).
  destruct m as [[]]; reflexivity.
Qed.

(** A step whose fetch yields [JSR]. *)
Lemma jsr_step m :
  let m0 := exec irq_check m in
  let c := cpu m0 in
  let w := u16 (u16 (PC c + 3) - 1) in
  byte (SP c) -> fetched_opcode m0 = 0x20 ->
  SP (cpu (exec cpu_execute m)) = u8 (SP c - 2)
  /\ RAM (exec cpu_execute m) =
       store (0x0100 + u8 (SP c - 1)) (w mod 0x100)
         (store (0x0100 + SP c) (w / 0x100) (RAM m0)).
Proof.
  intros m0 c w Hsp Hop.
  assert (R : exists m', cpu_execute m = (cycles (cpu m'), m')
                         /\ SP (cpu m') = u8 (SP c - 2)
                         /\ RAM m' = store (0x0100 + u8 (SP c - 1)) (w mod 0x100)
                                       (store (0x0100 + SP c) (w / 0x100) (RAM m0))).
  { rewrite cpu_execute_decompose. fold m0.
    unfold bind at 1. rewrite fetch_execute_eq, Hop.
    set (ma := with_cpu _ _).
    change (execute_opcode 0x20 ma)
      with ((address <- absolute ;; JSR address ;; add_cycles 6) ma).
    unfold absolute, bind at 1.
    destruct (fetch16_frame ma) as (v & mb & Eb & Cb & Rb). rewrite Eb.
    assert (Cm : cpu mb = with_PC (u16 (PC c + 3)) c).
    { rewrite Cb. unfold ma. cbn [cpu with_cpu PC with_PC]. fold c.
      rewrite (u16_succ _ 2). destruct c; reflexivity. }
    assert (Rm : RAM mb = RAM m0).
    { rewrite Rb. unfold ma. cbn [RAM with_cpu]. apply read_byte_RAM. }
    assert (Hsb : byte (SP (cpu mb))) by (rewrite Cm; destruct c; exact Hsp).
    destruct (JSR_spec v mb Hsb) as (mc & Ec & Cc & Rc).
    unfold bind at 1. rewrite Ec.
    unfold add_cycles, bind, get, put. eexists. split; [reflexivity |].
    cbn [cpu RAM with_cpu SP with_cycles].
    rewrite Cc, Rc, Cm, Rm. split; destruct c; reflexivity. }
  destruct R as (m' & E & S & R). unfold exec. rewrite E. split; assumption.
Qed.

(** A step that services no IRQ and whose fetch yields [RTS]. *)
Lemma rts_step m :
  let c := cpu m in
  let low := RAM m (0x0100 + u8 (SP c + 1)) in
  let high := RAM m (0x0100 + u8 (SP c + 2)) in
  irq_serviced m = false -> byte (SP c) -> fetched_opcode m = 0x60 ->
  PC (cpu (exec cpu_execute m)) = u16 (word high low + 1)
  /\ SP (cpu (exec cpu_execute m)) = u8 (SP c + 2).
Proof.
  intros c low high Hirq Hsp Hop.
  assert (R : exists m', cpu_execute m = (cycles (cpu m'), m')
                         /\ PC (cpu m') = u16 (word high low + 1)
                         /\ SP (cpu m') = u8 (SP c + 2)).
  { rewrite cpu_execute_decompose, irq_check_idle by assumption.
    unfold bind at 1. rewrite fetch_execute_eq.
    rewrite fetched_opcode_with_cpu, Hop by reflexivity.
    set (ma := with_cpu _ (exec _ _)).
    change (execute_opcode 0x60 ma) with ((RTS ;; add_cycles 6) ma).
    assert (Ca : SP (cpu ma) = SP c) by reflexivity.
    assert (Ra : RAM ma = RAM m).
    { unfold ma. cbn [RAM with_cpu]. rewrite read_byte_RAM. reflexivity. }
    unfold bind at 1. rewrite RTS_spec by (rewrite Ca; exact Hsp).
    rewrite Ca, Ra. fold low. fold high.
    unfold add_cycles, bind, get, put. eexists. split; [reflexivity |].
    split; reflexivity. }
  destruct R as (m' & E & P & S). unfold exec. rewrite E. split; assumption.
Qed.

(** C6 - [JSR] pushes [PC - 1], [PC] being just past its two operand
    bytes, high byte first, and lowers SP by two; the [RTS] that follows
    pops that word and adds 1, so that PC is then the address of the
    instruction after the [JSR] and SP is back where it was.  [m0] is the
    machine at the moment the [JSR] opcode is fetched. *)
Theorem jsr_rts_round_trip (m : machine) :
  let m0 := exec irq_check m in
  let c := cpu m0 in
  byte (SP c) ->
  fetched_opcode m0 = 0x20 ->
  let m1 := exec cpu_execute m in
  let w := u16 (u16 (PC c + 3) - 1) in
  SP (cpu m1) = u8 (SP c - 2)
  /\ RAM m1 (0x0100 + SP c) = w / 0x100
  /\ RAM m1 (0x0100 + u8 (SP c - 1)) = w mod 0x100
  /\ (irq_serviced m1 = false -> fetched_opcode m1 = 0x60 ->
      let m2 := exec cpu_execute m1 in
      PC (cpu m2) = u16 (PC c + 3) /\ SP (cpu m2) = SP c).
Proof.
  intros m0 c Hsp Hop m1 w.
  destruct (jsr_step m Hsp Hop) as (S1 & R1). fold m0 c w m1 in S1, R1.
  destruct (stack_slots_distinct _ Hsp) as (D1 & _).
  destruct (word_split w (u16_word16 _)) as (Ew & Hh & Hl).
  assert (L1 : RAM m1 (0x0100 + SP c) = w / 0x100)
    by (rewrite R1, store_neq by lia; apply store_eq).
  assert (L2 : RAM m1 (0x0100 + u8 (SP c - 1)) = w mod 0x100)
    by (rewrite R1; apply store_eq).
  split_all; try assumption.
  - intros Hirq Hrts m2.
    assert (Hs1 : byte (SP (cpu m1))) by (rewrite S1; apply u8_byte).
    destruct (rts_step m1 Hirq Hs1 Hrts) as (P2 & S2). fold m2 in P2, S2.
    rewrite S1 in P2.
    replace (u8 (u8 (SP c - 2) + 1)) with (u8 (SP c - 1)) in P2
      by (unfold u8; rewrite Zplus_mod_idemp_l; f_equal; lia).
    replace (u8 (u8 (SP c - 2) + 2)) with (SP c) in P2
      by (unfold u8; rewrite Zplus_mod_idemp_l;
          replace (SP c - 2 + 2) with (SP c) by lia;
          symmetry; apply Z.mod_small, Hsp).
    rewrite L1, L2, word_little_endian in P2 by assumption.
    split.
    + rewrite P2. replace (w mod 0x100 + 0x100 * (w / 0x100)) with w by lia.
      unfold w, u16. rewrite Zplus_mod_idemp_l.
      replace ((PC c + 3) mod 0x10000 - 1 + 1) with ((PC c + 3) mod 0x10000) by lia.
      apply Z.mod_mod. lia.
    + rewrite S2, S1. unfold u8. rewrite Zplus_mod_idemp_l.
      replace (SP c - 2 + 2) with (SP c) by lia.
      apply Z.mod_small, Hsp.
Qed.

Lemma jsr_rts_round_trip_witness :
  SP (cpu (exec cpu_execute m_s4)) = 0xFB
  /\ RAM (exec cpu_execute m_s4) 0x01FD = 0x00
  /\ RAM (exec cpu_execute m_s4) 0x01FC = 0x02
  /\ PC (cpu (exec cpu_execute (exec cpu_execute m_s4))) = 0x0003
  /\ SP (cpu (exec cpu_execute (exec cpu_execute m_s4))) = 0xFD.
Proof.
  assert (Hsp : byte (SP (cpu (exec irq_check m_s4)))) by (vm_compute; split; congruence).
  assert (Hop : fetched_opcode (exec irq_check m_s4) = 0x20) by (vm_compute; reflexivity).
  destruct (jsr_rts_round_trip m_s4 Hsp Hop) as (S1 & H & L & R).
  assert (Hirq : irq_serviced (exec cpu_execute m_s4) = false) by (vm_compute; reflexivity).
  assert (Hrts : fetched_opcode (exec cpu_execute m_s4) = 0x60) by (vm_compute; reflexivity).
  destruct (R Hirq Hrts) as (P2 & S2).
  split_all.
  - rewrite S1. vm_compute. reflexivity.
  - exact H.
  - exact L.
  - exact P2.
  - exact S2.
Defined.

(** ** Decimal addition *)

Lemma valid_bcd_byte v : valid_bcd v -> byte v.
Proof.
  intros [[H1 H2] [H3 H4]]. unfold byte.
  pose proof (Z.div_mod v 16 ltac:(lia)). lia.
Qed.

Lemma valid_bcd_b v : valid_bcd v -> valid_bcdb v = true.
Proof.
  intros [[H1 H2] [H3 H4]]. unfold valid_bcdb.
  apply andb_true_intro. split; apply Z.leb_le; assumption.
Qed.

(** The decimal branch of [ADC] is [adc_decimal]. *)
Lemma ADC_decimal address m :
  truth (D_Flag (cpu m)) = true ->
  let r := adc_decimal (A (cpu m)) (eval (read_byte address) m) (C_Flag (cpu m)) in
  A (cpu (exec (ADC address) m)) = fst r
  /\ C_Flag (cpu (exec (ADC address) m)) = snd r.
Proof.
  intros Hd r.
  assert (R : exists m2, ADC address m = (tt, m2)
                         /\ A (cpu m2) = fst r /\ C_Flag (cpu m2) = snd r).
  { unfold ADC, bind at 1. unfold get at 1. rewrite Hd.
    unfold bind at 1. unfold get at 1. unfold bind at 1.
    pose proof (read_byte_cpu address m) as Hc. unfold exec in Hc.
    unfold r, eval.
    destruct (read_byte address m) as [op2 m']. cbn [fst snd] in *.
    unfold bind, get, put. eexists. split; [reflexivity |].
    cbn [fst snd cpu with_cpu A C_Flag with_A with_C_Flag
         with_N_Flag with_V_Flag with_Z_Flag].
    rewrite Hc. unfold adc_decimal. cbn [fst snd]. split; reflexivity. }
  destruct R as (m2 & E & RA & RC). unfold exec. rewrite E. split; assumption.
Qed.

(** Every pair of packed-BCD operands, by evaluation. *)
Lemma adc_decimal_table :
  forallb (fun a => forallb (adc_decimal_ok a) all_bytes) all_bytes = true.
Proof. vm_compute. reflexivity. Qed.

Lemma adc_decimal_carry a b c :
  adc_decimal a b c = adc_decimal a b (of_bool (truth c)).
Proof. unfold adc_decimal. rewrite truth_of_bool. reflexivity. Qed.

(** C4 - In decimal mode, for packed-BCD operands [a] (the accumulator) and
    [b] (the byte read) and either carry, [ADC] leaves in [A] the packed BCD
    of [(dec a + dec b + C_in) mod 100] and sets C to 1 exactly when
    [dec a + dec b + C_in >= 100], to 0 otherwise. *)
Theorem adc_decimal_correct (m : machine) (address : Z) :
  truth (D_Flag (cpu m)) = true ->
  let a := A (cpu m) in
  let b := eval (read_byte address) m in
  let c_in := of_bool (truth (C_Flag (cpu m))) in
  valid_bcd a -> valid_bcd b ->
  let m1 := exec (ADC address) m in
  A (cpu m1) = bcd ((dec a + dec b + c_in) mod 100)
  /\ C_Flag (cpu m1) = of_bool (100 <=? dec a + dec b + c_in).
Proof.
  intros Hd a b c_in Ha Hb m1.
  destruct (ADC_decimal address m Hd) as (EA & EC).
  fold m1 a b in EA, EC. rewrite EA, EC, adc_decimal_carry. fold c_in.
  pose proof (forall_byte2 adc_decimal_ok adc_decimal_table a b
                (valid_bcd_byte a Ha) (valid_bcd_byte b Hb)) as T.
  unfold adc_decimal_ok in T.
  rewrite (valid_bcd_b a Ha), (valid_bcd_b b Hb) in T. cbn [andb implb] in T.
  rewrite forallb_forall in T.
  assert (I : In c_in [0; 1])
    by (unfold c_in; destruct (truth (C_Flag (cpu m))); [right; left | left]; reflexivity).
  specialize (T c_in I). cbv zeta in T.
  apply andb_prop in T. destruct T as [T1 T2].
  apply Z.eqb_eq in T1, T2. split; assumption.
Qed.

Lemma adc_decimal_correct_witness :
  A (cpu (exec (ADC 0x0010) m_c4)) = 0x42
  /\ C_Flag (cpu (exec (ADC 0x0010) m_c4)) = 0.
Proof.
  assert (Hd : truth (D_Flag (cpu m_c4)) = true) by reflexivity.
  assert (Ha : valid_bcd (A (cpu m_c4))) by (vm_compute; intuition congruence).
  assert (Hb : valid_bcd (eval (read_byte 0x0010) m_c4)) by (vm_compute; intuition congruence).
  exact (adc_decimal_correct m_c4 0x0010 Hd Ha Hb).
Defined.

(** ** Witnesses on concrete machines *)

Lemma rom_write_discarded_unmapped_inert_witness :
  motherboard_writebyte 0x8000 0x55 m_s4 = (tt, m_s4)
  /\ motherboard_writebyte 0xFFFC 0x55 m_s4 = (tt, m_s4)
  /\ mc6850_readbyte 0xF800 m_s4 = (0xFF, m_s4)
  /\ mc6850_writebyte 0xF800 0x55 m_s4 = (tt, m_s4)
  /\ motherboard_readbyte 0xF7FF = mc6850_readbyte 0xF7FF
  /\ Z.land 0xF7FF 0x0800 = 0.
Proof.
  destruct (rom_write_discarded_unmapped_inert m_s4 0x8000 0x55) as (W1 & _ & _).
  destruct (rom_write_discarded_unmapped_inert m_s4 0xFFFC 0x55) as (W2 & _ & _).
  destruct (rom_write_discarded_unmapped_inert m_s4 0xF800 0x55) as (_ & D & _).
  destruct (rom_write_discarded_unmapped_inert m_s4 0xF7FF 0x55) as (_ & _ & U).
  split; [apply W1; lia |]. split; [apply W2; lia |].
  assert (B : Z.land 0xF800 0x0800 <> 0) by (vm_compute; discriminate).
  destruct (D B) as (D1 & D2).
  cbv zeta in U. destruct U as (_ & U1 & _ & U2).
  split_all; [exact D1 | exact D2 | exact U1 | exact (U2 eq_refl)].
Defined.

Lemma acia_read_witness :
  eval (motherboard_readbyte 0xF000) m_kbd = 0x0F
  /\ eval (motherboard_readbyte 0xF001) m_kbd = 0x41
  /\ SR (acia (exec (motherboard_readbyte 0xF001) m_kbd)) = 0x0E.
Proof.
  assert (W0 : 0xF000 <= 0xF000 <= 0xF7FF) by lia.
  assert (W1 : 0xF000 <= 0xF001 <= 0xF7FF) by lia.
  destruct (acia_read m_kbd 0xF000 W0) as (S & _).
  destruct (acia_read m_kbd 0xF001 W1) as (_ & D).
  destruct (S eq_refl) as (S1 & _). destruct (D eq_refl) as (D1 & _).
  unfold eval, exec. rewrite S1, D1. split_all; vm_compute; reflexivity.
Defined.


(** ** What an illegal opcode does, away from the top of memory *)

Lemma mc6850_readbyte_stderr address m :
  stderr (term (exec (mc6850_readbyte address) m)) = stderr (term m).
Proof.
  destruct m as [c rom ram a t]. unfold mc6850_readbyte, exec.
  destruct (negb (truth (Z.land address 0x0800))); [| reflexivity ].
  destruct (Z.land address 0x0001) as [| [p | p |] | p]; try reflexivity.
  - unfold bind, check_keyboard_ready. simpl.
    destruct (truth (flag_datafile t)); simpl.
    + destruct (truth (of_bool _)); reflexivity.
    + destruct (truth (stdin_has_data t)); reflexivity.
  - unfold bind, read_keyboard. simpl.
    destruct (truth (flag_datafile t)); [destruct (truth (datasize t)); [destruct (fgetc _) |] | destruct (truth (stdin_has_data t))];
      reflexivity.
Qed.

Lemma read_byte_stderr address m :
  stderr (term (exec (read_byte address) m)) = stderr (term m).
Proof.
  unfold read_byte, motherboard_readbyte. cbv zeta.
  destruct (in_range 0x0000 0x7FFF (u16 address)); [reflexivity |].
  destruct (in_range 0x8000 0xEFFF (u16 address)); [reflexivity |].
  destruct (in_range 0xF000 0xF7FF (u16 address)); [apply mc6850_readbyte_stderr |].
  destruct (in_range 0xF800 0xFFFF (u16 address)); reflexivity.
Qed.

Lemma read_byte_ROM address m : ROM (exec (read_byte address) m) = ROM m.
Proof.
  unfold exec. destruct (read_byte_frame address m) as (v & a & t & E).
  rewrite E. reflexivity.
Qed.

(** Whatever the step did before the fetch, an illegal opcode fetched at
    [pc] leaves the reset state, PC from the reset vector, and one more
    message on the error stream; the message names [pc] itself unless
    [pc] is [0xFFFF]. *)
Lemma illegal_opcode_step_resets (m : machine) :
  let m0 := exec irq_check m in
  let pc := PC (cpu m0) in
  illegal (fetched_opcode m0) ->
  let m1 := exec cpu_execute m in
  A (cpu m1) = 0x00 /\ X (cpu m1) = 0x00 /\ Y (cpu m1) = 0x00
  /\ SP (cpu m1) = 0xFD
  /\ truth (I_Flag (cpu m1)) = true
  /\ eval get_P m1 = 0x26
  /\ PC (cpu m1) = word (ROM m0 0x7FFD) (ROM m0 0x7FFC)
  /\ stderr (term m1) =
       stderr (term m0) ++ [illegal_opcode_message (fetched_opcode m0) (u16 (pc + 1))]
  /\ (word16 pc -> pc <> 0xFFFF -> u16 (pc + 1) - 1 = pc).
Proof.
  intros m0 pc Hill m1.
  assert (R : exists m', cpu_execute m = (cycles (cpu m'), m')
      /\ cpu m' = mkCpu (cycles (cpu m0)) (IRQ_PIN_LEVEL (cpu m0)) 0x00 0x00 0x00 0xFD
                        (word (ROM m0 0x7FFD) (ROM m0 0x7FFC)) 0x00 0x00 0x00 0x04 0x02 0x00
      /\ stderr (term m') =
           stderr (term m0) ++ [illegal_opcode_message (fetched_opcode m0) (u16 (pc + 1))]).
  { rewrite cpu_execute_decompose. fold m0.
    unfold bind at 1. rewrite fetch_execute_eq.
    rewrite illegal_dispatch, illegal_opcode_spec by assumption.
    unfold bind, get. eexists. split; [reflexivity |].
    cbn [cpu with_cpu term ROM stderr cycles IRQ_PIN_LEVEL PC with_PC].
    rewrite read_byte_ROM, read_byte_stderr. split; reflexivity. }
  destruct R as (m' & E & C & S).
  assert (E1 : m1 = m') by (unfold m1, exec; rewrite E; reflexivity).
  rewrite E1. unfold eval, get_P, bind, get, ret. cbn [fst]. rewrite C.
  cbn [A X Y SP PC I_Flag N_Flag V_Flag D_Flag Z_Flag C_Flag].
  split_all; try reflexivity; try assumption.
  intros [H0 H1] Hn. unfold u16. rewrite Z.mod_small by lia. lia.
Qed.

(** C10 - A step that services no IRQ (IRQ pin deasserted or I set) and
    fetches an illegal opcode returns a cycle count of 0.  The path does
    its work: the diagnostic, naming the opcode, is appended to the error
    stream, and the CPU is reset ([A = X = Y = 0], [SP = 0xFD], the flags
    as the reset packs them, I set, [PC] from the reset vector); none of
    it adds to the count. *)
Theorem illegal_opcode_step_cycles (m : machine) :
  irq_serviced m = false ->
  illegal (fetched_opcode m) ->
  let m1 := exec cpu_execute m in
  eval cpu_execute m = 0
  /\ stderr (term m1) =
       stderr (term m)
         ++ [illegal_opcode_message (fetched_opcode m) (u16 (PC (cpu m) + 1))]
  /\ A (cpu m1) = 0x00 /\ X (cpu m1) = 0x00 /\ Y (cpu m1) = 0x00
  /\ SP (cpu m1) = 0xFD
  /\ truth (I_Flag (cpu m1)) = true
  /\ eval get_P m1 = 0x26
  /\ PC (cpu m1) = word (ROM m 0x7FFD) (ROM m 0x7FFC).
Proof.
  intros Hirq Hill m1.
  assert (Z0 : eval cpu_execute m = 0).
  { unfold eval.
    rewrite cpu_execute_decompose, irq_check_idle by assumption.
    unfold bind at 1. rewrite fetch_execute_eq.
    rewrite fetched_opcode_with_cpu by reflexivity.
    rewrite illegal_dispatch, illegal_opcode_spec by assumption.
    reflexivity. }
  pose proof (illegal_opcode_step_resets m) as R. cbv zeta in R.
  rewrite (irq_check_idle m Hirq) in R.
  rewrite fetched_opcode_with_cpu in R by reflexivity.
  cbn [cpu ROM term with_cpu] in R.
  change (PC (with_cycles 0 (cpu m))) with (PC (cpu m)) in R.
  destruct (R Hill) as (RA & RX & RY & RS & RI & RP & RPC & RE & _).
  fold m1 in RA, RX, RY, RS, RI, RP, RPC, RE.
  split_all; assumption.
Qed.

Lemma illegal_opcode_step_cycles_witness :
  eval cpu_execute m_c3 = 0
  /\ List.length (stderr (term (exec cpu_execute m_c3))) = 1%nat
  /\ SP (cpu (exec cpu_execute m_c3)) = 0xFD
  /\ PC (cpu (exec cpu_execute m_c3)) = 0xFFFF.
Proof.
  assert (F : fetched_opcode m_c3 = 0x02) by (vm_compute; reflexivity).
  assert (Hill : illegal (fetched_opcode m_c3))
    by (rewrite F; split; [unfold byte; lia | reflexivity]).
  destruct (illegal_opcode_step_cycles m_c3 eq_refl Hill)
    as (Z0 & E & _ & _ & _ & S & _ & _ & P).
  split_all.
  - exact Z0.
  - rewrite E. rewrite length_app. reflexivity.
  - exact S.
  - rewrite P. vm_compute. reflexivity.
Defined.

(** * The scenarios of the specification *)

(** The four CPU scenarios of the specification, evaluated. *)

Example scenario_add_with_carry :
  let m := snd (run 2 (power_on blank (load 0 [0xA9; 0xFF; 0x69; 0x01; 0x00] blank))) in
  (A (cpu m), C_Flag (cpu m), Z_Flag (cpu m), N_Flag (cpu m), V_Flag (cpu m)) = (0, 1, 1, 0, 0)
  /\ fst (run 2 (power_on blank (load 0 [0xA9; 0xFF; 0x69; 0x01; 0x00] blank))) = 4.
Proof. vm_compute. split; reflexivity. Qed.

Example scenario_decimal_addition :
  let m := snd (run 4 (power_on blank (load 0 [0xF8; 0xA9; 0x15; 0x18; 0x69; 0x27; 0x00] blank))) in
  (A (cpu m), C_Flag (cpu m), D_Flag (cpu m)) = (0x42, 0, 1).
Proof. vm_compute. reflexivity. Qed.

Example scenario_branch_page_cross :
  let rom := load 0x7FFC [0xF0; 0x00] blank in
  let m1 := snd (run 1 (power_on rom (load 0xF0 [0xA9; 0x00; 0xF0; 0x10] blank))) in
  eval cpu_execute m1 = 4 /\ PC (cpu (exec cpu_execute m1)) = 0x0104.
Proof. vm_compute. split; reflexivity. Qed.

Example scenario_jsr_rts :
  let m0 := power_on blank (load 0 [0x20; 0x06; 0x00; 0x00; 0x00; 0x00; 0x60] blank) in
  let m1 := exec cpu_execute m0 in
  let m2 := exec cpu_execute m1 in
  SP (cpu m0) - SP (cpu m1) = 2
  /\ (RAM m1 (0x0100 + SP (cpu m0)), RAM m1 (0x0100 + SP (cpu m0) - 1)) = (0x00, 0x02)
  /\ PC (cpu m1) = 0x0006
  /\ PC (cpu m2) = 0x0003 /\ SP (cpu m2) = SP (cpu m0).
Proof. vm_compute. repeat split; reflexivity. Qed.

Example scenario_acia_echo :
  let program := [0xAD; 0x00; 0xF0;    (* LDA $F000 *)
                  0xAD; 0x01; 0xF0;    (* LDA $F001 *)
                  0x8D; 0x01; 0xF0;    (* STA $F001 *)
                  0xAD; 0x00; 0xF0] in (* LDA $F000 *)
  let m0 := with_term (mkTerm 0 0 [] 1 0x41 [] []) (power_on blank (load 0 program blank)) in
  let m := snd (run 4 m0) in
  stdout (term m) = [0x41] /\ Z.testbit (A (cpu m)) 0 = false.
Proof. vm_compute. split; reflexivity. Qed.

Example scenario_nmi_with_irq_disabled :
  let m0 := exec (cpu_irq 0) m_c2 in
  let m1 := exec cpu_nmi m0 in
  truth (I_Flag (cpu m0)) = true
  /\ PC (cpu m1) = 0x0300
  /\ Z.testbit (RAM m1 (0x0100 + SP (cpu m0) - 2)) 4 = false
  /\ I_Flag (cpu m1) = 1.
Proof. vm_compute. repeat (apply conj); reflexivity. Qed.

(** * Further properties of the code *)

(** A conjunction of integer equations, possibly under boolean premises, as
    a boolean. *)
Ltac reify_eqs G :=
  lazymatch G with
  | ?P /\ ?Q => let p := reify_eqs P in let q := reify_eqs Q in constr:(andb p q)
  | (?g = true) -> ?Q => let q := reify_eqs Q in constr:(implb g q)
  | ?P -> ?Q => let p := reify_eqs P in let q := reify_eqs Q in constr:(implb p q)
  | @eq Z ?L ?R => constr:(Z.eqb L R)
  | @eq bool ?L ?R => constr:(Bool.eqb L R)
  end.

Ltac unreify H :=
  cbv beta in H;
  rewrite ?implb_true_iff, ?andb_true_iff, ?Z.eqb_eq, ?Bool.eqb_true_iff in H.

(** Closes a goal made of integer equations in two bytes [a], [b] (in one
    byte [a]) by evaluating it at every pair of bytes (at every byte). *)
Ltac by_bytes2 a b Ha Hb :=
  lazymatch goal with
  | |- ?G =>
      let e := reify_eqs G in
      let f := eval pattern a, b in e in
      lazymatch f with
      | ?P a b =>
          let H := fresh "H" in
          assert (H : P a b = true)
            by (apply (forall_byte2 P); [vm_cast_no_check (eq_refl true) | exact Ha | exact Hb]);
          unreify H; tauto
      end
  end.

Ltac by_bytes1 a Ha :=
  lazymatch goal with
  | |- ?G =>
      let e := reify_eqs G in
      let f := eval pattern a in e in
      lazymatch f with
      | ?P a =>
          let H := fresh "H" in
          assert (H : P a = true)
            by (apply (forall_byte P); [vm_cast_no_check (eq_refl true) | exact Ha]);
          unreify H; tauto
      end
  end.

(** * More basic facts *)

Lemma run_pair {T} (c : M T) m : c m = (eval c m, exec c m).
Proof. unfold eval, exec. destruct (c m); reflexivity. Qed.

(** * The arithmetic unit *)


(** X1 - Binary [ADC]: with D clear, for byte operands and either carry,
    [A] becomes the sum modulo 256, C the carry out of bit 7, Z and N
    reflect the new [A], and V is set exactly when the sum of the operands
    read as signed bytes leaves [-128, 127]. *)
Theorem adc_binary_correct (m : machine) (address : Z) :
  truth (D_Flag (cpu m)) = false ->
  let a := A (cpu m) in
  let b := eval (read_byte address) m in
  let c_in := of_bool (truth (C_Flag (cpu m))) in
  byte a -> byte b ->
  let c1 := cpu (exec (ADC address) m) in
  A c1 = (a + b + c_in) mod 0x100
  /\ C_Flag c1 = (a + b + c_in) / 0x100
  /\ Z_Flag c1 = of_bool ((a + b + c_in) mod 0x100 =? 0)
  /\ N_Flag c1 = 0x80 * ((a + b + c_in) mod 0x100 / 0x80)
  /\ V_Flag c1 =
       of_bool (negb ((-128 <=? s8 a + s8 b + c_in) && (s8 a + s8 b + c_in <=? 127))).
Proof.
  intros Hd a b c_in Ha Hb c1. subst c1 c_in.
  unfold exec, ADC, bind, get. rewrite Hd.
  rewrite (run_pair (read_byte address) m). fold b.
  unfold update_NZ, bind, get, put.
  cbn [fst snd cpu with_cpu A C_Flag Z_Flag N_Flag V_Flag
       with_A with_C_Flag with_N_Flag with_V_Flag with_Z_Flag].
  rewrite !read_byte_cpu. fold a. clearbody a b.
  destruct (truth (C_Flag (cpu m))); cbn [of_bool]; by_bytes2 a b Ha Hb.
Qed.

Lemma adc_binary_correct_witness :
  A (cpu (exec (ADC 0x0010) m_alu)) = 0x41
  /\ C_Flag (cpu (exec (ADC 0x0010) m_alu)) = 1
  /\ V_Flag (cpu (exec (ADC 0x0010) m_alu)) = 0.
Proof.
  assert (Hd : truth (D_Flag (cpu m_alu)) = false) by reflexivity.
  assert (Ha : byte (A (cpu m_alu))) by (vm_compute; split; congruence).
  assert (Hb : byte (eval (read_byte 0x0010) m_alu)) by (vm_compute; split; congruence).
  destruct (adc_binary_correct m_alu 0x0010 Hd Ha Hb) as (EA & EC & _ & _ & EV).
  split_all; assumption.
Defined.

(** X2 - Binary [SBC]: with D clear, for byte operands and either carry
    (borrow is the carry inverted), [A] becomes the difference modulo 256,
    C is set exactly when no borrow is needed, Z and N reflect the new [A],
    and V is set exactly when the difference of the operands read as signed
    bytes leaves [-128, 127]. *)
Theorem sbc_binary_correct (m : machine) (address : Z) :
  truth (D_Flag (cpu m)) = false ->
  let a := A (cpu m) in
  let b := eval (read_byte address) m in
  let borrow := 1 - of_bool (truth (C_Flag (cpu m))) in
  byte a -> byte b ->
  let c1 := cpu (exec (SBC address) m) in
  A c1 = (a - b - borrow) mod 0x100
  /\ C_Flag c1 = of_bool (0 <=? a - b - borrow)
  /\ Z_Flag c1 = of_bool ((a - b - borrow) mod 0x100 =? 0)
  /\ N_Flag c1 = 0x80 * ((a - b - borrow) mod 0x100 / 0x80)
  /\ V_Flag c1 =
       of_bool (negb ((-128 <=? s8 a - s8 b - borrow) && (s8 a - s8 b - borrow <=? 127))).
Proof.
  intros Hd a b borrow Ha Hb c1. subst c1 borrow.
  unfold exec, SBC, bind, get. rewrite Hd.
  rewrite (run_pair (read_byte address) m). fold b.
  unfold update_NZ, bind, get, put.
  cbn [fst snd cpu with_cpu A C_Flag Z_Flag N_Flag V_Flag
       with_A with_C_Flag with_N_Flag with_V_Flag with_Z_Flag].
  rewrite !read_byte_cpu. fold a. clearbody a b.
  destruct (truth (C_Flag (cpu m))); cbn [of_bool]; by_bytes2 a b Ha Hb.
Qed.

Lemma sbc_binary_correct_witness :
  A (cpu (exec (SBC 0x0010) m_alu)) = 0x60
  /\ C_Flag (cpu (exec (SBC 0x0010) m_alu)) = 0.
Proof.
  assert (Hd : truth (D_Flag (cpu m_alu)) = false) by reflexivity.
  assert (Ha : byte (A (cpu m_alu))) by (vm_compute; split; congruence).
  assert (Hb : byte (eval (read_byte 0x0010) m_alu)) by (vm_compute; split; congruence).
  destruct (sbc_binary_correct m_alu 0x0010 Hd Ha Hb) as (EA & EC & _).
  split; assumption.
Defined.

(** X3 - Decimal [SBC]: with D set, for packed-BCD operands and either
    carry, [A] becomes the packed BCD of the difference modulo 100 and C is
    set exactly when no borrow is needed. *)
Theorem sbc_decimal_correct (m : machine) (address : Z) :
  truth (D_Flag (cpu m)) = true ->
  let a := A (cpu m) in
  let b := eval (read_byte address) m in
  let borrow := 1 - of_bool (truth (C_Flag (cpu m))) in
  valid_bcd a -> valid_bcd b ->
  let c1 := cpu (exec (SBC address) m) in
  A c1 = bcd ((dec a - dec b - borrow) mod 100)
  /\ C_Flag c1 = of_bool (0 <=? dec a - dec b - borrow).
Proof.
  intros Hd a b borrow Va Vb c1. subst c1 borrow.
  pose proof (valid_bcd_byte a Va) as Ha. pose proof (valid_bcd_byte b Vb) as Hb.
  apply valid_bcd_b in Va, Vb.
  unfold exec, SBC, bind, get. rewrite Hd.
  rewrite (run_pair (read_byte address) m). fold b.
  unfold bind, get, put.
  cbn [fst snd cpu with_cpu A C_Flag Z_Flag N_Flag V_Flag
       with_A with_C_Flag with_N_Flag with_V_Flag with_Z_Flag].
  rewrite !read_byte_cpu. fold a. clearbody a b.
  change (truth (C_Flag (cpu m))) with (negb (C_Flag (cpu m) =? 0)).
  revert Va Vb.
  destruct (C_Flag (cpu m) =? 0); cbn [negb of_bool]; by_bytes2 a b Ha Hb.
Qed.

Lemma sbc_decimal_correct_witness :
  A (cpu (exec (SBC 0x0010) m_dec)) = 0x87
  /\ C_Flag (cpu (exec (SBC 0x0010) m_dec)) = 0.
Proof.
  assert (Hd : truth (D_Flag (cpu m_dec)) = true) by reflexivity.
  assert (Ha : valid_bcd (A (cpu m_dec))) by (vm_compute; intuition congruence).
  assert (Hb : valid_bcd (eval (read_byte 0x0010) m_dec)) by (vm_compute; intuition congruence).
  exact (sbc_decimal_correct m_dec 0x0010 Hd Ha Hb).
Defined.

(** X4 - The comparisons.  [CMP], [CPX] and [CPY] compare [A], [X] and
    [Y] with the byte at the operand address as unsigned numbers: C is set
    exactly when the register is not below the operand, Z exactly when
    they are equal, N is bit 7 of the difference modulo 256; no register
    is changed. *)
Theorem compare_correct (m : machine) (address : Z) :
  let c := cpu m in
  let b := eval (read_byte address) m in
  byte (A c) -> byte (X c) -> byte (Y c) -> byte b ->
  let after (r : Z) (c1 : cpu6502) :=
    C_Flag c1 = of_bool (b <=? r)
    /\ Z_Flag c1 = of_bool (r =? b)
    /\ N_Flag c1 = 0x80 * ((r - b) mod 0x100 / 0x80)
    /\ A c1 = A c /\ X c1 = X c /\ Y c1 = Y c in
  after (A c) (cpu (exec (CMP address) m))
  /\ after (X c) (cpu (exec (CPX address) m))
  /\ after (Y c) (cpu (exec (CPY address) m)).
Proof.
  intros c b Ha Hx Hy Hb after.
  assert (K : forall r, byte r ->
            C_Flag (cpu (exec (compare r b) (exec (read_byte address) m))) = of_bool (b <=? r)
            /\ Z_Flag (cpu (exec (compare r b) (exec (read_byte address) m))) = of_bool (r =? b)
            /\ N_Flag (cpu (exec (compare r b) (exec (read_byte address) m)))
               = 0x80 * ((r - b) mod 0x100 / 0x80)
            /\ A (cpu (exec (compare r b) (exec (read_byte address) m))) = A c
            /\ X (cpu (exec (compare r b) (exec (read_byte address) m))) = X c
            /\ Y (cpu (exec (compare r b) (exec (read_byte address) m))) = Y c).
  { intros r Hr. unfold exec at 1 3 5 7 9 11, compare, bind, put.
    cbn [fst snd cpu with_cpu A X Y C_Flag Z_Flag N_Flag
         with_C_Flag with_N_Flag with_Z_Flag].
    rewrite !read_byte_cpu. fold c.
    split_all; try reflexivity; clearbody b; clear after.
    - by_bytes2 r b Hr Hb.
    - by_bytes2 r b Hr Hb.
    - by_bytes2 r b Hr Hb. }
  assert (EA : exec (CMP address) m = exec (compare (A c) b) (exec (read_byte address) m)).
  { unfold exec, CMP, bind, get. rewrite (run_pair (read_byte address) m).
    cbn [fst snd]. rewrite read_byte_cpu. reflexivity. }
  assert (EX : exec (CPX address) m = exec (compare (X c) b) (exec (read_byte address) m)).
  { unfold exec, CPX, bind, get. rewrite (run_pair (read_byte address) m).
    cbn [fst snd]. rewrite read_byte_cpu. reflexivity. }
  assert (EY : exec (CPY address) m = exec (compare (Y c) b) (exec (read_byte address) m)).
  { unfold exec, CPY, bind, get. rewrite (run_pair (read_byte address) m).
    cbn [fst snd]. rewrite read_byte_cpu. reflexivity. }
  unfold after. rewrite EA, EX, EY.
  split_all; first [apply (K (A c) Ha) | apply (K (X c) Hx) | apply (K (Y c) Hy)].
Qed.

Lemma compare_correct_witness :
  C_Flag (cpu (exec (CMP 0x0010) m_alu)) = 0
  /\ N_Flag (cpu (exec (CMP 0x0010) m_alu)) = 0
  /\ C_Flag (cpu (exec (CPY 0x0010) m_alu)) = 1.
Proof.
  assert (Ha : byte (A (cpu m_alu))) by (vm_compute; split; congruence).
  assert (Hx : byte (X (cpu m_alu))) by (vm_compute; split; congruence).
  assert (Hy : byte (Y (cpu m_alu))) by (vm_compute; split; congruence).
  assert (Hb : byte (eval (read_byte 0x0010) m_alu)) by (vm_compute; split; congruence).
  destruct (compare_correct m_alu 0x0010 Ha Hx Hy Hb)
    as ((C1 & _ & N1 & _) & _ & (C3 & _)).
  split_all; [exact C1 | exact N1 | exact C3].
Defined.

(** * Flags and stack *)

Lemma get_P_of_set_P data m :
  byte data -> eval get_P (exec (set_P data) m) = Z.lor 0x20 (Z.land data 0xCF).
Proof.
  intros Hd. unfold eval, exec, set_P, get_P, bind, get, put, ret.
  cbn [fst snd cpu with_cpu N_Flag V_Flag D_Flag I_Flag Z_Flag C_Flag
       with_N_Flag with_V_Flag with_D_Flag with_I_Flag with_Z_Flag with_C_Flag].
  by_bytes1 data Hd.
Qed.

Lemma packed_flags_fixpoint p :
  byte p -> Z.testbit p 5 = true -> Z.testbit p 4 = false ->
  Z.lor 0x20 (Z.land p 0xCF) = p /\ Z.lor 0x20 (Z.land (Z.lor p 0x10) 0xCF) = p.
Proof.
  intros Hp. by_bytes1 p Hp.
Qed.

Lemma or_B_byte p : byte p -> byte (Z.lor p B_Flag_Mask) /\ Z.testbit (Z.lor p B_Flag_Mask) 4 = true.
Proof.
  intros Hp. unfold byte, B_Flag_Mask.
  assert (H : (0 <=? Z.lor p 0x10) && (Z.lor p 0x10 <? 0x100)
              && Z.testbit (Z.lor p 0x10) 4 = true)
    by (apply (forall_byte (fun p => (0 <=? Z.lor p 0x10) && (Z.lor p 0x10 <? 0x100)
                                     && Z.testbit (Z.lor p 0x10) 4));
        [vm_compute; reflexivity | exact Hp]).
  rewrite !andb_true_iff, Z.leb_le, Z.ltb_lt in H. tauto.
Qed.

(** X5 - Packing and unpacking the status register: [set_P] followed by
    [get_P] gives the byte back with bit 5 forced to 1 and bit 4 to 0, and
    unpacking what [get_P] packed, with or without the B bit added, changes
    no flag. *)
Theorem flags_pack_unpack (m : machine) (data : Z) :
  byte data ->
  eval get_P (exec (set_P data) m) = Z.lor 0x20 (Z.land data 0xCF)
  /\ eval get_P (exec (set_P (eval get_P m)) m) = eval get_P m
  /\ eval get_P (exec (set_P (Z.lor (eval get_P m) B_Flag_Mask)) m) = eval get_P m.
Proof.
  intros Hd. destruct (get_P_bits m) as (Pb & P5 & P4 & _).
  destruct (packed_flags_fixpoint _ Pb P5 P4) as (F1 & F2).
  destruct (or_B_byte _ Pb) as (Bb & _).
  rewrite !get_P_of_set_P by assumption. auto.
Qed.

Lemma flags_pack_unpack_witness :
  eval get_P (exec (set_P 0xFF) m_alu) = 0xEF
  /\ eval get_P (exec (set_P 0x00) m_alu) = 0x20.
Proof.
  assert (H1 : byte 0xFF) by (split; lia). assert (H0 : byte 0x00) by (split; lia).
  destruct (flags_pack_unpack m_alu 0xFF H1) as (E1 & _).
  destruct (flags_pack_unpack m_alu 0x00 H0) as (E0 & _).
  split; assumption.
Defined.

(** The state after [push], seen from [pop]: the byte comes back, the CPU is
    as before, the cell below the old top of stack keeps the byte. *)
Lemma pop_push data m :
  byte (SP (cpu m)) ->
  pop (exec (push data) m) =
  (u8 data, with_RAM (store (0x0100 + SP (cpu m)) (u8 data) (RAM m)) m).
Proof.
  intros Hsp. unfold exec. rewrite push_spec by assumption. cbn [snd].
  rewrite pop_spec by (cbn [cpu SP with_SP]; apply u8_byte).
  cbn [cpu RAM SP with_SP with_cpu].
  replace (u8 (u8 (SP (cpu m) - 1) + 1)) with (SP (cpu m))
    by (unfold u8; rewrite Zplus_mod_idemp_l;
        replace (SP (cpu m) - 1 + 1) with (SP (cpu m)) by lia;
        symmetry; apply Z.mod_small, Hsp).
  rewrite store_eq. destruct m as [[] ? ? ? ?]; reflexivity.
Qed.

Lemma push_push_pop_pop m d1 d2 :
  byte (SP (cpu m)) ->
  let m2 := exec (push d1 ;; push d2) m in
  exists ma mb,
    pop m2 = (u8 d2, ma) /\ pop ma = (u8 d1, mb)
    /\ cpu mb = cpu m /\ ROM mb = ROM m
    /\ SP (cpu m2) = u8 (SP (cpu m) - 2).
Proof.
  intros Hsp m2.
  destruct (stack_slots_distinct _ Hsp) as (D1 & _).
  set (m1 := exec (push d1) m).
  assert (E1 : m1 = mkMachine (with_SP (u8 (SP (cpu m) - 1)) (cpu m)) (ROM m)
                      (store (0x0100 + SP (cpu m)) (u8 d1) (RAM m)) (acia m) (term m))
    by (unfold m1, exec; rewrite push_spec by assumption; reflexivity).
  assert (Hs1 : byte (SP (cpu m1))) by (rewrite E1; cbn [cpu SP with_SP]; apply u8_byte).
  assert (E2 : m2 = exec (push d2) m1).
  { unfold m2, m1, exec, bind. destruct (push d1 m). reflexivity. }
  pose proof (pop_push d2 m1 Hs1) as P2. rewrite <- E2 in P2.
  set (m3 := with_RAM _ m1) in *.
  assert (S3 : SP (cpu m3) = u8 (SP (cpu m) - 1)) by (unfold m3; rewrite E1; reflexivity).
  assert (Hs3 : byte (SP (cpu m3))) by exact Hs1.
  assert (B : u8 (SP (cpu m3) + 1) = SP (cpu m)).
  { rewrite S3. unfold u8. rewrite Zplus_mod_idemp_l.
    replace (SP (cpu m) - 1 + 1) with (SP (cpu m)) by lia. apply Z.mod_small, Hsp. }
  exists m3, (with_cpu (with_SP (u8 (SP (cpu m3) + 1)) (cpu m3)) m3).
  split; [exact P2 |]. split.
  - rewrite pop_spec by exact Hs3. f_equal. rewrite B.
    unfold m3. cbn [RAM with_RAM].
    replace (SP (cpu m1)) with (u8 (SP (cpu m) - 1)) by (rewrite E1; reflexivity).
    rewrite store_neq by lia. rewrite E1. cbn [RAM]. apply store_eq.
  - rewrite B. split_all.
    + unfold m3. rewrite E1. cbn [cpu with_cpu with_RAM with_SP SP].
      destruct (cpu m); reflexivity.
    + unfold m3. rewrite E1. reflexivity.
    + rewrite E2. unfold exec. rewrite push_spec by exact Hs1.
      cbn [snd cpu SP with_SP]. rewrite E1. cbn [cpu SP with_SP].
      rewrite u8_pred_pred. reflexivity.
Qed.

(** X6 - The stack is last-in first-out and wraps inside page one: for any
    byte [SP], after pushing [d1] then [d2], the first [pop] returns [d2],
    the second [d1], and [SP] is back where it was. *)
Theorem stack_lifo (m : machine) (d1 d2 : Z) :
  byte (SP (cpu m)) ->
  let m2 := exec (push d1 ;; push d2) m in
  eval pop m2 = u8 d2
  /\ eval pop (exec pop m2) = u8 d1
  /\ SP (cpu (exec pop (exec pop m2))) = SP (cpu m).
Proof.
  intros Hsp m2.
  destruct (push_push_pop_pop m d1 d2 Hsp) as (ma & mb & Pa & Pb & C & _).
  fold m2 in Pa. unfold eval, exec. rewrite Pa. cbn [fst snd]. rewrite Pb.
  cbn [fst snd]. rewrite C. auto.
Qed.

Lemma stack_lifo_witness :
  let m := exec (put with_SP 0x00) m_alu in
  let m2 := exec (push 0x11 ;; push 0x22) m in
  eval pop m2 = 0x22 /\ eval pop (exec pop m2) = 0x11
  /\ SP (cpu m2) = 0xFE /\ RAM m2 0x0100 = 0x11 /\ RAM m2 0x01FF = 0x22.
Proof.
  intros m m2.
  assert (Hsp : byte (SP (cpu m))) by (vm_compute; split; congruence).
  destruct (stack_lifo m 0x11 0x22 Hsp) as (A1 & A2 & _).
  split_all; [exact A1 | exact A2 | | |]; vm_compute; reflexivity.
Defined.

(** X7 - A 16-bit word pushed by [push16] (high byte first) is what
    [pop16] returns, [SP] going down by two and coming back. *)
Theorem push16_pop16 (m : machine) (w : Z) :
  byte (SP (cpu m)) -> word16 w ->
  let m2 := exec (push16 w) m in
  eval pop16 m2 = w
  /\ SP (cpu m2) = u8 (SP (cpu m) - 2)
  /\ SP (cpu (exec pop16 m2)) = SP (cpu m).
Proof.
  intros Hsp Hw m2.
  destruct (word_split w Hw) as (Ew & Hh & Hl).
  destruct (push_push_pop_pop m (Z.land (Z.shiftr w 8) 0xFF) (Z.land w 0xFF) Hsp)
    as (ma & mb & Pa & Pb & C & _ & S2).
  change (exec (push (Z.land (Z.shiftr w 8) 0xFF);; push (Z.land w 0xFF)) m) with m2 in Pa, S2.
  rewrite low_byte in Pa. rewrite high_byte in Pb by assumption.
  rewrite u8_id in Pa, Pb by assumption.
  assert (E16 : pop16 m2 = (word (w / 0x100) (w mod 0x100), mb))
    by (unfold pop16, bind; rewrite Pa, Pb; reflexivity).
  unfold eval, exec. rewrite E16. cbn [fst snd]. rewrite C.
  split_all; try assumption; try reflexivity.
  rewrite word_little_endian by assumption. lia.
Qed.

Lemma push16_pop16_witness :
  eval pop16 (exec (push16 0xBEEF) m_alu) = 0xBEEF
  /\ RAM (exec (push16 0xBEEF) m_alu) 0x01FD = 0xBE
  /\ RAM (exec (push16 0xBEEF) m_alu) 0x01FC = 0xEF.
Proof.
  assert (Hsp : byte (SP (cpu m_alu))) by (vm_compute; split; congruence).
  assert (Hw : word16 0xBEEF) by (split; lia).
  destruct (push16_pop16 m_alu 0xBEEF Hsp Hw) as (E & _).
  split_all; [exact E | |]; vm_compute; reflexivity.
Defined.

(** * Software and hardware interrupts, and the way back *)

Lemma set_P_frame data m :
  exists c, set_P data m = (tt, with_cpu c m)
            /\ SP c = SP (cpu m) /\ PC c = PC (cpu m) /\ cycles c = cycles (cpu m)
            /\ A c = A (cpu m) /\ X c = X (cpu m) /\ Y c = Y (cpu m).
Proof.
  unfold set_P, bind, put. eexists. split.
  - cbn [cpu with_cpu]. destruct m; reflexivity.
  - destruct m as [[] ? ? ? ?]. cbn. repeat split.
Qed.

(** [RTI] on a stack that holds, from the top, a flags byte [p] and a
    return address [pc]. *)
Lemma RTI_frame m sp pc p :
  byte sp -> word16 pc -> byte p ->
  SP (cpu m) = u8 (sp - 3) ->
  RAM m (0x0100 + sp) = pc / 0x100 ->
  RAM m (0x0100 + u8 (sp - 1)) = pc mod 0x100 ->
  RAM m (0x0100 + u8 (sp - 2)) = p ->
  exists m2,
    RTI m = (tt, m2)
    /\ PC (cpu m2) = pc /\ SP (cpu m2) = sp
    /\ eval get_P m2 = Z.lor 0x20 (Z.land p 0xCF)
    /\ A (cpu m2) = A (cpu m) /\ X (cpu m2) = X (cpu m) /\ Y (cpu m2) = Y (cpu m)
    /\ RAM m2 = RAM m /\ ROM m2 = ROM m.
Proof.
  intros Hsp Hpc Hp S R1 R2 R3.
  destruct (word_split pc Hpc) as (Epc & Hh & Hl).
  assert (U1 : u8 (u8 (sp - 3) + 1) = u8 (sp - 2))
    by (unfold u8; rewrite Zplus_mod_idemp_l; f_equal; lia).
  assert (U2 : u8 (u8 (sp - 2) + 1) = u8 (sp - 1))
    by (unfold u8; rewrite Zplus_mod_idemp_l; f_equal; lia).
  assert (U3 : u8 (u8 (sp - 1) + 1) = sp)
    by (unfold u8; rewrite Zplus_mod_idemp_l;
        replace (sp - 1 + 1) with sp by lia; apply Z.mod_small, Hsp).
  unfold RTI, bind.
  rewrite pop_spec by (rewrite S; apply u8_byte).
  rewrite S, U1, R3.
  set (m1 := with_cpu _ m).
  destruct (set_P_frame p m1) as (c & Ec & Sc & Pc & Cc & Ac & Xc & Yc). rewrite Ec.
  set (m2 := with_cpu c m1).
  assert (G : eval get_P m2 = Z.lor 0x20 (Z.land p 0xCF)).
  { rewrite <- (get_P_of_set_P p m1 Hp). unfold exec. rewrite Ec. reflexivity. }
  unfold pop16, bind.
  rewrite pop_spec by (unfold m2; cbn [cpu with_cpu]; rewrite Sc; apply u8_byte).
  replace (SP (cpu m2)) with (u8 (sp - 2)) by (unfold m2; cbn [cpu with_cpu]; rewrite Sc; reflexivity).
  rewrite U2.
  replace (RAM m2 (0x0100 + u8 (sp - 1))) with (pc mod 0x100) by (rewrite <- R2; reflexivity).
  rewrite pop_spec by (cbn [cpu with_cpu SP with_SP]; apply u8_byte).
  cbn [cpu with_cpu SP with_SP RAM]. rewrite U3.
  replace (RAM m2 (0x0100 + sp)) with (pc / 0x100) by (rewrite <- R1; reflexivity).
  unfold ret, put. eexists. split; [reflexivity |].
  cbn [cpu with_cpu PC with_PC SP with_SP A X Y RAM ROM].
  rewrite word_little_endian by assumption.
  split_all; try reflexivity; try lia; try assumption.
Qed.

Lemma BRK_spec m :
  byte (SP (cpu m)) ->
  let c := cpu m in
  let pc := u16 (PC c + 1) in
  BRK m =
  (tt, mkMachine
         (mkCpu (cycles c) (IRQ_PIN_LEVEL c) (A c) (X c) (Y c) (u8 (SP c - 3))
                (word (ROM m 0x7FFF) (ROM m 0x7FFE))
                (N_Flag c) (V_Flag c) (D_Flag c) 0x01 (Z_Flag c) (C_Flag c))
         (ROM m)
         (store (0x0100 + u8 (SP c - 2)) (Z.lor (eval get_P m) B_Flag_Mask)
            (store (0x0100 + u8 (SP c - 1)) (pc mod 0x100)
               (store (0x0100 + SP c) (pc / 0x100) (RAM m))))
         (acia m) (term m)).
Proof.
  intros Hsp c pc. subst c.
  destruct (get_P_bits m) as (Pb & _).
  destruct (or_B_byte _ Pb) as (Bb & _).
  assert (Hpc : word16 pc) by apply u16_word16.
  destruct (word_split _ Hpc) as (_ & Hh & Hl).
  set (p := eval get_P m) in *.
  destruct m as [[cy irq a x y sp pc0 n v d i z c] rom ram ac t].
  assert (Ep : forall cy' irq' a' x' y' sp' pc' rom' ram' ac' t',
             eval get_P (mkMachine (mkCpu cy' irq' a' x' y' sp' pc' n v d i z c)
                                   rom' ram' ac' t') = p) by reflexivity.
  state_simpl.
  unfold BRK, push16, bind, get, put. state_simpl. fold pc.
  rewrite push_spec by assumption. state_simpl.
  rewrite push_spec by (state_simpl; apply u8_byte). state_simpl.
  rewrite get_P_pure, Ep.
  rewrite push_spec by (state_simpl; apply u8_byte). state_simpl.
  rewrite read_vector by (unfold IRQ_VECTOR; lia). state_simpl.
  rewrite !u8_pred_pred. simpl Z.add.
  rewrite high_byte, low_byte by assumption.
  rewrite (u8_id (Z.lor p B_Flag_Mask)), (u8_id (pc / 0x100)), (u8_id (pc mod 0x100))
    by assumption.
  reflexivity.
Qed.

(** X8 - [PHP] pushes the packed flags with bit 4 (B) set and bit 5 set;
    [PLP] right after it restores every flag and [SP]. *)
Theorem php_plp_round_trip (m : machine) :
  byte (SP (cpu m)) ->
  let m1 := exec PHP m in
  let m2 := exec PLP m1 in
  RAM m1 (0x0100 + SP (cpu m)) = Z.lor (eval get_P m) 0x10
  /\ Z.testbit (RAM m1 (0x0100 + SP (cpu m))) 4 = true
  /\ Z.testbit (RAM m1 (0x0100 + SP (cpu m))) 5 = true
  /\ SP (cpu m1) = u8 (SP (cpu m) - 1)
  /\ eval get_P m2 = eval get_P m
  /\ SP (cpu m2) = SP (cpu m).
Proof.
  intros Hsp m1 m2.
  destruct (get_P_bits m) as (Pb & P5 & P4 & _).
  destruct (or_B_byte _ Pb) as (Bb & B4).
  destruct (packed_flags_fixpoint _ Pb P5 P4) as (_ & F2).
  set (p := eval get_P m) in *.
  assert (E1 : m1 = exec (push (Z.lor p B_Flag_Mask)) m) by reflexivity.
  assert (E1' : m1 = mkMachine (with_SP (u8 (SP (cpu m) - 1)) (cpu m)) (ROM m)
                      (store (0x0100 + SP (cpu m)) (Z.lor p B_Flag_Mask) (RAM m)) (acia m) (term m)).
  { rewrite E1. unfold exec. rewrite push_spec by assumption.
    rewrite (u8_id _ Bb). reflexivity. }
  assert (R : RAM m1 (0x0100 + SP (cpu m)) = Z.lor p 0x10)
    by (rewrite E1'; cbn [RAM]; apply store_eq).
  assert (E2 : exists mb, PLP m1 = (tt, mb) /\ eval get_P mb = p /\ SP (cpu mb) = SP (cpu m)).
  { unfold PLP, bind. rewrite E1, pop_push by assumption. rewrite (u8_id _ Bb).
    set (ma := with_RAM _ m).
    destruct (set_P_frame (Z.lor p B_Flag_Mask) ma) as (c & Ec & Sc & _).
    rewrite Ec. eexists. split; [reflexivity |]. split.
    - pose proof (get_P_of_set_P _ ma Bb) as G.
      unfold exec in G. rewrite Ec in G. cbn [snd] in G. rewrite G. exact F2.
    - cbn [cpu with_cpu]. rewrite Sc. reflexivity. }
  destruct E2 as (mb & Eb & Gb & Sb).
  assert (E2 : m2 = mb) by (unfold m2, exec; rewrite Eb; reflexivity).
  rewrite E2, R. split_all; try assumption; try reflexivity.
  - rewrite Z.lor_spec, P5. reflexivity.
  - rewrite E1'. reflexivity.
Qed.

Lemma php_plp_round_trip_witness :
  RAM (exec PHP m_alu) 0x01FD = 0x35
  /\ eval get_P (exec PLP (exec PHP m_alu)) = 0x25.
Proof.
  assert (Hsp : byte (SP (cpu m_alu))) by (vm_compute; split; congruence).
  destruct (php_plp_round_trip m_alu Hsp) as (R & _ & _ & _ & G & _).
  split; [exact R | exact G].
Defined.

(** X9 - [BRK] pushes the address two bytes past its opcode (high byte
    first), then the packed flags with bit 4 (B) set, sets I and loads PC
    from the vector at [0xFFFE/0xFFFF]; it adds no cycle by itself.  [RTI]
    right after it resumes at the pushed address with every flag, I
    included, and [SP] as they were before the [BRK].  [m] is the machine
    once the [BRK] opcode has been fetched. *)
Theorem brk_rti_round_trip (m : machine) :
  byte (SP (cpu m)) ->
  let c := cpu m in
  let m1 := exec BRK m in
  let m2 := exec RTI m1 in
  Z.testbit (RAM m1 (0x0100 + u8 (SP c - 2))) 4 = true
  /\ RAM m1 (0x0100 + u8 (SP c - 2)) = Z.lor (eval get_P m) 0x10
  /\ truth (I_Flag (cpu m1)) = true
  /\ PC (cpu m1) = word (ROM m 0x7FFF) (ROM m 0x7FFE)
  /\ cycles (cpu m1) = cycles c
  /\ PC (cpu m2) = u16 (PC c + 1)
  /\ eval get_P m2 = eval get_P m
  /\ SP (cpu m2) = SP c.
Proof.
  intros Hsp c m1 m2. subst c.
  destruct (get_P_bits m) as (Pb & P5 & P4 & _).
  destruct (or_B_byte _ Pb) as (Bb & B4).
  destruct (packed_flags_fixpoint _ Pb P5 P4) as (_ & F2).
  destruct (stack_slots_distinct _ Hsp) as (D1 & D2 & D3).
  pose proof (BRK_spec m Hsp) as E. cbv zeta in E.
  assert (E1 : m1 = snd (BRK m)) by reflexivity. rewrite E in E1. cbn [snd] in E1.
  assert (R3 : RAM m1 (0x0100 + u8 (SP (cpu m) - 2)) = Z.lor (eval get_P m) B_Flag_Mask)
    by (rewrite E1; cbn [RAM]; apply store_eq).
  assert (R2 : RAM m1 (0x0100 + u8 (SP (cpu m) - 1)) = u16 (PC (cpu m) + 1) mod 0x100)
    by (rewrite E1; cbn [RAM]; rewrite store_neq by lia; apply store_eq).
  assert (R1 : RAM m1 (0x0100 + SP (cpu m)) = u16 (PC (cpu m) + 1) / 0x100)
    by (rewrite E1; cbn [RAM]; rewrite !store_neq by lia; apply store_eq).
  assert (S1 : SP (cpu m1) = u8 (SP (cpu m) - 3)) by (rewrite E1; reflexivity).
  destruct (RTI_frame m1 (SP (cpu m)) (u16 (PC (cpu m) + 1)) _ Hsp (u16_word16 _) Bb S1 R1 R2 R3)
    as (mb & Eb & Pm & Sm & Gm & _).
  assert (E2 : m2 = mb) by (unfold m2, exec; rewrite Eb; reflexivity).
  rewrite E2, R3. split_all; try assumption.
  - reflexivity.
  - rewrite E1. reflexivity.
  - rewrite E1. reflexivity.
  - rewrite E1. reflexivity.
  - rewrite Gm. exact F2.
Qed.

Lemma brk_rti_round_trip_witness :
  PC (cpu (exec RTI (exec BRK m_alu))) = 0x0201
  /\ eval get_P (exec RTI (exec BRK m_alu)) = 0x25
  /\ RAM (exec BRK m_alu) 0x01FB = 0x35.
Proof.
  assert (Hsp : byte (SP (cpu m_alu))) by (vm_compute; split; congruence).
  destruct (brk_rti_round_trip m_alu Hsp) as (_ & R & _ & _ & _ & P & G & _).
  split_all; [exact P | exact G | exact R].
Defined.

(** X10 - An interrupt entry ([do_irq], through either vector) followed by
    [RTI] resumes at the interrupted PC with every flag, I included, and
    [SP] as they were before the interrupt. *)
Theorem irq_rti_round_trip (m : machine) (vector : Z) :
  vector = IRQ_VECTOR \/ vector = NMI_VECTOR ->
  byte (SP (cpu m)) -> word16 (PC (cpu m)) ->
  let m2 := exec RTI (exec (do_irq vector) m) in
  PC (cpu m2) = PC (cpu m)
  /\ eval get_P m2 = eval get_P m
  /\ SP (cpu m2) = SP (cpu m)
  /\ A (cpu m2) = A (cpu m) /\ X (cpu m2) = X (cpu m) /\ Y (cpu m2) = Y (cpu m).
Proof.
  intros Hv Hsp Hpc m2.
  assert (V : 0xF800 <= vector < 0xFFFF)
    by (destruct Hv; subst vector; unfold IRQ_VECTOR, NMI_VECTOR; lia).
  destruct (get_P_bits m) as (Pb & P5 & P4 & _).
  destruct (packed_flags_fixpoint _ Pb P5 P4) as (F1 & _).
  pose proof (after_irq_fields vector m V Hsp) as F. cbv zeta in F.
  destruct F as (_ & S1 & R1 & R2 & R3 & _).
  assert (E1 : exec (do_irq vector) m = after_irq vector m)
    by (unfold exec; rewrite do_irq_spec by assumption; reflexivity).
  destruct (RTI_frame (after_irq vector m) (SP (cpu m)) (PC (cpu m)) _ Hsp Hpc Pb S1 R1 R2 R3)
    as (mb & Eb & Pm & Sm & Gm & Am & Xm & Ym & _).
  assert (E2 : m2 = mb) by (unfold m2; rewrite E1; unfold exec; rewrite Eb; reflexivity).
  rewrite E2, Gm, F1. split_all; try assumption; try reflexivity.
Qed.

Lemma irq_rti_round_trip_witness :
  PC (cpu (exec RTI (exec (do_irq NMI_VECTOR) m_alu))) = 0x0200
  /\ eval get_P (exec RTI (exec (do_irq NMI_VECTOR) m_alu)) = 0x25.
Proof.
  assert (Hsp : byte (SP (cpu m_alu))) by (vm_compute; split; congruence).
  assert (Hpc : word16 (PC (cpu m_alu))) by (vm_compute; split; congruence).
  destruct (irq_rti_round_trip m_alu NMI_VECTOR (or_intror eq_refl) Hsp Hpc) as (P & G & _).
  split; [exact P | exact G].
Defined.

(** * Shifts, rotates, increments *)

(** X11 - The four accumulator shifts on a byte [a] with carry-in [c]:
    [ASL] doubles modulo 256 and [LSR] halves, the bit shifted out going to
    C; [ROL] and [ROR] do the same with the old carry shifted in at the
    other end, so that [ROR] after [ROL] gives back both [A] and the
    carry. *)
Theorem accumulator_shifts (m : machine) :
  let a := A (cpu m) in
  let c := of_bool (truth (C_Flag (cpu m))) in
  byte a ->
  (A (cpu (exec ASL_ACC m)) = (2 * a) mod 0x100
   /\ truth (C_Flag (cpu (exec ASL_ACC m))) = (0x80 <=? a))
  /\ (A (cpu (exec LSR_ACC m)) = a / 2
      /\ C_Flag (cpu (exec LSR_ACC m)) = a mod 2)
  /\ (A (cpu (exec ROL_ACC m)) = (2 * a + c) mod 0x100
      /\ truth (C_Flag (cpu (exec ROL_ACC m))) = (0x80 <=? a))
  /\ (A (cpu (exec ROR_ACC m)) = a / 2 + 0x80 * c
      /\ C_Flag (cpu (exec ROR_ACC m)) = a mod 2)
  /\ (A (cpu (exec ROR_ACC (exec ROL_ACC m))) = a
      /\ truth (C_Flag (cpu (exec ROR_ACC (exec ROL_ACC m)))) = truth (C_Flag (cpu m))).
Proof.
  intros a c Ha. subst c.
  unfold exec, ASL_ACC, LSR_ACC, ROL_ACC, ROR_ACC, update_NZ, bind, get, put, ret.
  cbn [fst snd cpu with_cpu A C_Flag with_A with_C_Flag with_N_Flag with_Z_Flag].
  fold a. clearbody a.
  destruct (truth (C_Flag (cpu m)));
    cbn [fst snd cpu with_cpu A C_Flag with_A with_C_Flag with_N_Flag with_Z_Flag of_bool];
    by_bytes1 a Ha.
Qed.

Lemma accumulator_shifts_witness :
  A (cpu (exec ASL_ACC m_alu)) = 0xA0
  /\ A (cpu (exec ROL_ACC m_alu)) = 0xA1
  /\ A (cpu (exec ROR_ACC m_alu)) = 0xA8
  /\ A (cpu (exec ROR_ACC (exec ROL_ACC m_alu))) = 0x50.
Proof.
  assert (Ha : byte (A (cpu m_alu))) by (vm_compute; split; congruence).
  destruct (accumulator_shifts m_alu Ha) as ((E1 & _) & _ & (E3 & _) & (E4 & _) & (E5 & _)).
  split_all; assumption.
Defined.

Lemma write_ram address data m :
  0 <= address <= 0x7FFF ->
  write_byte address data m = (tt, with_RAM (store address (u8 data) (RAM m)) m).
Proof.
  intros H. unfold write_byte, motherboard_writebyte, in_range, ram_writebyte.
  cbv zeta. rewrite (u16_id address) by (unfold word16; lia).
  replace (0x0000 <=? address) with true by (symmetry; apply Z.leb_le; lia).
  replace (address <=? 0x7FFF) with true by (symmetry; apply Z.leb_le; lia).
  rewrite ram_index by assumption. reflexivity.
Qed.

Lemma u8_succ_pred x : byte x -> u8 (u8 (x + 1) - 1) = x /\ u8 (u8 (x - 1) + 1) = x.
Proof.
  intros Hx. unfold u8. rewrite Zminus_mod_idemp_l, Zplus_mod_idemp_l.
  replace (x + 1 - 1) with x by lia. replace (x - 1 + 1) with x by lia.
  split; apply Z.mod_small, Hx.
Qed.

(** X12 - Increments and decrements wrap modulo 256 and undo each other:
    [INX] takes [0xFF] to 0 and sets Z exactly then, [DEX] after [INX] and
    [INX] after [DEX] give [X] back, the same for [Y]; and for a RAM
    address holding a byte, [DEC] after [INC] leaves the cell as it was,
    [INC] having stored the successor modulo 256 and touched no other
    cell. *)
Theorem increments_wrap (m : machine) (address : Z) :
  byte (X (cpu m)) -> byte (Y (cpu m)) ->
  0 <= address <= 0x7FFF -> byte (RAM m address) ->
  (X (cpu (exec INX m)) = (X (cpu m) + 1) mod 0x100
   /\ truth (Z_Flag (cpu (exec INX m))) = (X (cpu m) =? 0xFF)
   /\ X (cpu (exec DEX (exec INX m))) = X (cpu m)
   /\ X (cpu (exec INX (exec DEX m))) = X (cpu m))
  /\ (Y (cpu (exec INY m)) = (Y (cpu m) + 1) mod 0x100
      /\ truth (Z_Flag (cpu (exec INY m))) = (Y (cpu m) =? 0xFF)
      /\ Y (cpu (exec DEY (exec INY m))) = Y (cpu m)
      /\ Y (cpu (exec INY (exec DEY m))) = Y (cpu m))
  /\ (RAM (exec (INC address) m) address = (RAM m address + 1) mod 0x100
      /\ (forall a, a <> address -> RAM (exec (INC address) m) a = RAM m a)
      /\ RAM (exec (DEC address) (exec (INC address) m)) address = RAM m address).
Proof.
  intros Hx Hy Ha Hv. split; [| split].
  - unfold exec, INX, DEX, update_NZ, bind, get, put.
    cbn [fst snd cpu with_cpu X Z_Flag with_X with_N_Flag with_Z_Flag].
    set (x := X (cpu m)) in *. clearbody x. by_bytes1 x Hx.
  - unfold exec, INY, DEY, update_NZ, bind, get, put.
    cbn [fst snd cpu with_cpu Y Z_Flag with_Y with_N_Flag with_Z_Flag].
    set (y := Y (cpu m)) in *. clearbody y. by_bytes1 y Hy.
  - assert (EI : exec (INC address) m =
                 with_RAM (store address (u8 (RAM m address + 1)) (RAM m))
                   (with_cpu (with_Z_Flag (of_bool (u8 (RAM m address + 1) =? 0))
                                (with_N_Flag (Z.land (u8 (RAM m address + 1)) 0x80) (cpu m))) m)).
    { unfold exec, INC, bind. rewrite read_ram by assumption.
      unfold update_NZ, bind, put. rewrite write_ram by assumption.
      rewrite (u8_id (u8 _)) by apply u8_byte. reflexivity. }
    rewrite EI. cbn [RAM with_RAM]. split_all.
    + apply store_eq.
    + intros a Hne. apply store_neq, Hne.
    + unfold exec, DEC, bind. rewrite read_ram by assumption.
      unfold update_NZ, bind, put. rewrite write_ram by assumption.
      cbn [snd RAM with_RAM with_cpu]. rewrite !store_eq.
      rewrite (u8_id (u8 _)) by apply u8_byte.
      apply u8_succ_pred, Hv.
Qed.

Lemma increments_wrap_witness :
  X (cpu (exec INX m_alu)) = 0x02
  /\ Y (cpu (exec INY m_alu)) = 0x00
  /\ truth (Z_Flag (cpu (exec INY m_alu))) = true
  /\ RAM (exec (INC 0x0010) m_alu) 0x0010 = 0xF1.
Proof.
  assert (Hx : byte (X (cpu m_alu))) by (vm_compute; split; congruence).
  assert (Hy : byte (Y (cpu m_alu))) by (vm_compute; split; congruence).
  assert (Ha : 0 <= 0x0010 <= 0x7FFF) by lia.
  assert (Hv : byte (RAM m_alu 0x0010)) by (vm_compute; split; congruence).
  destruct (increments_wrap m_alu 0x0010 Hx Hy Ha Hv)
    as ((E1 & _) & (E2 & E3 & _) & (E4 & _)).
  split_all; assumption.
Defined.

(** * Addressing modes *)

Lemma fetch_eq m :
  fetch m = (fetched_opcode m,
             with_cpu (with_PC (u16 (PC (cpu m) + 1)) (cpu m))
                      (exec (read_byte (PC (cpu m))) m)).
Proof.
  unfold fetch, fetched_opcode, bind, get, put. rewrite read_byte_with_cpu. reflexivity.
Qed.

Lemma fetch16_facts m :
  cpu (exec fetch16 m) = with_PC (u16 (PC (cpu m) + 2)) (cpu m)
  /\ RAM (exec fetch16 m) = RAM m
  /\ word16 (eval fetch16 m).
Proof.
  destruct (fetch16_frame m) as (v & m' & E & C & R).
  unfold exec, eval. rewrite E. cbn [fst snd]. split_all; try assumption.
  unfold fetch16, bind in E. destruct (fetch m) as [lo ma]. destruct (fetch ma) as [hi mb].
  injection E as <- _. apply u16_word16.
Qed.

Lemma fetch_facts m :
  cpu (exec fetch m) = with_PC (u16 (PC (cpu m) + 1)) (cpu m)
  /\ RAM (exec fetch m) = RAM m.
Proof.
  destruct (fetch_frame m) as (v & m' & E & C & R).
  unfold exec. rewrite E. split; assumption.
Qed.

(** X13 - The penalised indexed modes add one cycle exactly when the
    index carries into the high byte of the address.  For [Absolute,X] and
    [Absolute,Y] the base is the operand word; for [(Indirect),Y] it is the
    word held at the operand's zero-page address.  The unpenalised
    [Absolute,X] used by stores adds none. *)
Theorem page_cross_penalty (m : machine) :
  let c := cpu m in
  let base := eval fetch16 m in
  let crossed (e : Z) := negb (base / 0x100 =? e / 0x100) in
  (eval absoluteX_1 m = u16 (base + X c)
   /\ cycles (cpu (exec absoluteX_1 m)) =
        cycles c + of_bool (crossed (u16 (base + X c))))
  /\ (eval absoluteY_1 m = u16 (base + Y c)
      /\ cycles (cpu (exec absoluteY_1 m)) =
           cycles c + of_bool (crossed (u16 (base + Y c))))
  /\ (eval absoluteX m = u16 (base + X c)
      /\ cycles (cpu (exec absoluteX m)) = cycles c)
  /\ (let zp := fetched_opcode m in
      let low := RAM m zp in
      let high := RAM m (u8 (zp + 1)) in
      byte zp -> byte low -> byte high ->
      eval indirectY_1 m = u16 (word high low + Y c)
      /\ cycles (cpu (exec indirectY_1 m)) =
           cycles c + of_bool (negb (word high low / 0x100 =? u16 (word high low + Y c) / 0x100))).
Proof.
  intros c base crossed.
  destruct (fetch16_facts m) as (C16 & R16 & W16). fold base in W16.
  assert (P : fetch16 m = (base, exec fetch16 m)) by apply run_pair.
  assert (Xe : X (cpu (exec fetch16 m)) = X c) by (rewrite C16; destruct (cpu m); reflexivity).
  assert (Ye : Y (cpu (exec fetch16 m)) = Y c) by (rewrite C16; destruct (cpu m); reflexivity).
  assert (Ce : cycles (cpu (exec fetch16 m)) = cycles c) by (rewrite C16; destruct (cpu m); reflexivity).
  split_all.
  - unfold eval, absoluteX_1, bind, get. rewrite P, Xe.
    destruct (_ =? _); reflexivity.
  - unfold exec at 1, absoluteX_1, bind, get. rewrite P, Xe.
    unfold crossed. rewrite same_page_test by (assumption || apply u16_word16).
    destruct (_ =? _); unfold add_cycles, bind, get, put, ret;
      cbn [fst snd cpu with_cpu cycles with_cycles negb of_bool]; rewrite Ce; lia.
  - unfold eval, absoluteY_1, bind, get. rewrite P, Ye.
    destruct (_ =? _); reflexivity.
  - unfold exec at 1, absoluteY_1, bind, get. rewrite P, Ye.
    unfold crossed. rewrite same_page_test by (assumption || apply u16_word16).
    destruct (_ =? _); unfold add_cycles, bind, get, put, ret;
      cbn [fst snd cpu with_cpu cycles with_cycles negb of_bool]; rewrite Ce; lia.
  - unfold eval, absoluteX, bind, get. rewrite P, Xe. reflexivity.
  - unfold exec at 1, absoluteX, bind, get. rewrite P. exact Ce.
  - intros zp low high Hz Hl Hh.
    assert (Ey : exists my, indirectY_1 m =
              (u16 (word high low + Y c), my)
              /\ cycles (cpu my) = cycles c + of_bool (negb (u16 (word high low + Y c) / 0x100 =? high))).
    { unfold indirectY_1, bind. rewrite fetch_eq. fold zp.
      set (m1 := with_cpu _ _).
      assert (R1 : RAM m1 = RAM m) by (unfold m1; cbn [RAM with_cpu]; apply read_byte_RAM).
      pose proof (u8_byte (zp + 1)) as Hz1.
      rewrite read_ram by (unfold byte in Hz; lia).
      rewrite read_ram by (unfold byte in Hz1; lia).
      rewrite R1. fold low. fold high.
      unfold get. cbn [cpu]. 
      assert (Y1 : Y (cpu m1) = Y c) by (unfold m1; cbn [cpu with_cpu]; destruct (cpu m); reflexivity).
      assert (C1 : cycles (cpu m1) = cycles c) by (unfold m1; cbn [cpu with_cpu]; destruct (cpu m); reflexivity).
      rewrite Y1. rewrite Z.shiftr_div_pow2 by lia. change (2 ^ 8) with 0x100.
      destruct (_ =? high); unfold add_cycles, bind, get, put, ret; eexists;
        (split; [reflexivity |]);
        cbn [fst snd cpu with_cpu cycles with_cycles negb of_bool]; rewrite C1; lia. }
    destruct Ey as (my & E & Cy).
    assert (Hb : word high low / 0x100 = high).
    { rewrite word_little_endian by assumption.
      rewrite Z.add_comm, Z.mul_comm, Z.div_add_l by lia.
      rewrite Z.div_small by exact Hl. lia. }
    unfold eval, exec. rewrite E. cbn [fst snd]. rewrite Cy, Hb.
    split; [reflexivity |]. rewrite Z.eqb_sym. reflexivity.
Qed.

Lemma page_cross_penalty_witness :
  eval absoluteX_1 m_idx = 0x8100
  /\ cycles (cpu (exec absoluteX_1 m_idx)) = 1
  /\ eval indirectY_1 m_idx = 0x137F
  /\ cycles (cpu (exec indirectY_1 m_idx)) = 1.
Proof.
  destruct (page_cross_penalty m_idx) as ((E1 & C1) & _ & _ & I).
  assert (Hz : byte (fetched_opcode m_idx)) by (vm_compute; split; congruence).
  assert (Hl : byte (RAM m_idx (fetched_opcode m_idx))) by (vm_compute; split; congruence).
  assert (Hh : byte (RAM m_idx (u8 (fetched_opcode m_idx + 1)))) by (vm_compute; split; congruence).
  destruct (I Hz Hl Hh) as (E2 & C2).
  split_all; assumption.
Defined.

(** X14 - Zero-page indexing never leaves page zero.  [Zero-page,X] and
    [Zero-page,Y] give the sum modulo 256; [(Indirect,X)] reads its pointer
    at that sum and at its successor modulo 256; [(Indirect),Y] reads the
    high byte of its base at the operand's successor modulo 256, so a
    pointer at [0xFF] has its high byte at [0x00]. *)
Theorem zero_page_wrap (m : machine) :
  let c := cpu m in
  let zp := fetched_opcode m in
  eval zeropageX m = (zp + X c) mod 0x100
  /\ eval zeropageY m = (zp + Y c) mod 0x100
  /\ eval indirectX m = word (RAM m (u8 (zp + X c + 1))) (RAM m (u8 (zp + X c)))
  /\ (byte zp ->
      eval indirectY m = u16 (word (RAM m (u8 (zp + 1))) (RAM m zp) + Y c)).
Proof.
  intros c zp.
  set (m1 := with_cpu (with_PC (u16 (PC (cpu m) + 1)) (cpu m)) (exec (read_byte (PC (cpu m))) m)).
  assert (R1 : RAM m1 = RAM m) by (unfold m1; cbn [RAM with_cpu]; apply read_byte_RAM).
  assert (X1 : X (cpu m1) = X c) by (unfold m1; cbn [cpu with_cpu]; destruct (cpu m); reflexivity).
  assert (Y1 : Y (cpu m1) = Y c) by (unfold m1; cbn [cpu with_cpu]; destruct (cpu m); reflexivity).
  split_all.
  - unfold eval, zeropageX, bind, get. rewrite fetch_eq. fold zp m1.
    cbn [fst]. rewrite X1. apply low_byte.
  - unfold eval, zeropageY, bind, get. rewrite fetch_eq. fold zp m1.
    cbn [fst]. rewrite Y1. apply low_byte.
  - unfold eval, indirectX, bind, get. rewrite fetch_eq. fold zp m1. rewrite X1.
    pose proof (u8_byte (zp + X c)) as B1.
    pose proof (u8_byte (u8 (zp + X c) + 1)) as B2.
    rewrite read_ram by (unfold byte in B1; lia).
    rewrite read_ram by (unfold byte in B2; lia).
    cbn [fst]. rewrite R1. f_equal. f_equal.
    unfold u8. rewrite Zplus_mod_idemp_l. reflexivity.
  - intros Hz. unfold eval, indirectY, bind, get. rewrite fetch_eq. fold zp m1.
    pose proof (u8_byte (zp + 1)) as B2.
    rewrite read_ram by (unfold byte in Hz; lia).
    rewrite read_ram by (unfold byte in B2; lia).
    cbn [fst]. rewrite R1, Y1. reflexivity.
Qed.

Lemma zero_page_wrap_witness :
  eval zeropageX m_idx = 0x00
  /\ eval indirectX m_idx = 0x0012
  /\ eval indirectY m_idx = 0x137F.
Proof.
  destruct (zero_page_wrap m_idx) as (E1 & _ & E3 & I).
  assert (Hz : byte (fetched_opcode m_idx)) by (vm_compute; split; congruence).
  split_all; [exact E1 | exact E3 | exact (I Hz)].
Defined.

(** X15 - [JMP (indirect)] reads its target linearly: the low byte at the
    pointer and the high byte at the pointer plus one, also when the
    pointer ends in [0xFF] (the page-wrap of the original chip is not
    reproduced).  Stated for a pointer in RAM. *)
Theorem jmp_indirect_linear (m : machine) :
  let p := eval fetch16 m in
  0 <= p < 0x7FFF ->
  eval indirect m = word (RAM m (p + 1)) (RAM m p)
  /\ PC (cpu (exec (address <- indirect ;; JMP address) m)) = word (RAM m (p + 1)) (RAM m p).
Proof.
  intros p Hp.
  destruct (fetch16_facts m) as (C16 & R16 & W16).
  assert (P : fetch16 m = (p, exec fetch16 m)) by apply run_pair.
  assert (E : indirect m = (word (RAM m (p + 1)) (RAM m p), exec fetch16 m)).
  { unfold indirect, bind. rewrite P. unfold read_word, bind.
    rewrite read_ram by lia.
    rewrite (u16_id (p + 1)) by (unfold word16; lia).
    rewrite read_ram by lia. rewrite R16. reflexivity. }
  unfold eval, exec, bind. rewrite E. split; reflexivity.
Qed.

Lemma jmp_indirect_linear_witness :
  eval fetch16 m_jmp = 0x02FF
  /\ eval indirect m_jmp = 0x1234.
Proof.
  assert (Hp : 0 <= eval fetch16 m_jmp < 0x7FFF) by (vm_compute; split; congruence).
  destruct (jmp_indirect_linear m_jmp Hp) as (E & _).
  split; [vm_compute; reflexivity | exact E].
Defined.

(** * The bus, the ACIA and the keyboard *)

Lemma rom_index address :
  0x8000 <= address <= 0xFFFF -> Z.land address ROMMASK = address - 0x8000.
Proof.
  intros H. change ROMMASK with (Z.ones 15). rewrite Z.land_ones by lia.
  change (2 ^ 15) with 0x8000.
  symmetry. apply (Z.mod_unique_pos address 0x8000 1); lia.
Qed.

(** X16 - The memory map.  A byte written to a RAM address
    ([0x0000-0x7FFF]) is the byte read back there, every other RAM cell
    reads as before and nothing but the RAM changes; a read in the ROM
    region returns the byte of the image at the address minus [0x8000]
    and changes nothing. *)
Theorem memory_map (m : machine) (address data : Z) :
  (0x0000 <= address <= 0x7FFF ->
   let m1 := exec (motherboard_writebyte address data) m in
   motherboard_readbyte address m1 = (u8 data, m1)
   /\ (forall a, 0x0000 <= a <= 0x7FFF -> a <> address ->
         motherboard_readbyte a m1 = (RAM m a, m1))
   /\ cpu m1 = cpu m /\ ROM m1 = ROM m /\ acia m1 = acia m /\ term m1 = term m)
  /\ (0x8000 <= address <= 0xEFFF \/ 0xF800 <= address <= 0xFFFF ->
      motherboard_readbyte address m = (ROM m (address - 0x8000), m)).
Proof.
  split.
  - intros Ha m1.
    assert (E : m1 = with_RAM (store address (u8 data) (RAM m)) m)
      by (unfold m1, exec; change motherboard_writebyte with write_byte;
          rewrite write_ram by assumption; reflexivity).
    change motherboard_readbyte with read_byte.
    split_all; try (rewrite E; reflexivity).
    + rewrite read_ram by assumption. rewrite E at 1. cbn [RAM with_RAM].
      rewrite store_eq. reflexivity.
    + intros a Hr Hne. rewrite read_ram by assumption. rewrite E at 1.
      cbn [RAM with_RAM]. rewrite store_neq by assumption. reflexivity.
  - intros H. unfold motherboard_readbyte, in_range, rom_readbyte.
    cbv zeta. rewrite (u16_id address) by (unfold word16; lia).
    rewrite rom_index by lia.
    replace (address <=? 0x7FFF) with false by (symmetry; apply Z.leb_gt; lia).
    rewrite andb_false_r.
    destruct H as [H | H].
    + replace (0x8000 <=? address) with true by (symmetry; apply Z.leb_le; lia).
      replace (address <=? 0xEFFF) with true by (symmetry; apply Z.leb_le; lia).
      reflexivity.
    + replace (address <=? 0xEFFF) with false by (symmetry; apply Z.leb_gt; lia).
      replace (address <=? 0xF7FF) with false by (symmetry; apply Z.leb_gt; lia).
      replace (0xF800 <=? address) with true by (symmetry; apply Z.leb_le; lia).
      replace (address <=? 0xFFFF) with true by (symmetry; apply Z.leb_le; lia).
      rewrite !andb_false_r. reflexivity.
Qed.

Lemma memory_map_witness :
  eval (motherboard_readbyte 0x0300) (exec (motherboard_writebyte 0x0300 0x1AB) m_s4) = 0xAB
  /\ eval (motherboard_readbyte 0x0000)
          (exec (motherboard_writebyte 0x0300 0x1AB) m_s4) = 0x20
  /\ eval (motherboard_readbyte 0xFFFF) m_c3 = 0x02.
Proof.
  destruct (memory_map m_s4 0x0300 0x1AB) as (W & _).
  destruct (memory_map m_c3 0xFFFF 0) as (_ & R).
  assert (H1 : 0x0000 <= 0x0300 <= 0x7FFF) by lia.
  assert (H0 : 0x0000 <= 0x0000 <= 0x7FFF) by lia.
  assert (Hn : 0x0000 <> 0x0300) by lia.
  assert (H2 : 0x8000 <= 0xFFFF <= 0xEFFF \/ 0xF800 <= 0xFFFF <= 0xFFFF) by lia.
  destruct (W H1) as (E1 & E2 & _).
  unfold eval. rewrite E1, (E2 0 H0 Hn), (R H2). split_all; vm_compute; reflexivity.
Defined.

Lemma decode_acia_write address :
  0xF000 <= address <= 0xF7FF ->
  motherboard_writebyte address = mc6850_writebyte address.
Proof.
  intros H. unfold motherboard_writebyte, in_range. cbv zeta. rewrite (u16_id address) by (unfold word16; lia).
  replace (0x0000 <=? address) with true by (symmetry; apply Z.leb_le; lia).
  replace (address <=? 0x7FFF) with false by (symmetry; apply Z.leb_gt; lia).
  replace (0x8000 <=? address) with true by (symmetry; apply Z.leb_le; lia).
  replace (address <=? 0xEFFF) with false by (symmetry; apply Z.leb_gt; lia).
  replace (0xF000 <=? address) with true by (symmetry; apply Z.leb_le; lia).
  replace (address <=? 0xF7FF) with true by (symmetry; apply Z.leb_le; lia).
  reflexivity.
Qed.

(** X17 - Writes to the ACIA window [0xF000-0xF7FF]; the data is taken as
    a [uint8_t], that is modulo 256.  At an even address the byte goes to
    [CR] and nothing else happens.  At an odd address the byte is appended
    to the terminal output and bit 1 of [SR] is set; the other ACIA
    registers ([TDR] too), the keyboard, the CPU and the memories are as
    before. *)
Theorem acia_write (m : machine) (address data : Z) :
  0xF000 <= address <= 0xF7FF ->
  let a := acia m in
  let t := term m in
  (Z.land address 1 = 0 ->
     motherboard_writebyte address data m =
       (tt, with_acia (mkAcia (TDR a) (RDR a) (u8 data) (SR a)) m))
  /\ (Z.land address 1 = 1 ->
        let sr := u8 (Z.lor (SR a) 0x02) in
        motherboard_writebyte address data m =
          (tt, mkMachine (cpu m) (ROM m) (RAM m)
                 (mkAcia (TDR a) (RDR a) (CR a) sr)
                 (mkTerm (flag_datafile t) (datasize t) (datafile t)
                         (stdin_has_data t) (stdin_value t)
                         (stdout t ++ [u8 data]) (stderr t)))
        /\ Z.testbit sr 1 = true).
Proof.
  intros H a t. rewrite (decode_acia_write address H).
  unfold mc6850_writebyte. cbv zeta. rewrite (acia_window_selected address H).
  change (negb (truth 0)) with true. cbv iota.
  split; intros E; rewrite E.
  - destruct m; reflexivity.
  - split.
    + unfold bind, write_terminal, get_SR, put_SR.
      rewrite (u8_id (u8 data)) by apply u8_byte.
      destruct m; reflexivity.
    + unfold u8. change 0x100 with (2 ^ 8).
      rewrite Z.mod_pow2_bits_low by lia.
      rewrite Z.lor_spec. apply orb_true_r.
Qed.

Lemma acia_write_witness :
  stdout (term (exec (motherboard_writebyte 0xF001 0x141) m_kbd)) = [0x41]
  /\ CR (acia (exec (motherboard_writebyte 0xF000 0x311) m_kbd)) = 0x11
  /\ stdout (term (exec (motherboard_writebyte 0xF000 0x311) m_kbd)) = [].
Proof.
  assert (W0 : 0xF000 <= 0xF000 <= 0xF7FF) by lia.
  assert (W1 : 0xF000 <= 0xF001 <= 0xF7FF) by lia.
  destruct (acia_write m_kbd 0xF000 0x311 W0) as (C & _).
  destruct (acia_write m_kbd 0xF001 0x141 W1) as (_ & D).
  destruct (D eq_refl) as (D1 & _).
  unfold exec. rewrite (C eq_refl), D1. split_all; reflexivity.
Defined.

(** ** The keyboard *)

Lemma lf_to_cr_byte b : byte b -> u8 (lf_to_cr b) = lf_to_cr b.
Proof.
  intros H. unfold lf_to_cr. destruct (b =? 0x0A); [reflexivity |].
  apply u8_id. exact H.
Qed.

Lemma truth_pos z : 0 < z -> truth z = true.
Proof. intros H. unfold truth. destruct z; try lia; reflexivity. Qed.

(** One [read_keyboard] in data-file mode with bytes left. *)
Lemma read_keyboard_file c rom ram a f b rest h v o e :
  truth f = true -> byte b ->
  read_keyboard
    (mkMachine c rom ram a
       (mkTerm f (Z.of_nat (S (List.length rest))) (b :: rest) h v o e)) =
  (lf_to_cr b,
   mkMachine c rom ram a
     (mkTerm (match rest with [] => 0 | _ => f end)
             (Z.of_nat (List.length rest)) rest h v o e)).
Proof.
  intros Hf Hb. unfold read_keyboard.
  cbn [term flag_datafile datasize datafile stdin_has_data stdin_value
       stdout stderr fgetc].
  rewrite Hf, (truth_pos (Z.of_nat (S (List.length rest)))) by lia.
  replace (Z.of_nat (S (List.length rest)) - 1)
    with (Z.of_nat (List.length rest)) by lia.
  fold (lf_to_cr b). rewrite (lf_to_cr_byte b Hb).
  unfold with_term. cbn [cpu ROM RAM acia].
  destruct rest as [| b' rest']; [reflexivity |].
  replace (Z.of_nat (List.length (b' :: rest')) =? 0) with false
    by (symmetry; apply Z.eqb_neq; cbn [List.length]; lia).
  reflexivity.
Qed.

Lemma read_keys_file l : forall c rom ram a f h v o e,
  truth f = true -> l <> [] -> Forall byte l ->
  read_keys (List.length l)
    (mkMachine c rom ram a (mkTerm f (Z.of_nat (List.length l)) l h v o e)) =
  (map lf_to_cr l, mkMachine c rom ram a (mkTerm 0 0 [] h v o e)).
Proof.
  induction l as [| b rest IH]; intros c rom ram a f h v o e Hf Hne Hl;
    [congruence |].
  inversion Hl as [| ? ? Hb Hrest]; subst.
  cbn [List.length read_keys map]. unfold bind at 1.
  rewrite (read_keyboard_file c rom ram a f b rest h v o e Hf Hb).
  destruct rest as [| b' rest'].
  - reflexivity.
  - unfold bind, ret.
    rewrite (IH c rom ram a f h v o e Hf ltac:(discriminate) Hrest).
    reflexivity.
Qed.

(** X18 - Replaying a data file.  In data-file mode, with [datasize] the
    length of a non-empty file of bytes, as many [read_keyboard] calls as
    the file has bytes return its bytes in order, each LF turned into CR;
    the last call switches data-file mode off, so from then on the keyboard
    reports what the standard input has.  Nothing but the file state
    changes. *)
Theorem datafile_replay (m : machine) :
  let t := term m in
  truth (flag_datafile t) = true ->
  datafile t <> [] ->
  datasize t = Z.of_nat (List.length (datafile t)) ->
  Forall byte (datafile t) ->
  let m' := with_term (mkTerm 0 0 [] (stdin_has_data t) (stdin_value t)
                              (stdout t) (stderr t)) m in
  read_keys (List.length (datafile t)) m = (map lf_to_cr (datafile t), m')
  /\ check_keyboard_ready m' = (stdin_has_data t, m').
Proof.
  intros t Hf Hne Hs Hl m'. split; [| reflexivity].
  subst m' t. destruct m as [c rom ram a [f s l h v o e]].
  cbn [term flag_datafile datasize datafile stdin_has_data stdin_value
       stdout stderr] in *.
  subst s. unfold with_term. cbn [cpu ROM RAM acia].
  apply read_keys_file; assumption.
Qed.

Lemma datafile_replay_witness :
  eval (read_keys 3) m_file = [0x41; 0x0D; 0x42]
  /\ flag_datafile (term (exec (read_keys 3) m_file)) = 0.
Proof.
  assert (Hb : Forall byte (datafile (term m_file)))
    by (repeat constructor; unfold byte; cbn; lia).
  destruct (datafile_replay m_file eq_refl ltac:(discriminate) eq_refl Hb)
    as (E & _).
  unfold eval, exec.
  change (List.length (datafile (term m_file))) with 3%nat in E.
  rewrite E. split; reflexivity.
Defined.

(** X19 - An empty data file silences the keyboard for good.  In data-file
    mode with [datasize = 0] the keyboard never reports a key, every read
    returns 0, and neither call changes anything: data-file mode is never
    left, whatever the standard input holds. *)
Theorem empty_datafile_mutes_keyboard (m : machine) :
  truth (flag_datafile (term m)) = true ->
  datasize (term m) = 0 ->
  check_keyboard_ready m = (0, m)
  /\ read_keyboard m = (0, m)
  /\ forall n, read_keys n m = (repeat 0 n, m).
Proof.
  intros Hf Hs.
  assert (R : read_keyboard m = (0, m)).
  { unfold read_keyboard. rewrite Hf, Hs. cbn. destruct m; reflexivity. }
  split_all.
  - unfold check_keyboard_ready. rewrite Hf, Hs. reflexivity.
  - exact R.
  - induction n as [| n IH]; [reflexivity |].
    cbn [read_keys repeat]. unfold bind, ret. rewrite R, IH. reflexivity.
Qed.

Lemma empty_datafile_mutes_keyboard_witness :
  eval check_keyboard_ready m_empty_file = 0
  /\ eval (read_keys 5) m_empty_file = [0; 0; 0; 0; 0].
Proof.
  destruct (empty_datafile_mutes_keyboard m_empty_file eq_refl eq_refl)
    as (E1 & _ & E3).
  unfold eval. rewrite E1, (E3 5%nat). split; reflexivity.
Defined.

(** X20 - The key handshake through the ACIA.  With the keyboard on the
    standard input and a key [v] waiting, a read of the status register
    (even address) has bit 0 set, the read of the data register (odd
    address) that follows returns [v] with LF turned into CR, and the
    status read after it has bit 0 clear: a key is delivered once. *)
Theorem acia_key_handshake (m : machine) (status data : Z) :
  0xF000 <= status <= 0xF7FF -> Z.land status 1 = 0 ->
  0xF000 <= data <= 0xF7FF -> Z.land data 1 = 1 ->
  truth (flag_datafile (term m)) = false ->
  truth (stdin_has_data (term m)) = true ->
  byte (stdin_value (term m)) ->
  let m1 := exec (motherboard_readbyte status) m in
  let m2 := exec (motherboard_readbyte data) m1 in
  Z.testbit (eval (motherboard_readbyte status) m) 0 = true
  /\ eval (motherboard_readbyte data) m1 = lf_to_cr (stdin_value (term m))
  /\ Z.testbit (eval (motherboard_readbyte status) m2) 0 = false
  /\ eval check_keyboard_ready m2 = 0.
Proof.
  intros Ws Es Wd Ed Hf Hk Hv m1 m2. subst m1 m2.
  destruct m as [c rom ram [tdr rdr cr sr] [f s l h v o e]].
  cbn [term flag_datafile stdin_has_data stdin_value] in Hf, Hk, Hv.
  assert (B1 : forall x, Z.testbit (u8 (Z.lor x 1)) 0 = true).
  { intros x. unfold u8. change 0x100 with (2 ^ 8).
    rewrite Z.mod_pow2_bits_low by lia. rewrite Z.lor_spec. apply orb_true_r. }
  assert (B0 : forall x, Z.testbit (u8 (Z.land x 0xFE)) 0 = false).
  { intros x. unfold u8. change 0x100 with (2 ^ 8).
    rewrite Z.mod_pow2_bits_low by lia. rewrite Z.land_spec. apply andb_false_r. }
  assert (S1 : forall a h', truth h' = true ->
            motherboard_readbyte status
              (mkMachine c rom ram a (mkTerm f s l h' v o e)) =
            (u8 (Z.lor (SR a) 1),
             mkMachine c rom ram (mkAcia (TDR a) (RDR a) (CR a) (u8 (Z.lor (SR a) 1)))
                       (mkTerm f s l h' v o e))).
  { intros a h' Hh. rewrite (decode_acia status Ws). unfold mc6850_readbyte.
    rewrite (acia_window_selected status Ws), Es.
    change (negb (truth 0)) with true. cbv iota.
    unfold bind, check_keyboard_ready, get_SR, put_SR.
    cbn [term flag_datafile stdin_has_data fst snd]. rewrite Hf, Hh.
    reflexivity. }
  assert (S0 : forall a,
            motherboard_readbyte status
              (mkMachine c rom ram a (mkTerm f s l 0 v o e)) =
            (SR a, mkMachine c rom ram a (mkTerm f s l 0 v o e))).
  { intros a. rewrite (decode_acia status Ws). unfold mc6850_readbyte.
    rewrite (acia_window_selected status Ws), Es.
    change (negb (truth 0)) with true. cbv iota.
    unfold bind, check_keyboard_ready, get_SR, put_SR.
    cbn [term flag_datafile stdin_has_data fst snd]. rewrite Hf.
    reflexivity. }
  assert (D : forall a,
            motherboard_readbyte data
              (mkMachine c rom ram a (mkTerm f s l h v o e)) =
            (lf_to_cr v,
             mkMachine c rom ram
               (mkAcia (TDR a) (lf_to_cr v) (CR a) (u8 (Z.land (SR a) 0xFE)))
               (mkTerm f s l 0 v o e))).
  { intros a. rewrite (decode_acia data Wd). unfold mc6850_readbyte.
    rewrite (acia_window_selected data Wd), Ed.
    change (negb (truth 0)) with true. cbv iota.
    unfold bind, read_keyboard, put_RDR, get_RDR, get_SR, put_SR, ret.
    cbn [term flag_datafile stdin_has_data stdin_value fst snd].
    rewrite Hf, Hk. fold (lf_to_cr v). rewrite (lf_to_cr_byte v Hv).
    reflexivity. }
  unfold eval, exec. rewrite (S1 _ h Hk). cbn [fst snd].
  rewrite D. cbn [fst snd]. rewrite S0. cbn [fst SR].
  split_all.
  - apply B1.
  - reflexivity.
  - apply B0.
  - unfold check_keyboard_ready. cbn [term flag_datafile stdin_has_data].
    rewrite Hf. reflexivity.
Qed.

Lemma acia_key_handshake_witness :
  Z.testbit (eval (motherboard_readbyte 0xF000) m_kbd) 0 = true
  /\ eval (motherboard_readbyte 0xF001)
          (exec (motherboard_readbyte 0xF000) m_kbd) = 0x41.
Proof.
  assert (Ws : 0xF000 <= 0xF000 <= 0xF7FF) by lia.
  assert (Wd : 0xF000 <= 0xF001 <= 0xF7FF) by lia.
  assert (Hv : byte (stdin_value (term m_kbd))) by (unfold byte; cbn; lia).
  destruct (acia_key_handshake m_kbd 0xF000 0xF001 Ws eq_refl Wd eq_refl
              eq_refl eq_refl Hv) as (E1 & E2 & _).
  split; [exact E1 | exact E2].
Defined.

(** X21 - [read_keyboard] never returns a line feed, given that the data
    file holds bytes and the mailbox a byte, or [EOF] (-1), as [fgetc] and
    [getchar] give them. *)
Theorem read_keyboard_never_lf (m : machine) :
  Forall (fun b => -1 <= b <= 0xFF) (datafile (term m)) ->
  -1 <= stdin_value (term m) <= 0xFF ->
  eval read_keyboard m <> 0x0A.
Proof.
  intros Hl Hv.
  assert (K : forall ch, -1 <= ch <= 0xFF ->
                         u8 (if ch =? 0x0A then 0x0D else ch) <> 0x0A).
  { intros ch Hc. destruct (Z.eqb_spec ch 0x0A) as [-> | Hn].
    - vm_compute. discriminate.
    - destruct (Z.eq_dec ch (-1)) as [-> | Hm]; [vm_compute; discriminate |].
      rewrite u8_id by (unfold byte; lia). exact Hn. }
  unfold eval, read_keyboard.
  destruct (truth (flag_datafile (term m))).
  - destruct (truth (datasize (term m))).
    + destruct (datafile (term m)) as [| b rest]; cbn [fgetc fst].
      * vm_compute. discriminate.
      * apply K. inversion Hl; assumption.
    + vm_compute. discriminate.
  - destruct (truth (stdin_has_data (term m))); cbn [fst].
    + apply K. exact Hv.
    + vm_compute. discriminate.
Qed.

Lemma read_keyboard_never_lf_witness :
  eval read_keyboard (exec read_keyboard m_file) <> 0x0A.
Proof.
  apply read_keyboard_never_lf.
  - repeat constructor; cbn; lia.
  - cbn. lia.
Defined.

(** * Invariants of a step *)

(** ** The ROM is read-only *)

Lemma keeps_ROM_ret {T} (v : T) : keeps_ROM (ret v).
Proof. intros m. reflexivity. Qed.

Lemma keeps_ROM_bind {T U} (c : M T) (k : T -> M U) :
  keeps_ROM c -> (forall v, keeps_ROM (k v)) -> keeps_ROM (bind c k).
Proof.
  intros Hc Hk m. unfold exec, bind.
  specialize (Hc m). unfold exec in Hc.
  destruct (c m) as [v m1]. cbn [snd] in Hc. rewrite <- Hc. apply Hk.
Qed.

Lemma keeps_ROM_get f : keeps_ROM (get f).
Proof. intros m. reflexivity. Qed.

Lemma keeps_ROM_put w v : keeps_ROM (put w v).
Proof. intros m. reflexivity. Qed.

Lemma keeps_ROM_read_byte address : keeps_ROM (read_byte address).
Proof. intros m. apply read_byte_ROM. Qed.

Lemma keeps_ROM_write_byte address data : keeps_ROM (write_byte address data).
Proof.
  intros m. unfold write_byte, motherboard_writebyte, mc6850_writebyte. cbv zeta.
  repeat match goal with
         | |- context [if ?b then _ else _] => destruct b
         | |- context [match ?z with 0 => _ | Z.pos _ => _ | Z.neg _ => _ end] =>
             destruct z as [| [| |] |]
         end; reflexivity.
Qed.

Lemma keeps_ROM_fprintf_stderr msg : keeps_ROM (fprintf_stderr msg).
Proof. intros m. reflexivity. Qed.

Ltac keeps_ROM_step :=
  lazymatch goal with
  | |- keeps_ROM (ret _) => apply keeps_ROM_ret
  | |- keeps_ROM (bind _ _) => apply keeps_ROM_bind; [| intro]
  | |- keeps_ROM (get _) => apply keeps_ROM_get
  | |- keeps_ROM (put _ _) => apply keeps_ROM_put
  | |- keeps_ROM (read_byte _) => apply keeps_ROM_read_byte
  | |- keeps_ROM (write_byte _ _) => apply keeps_ROM_write_byte
  | |- keeps_ROM (fprintf_stderr _) => apply keeps_ROM_fprintf_stderr
  | |- keeps_ROM (if ?b then _ else _) => destruct b
  | |- keeps_ROM ?c => let h := head_of c in unfold h; cbv beta zeta
  end.

Lemma keeps_ROM_execute_opcode op : keeps_ROM (execute_opcode op).
Proof.
  revert op. each_opcode (fun (_ : Z) (c : M unit) => keeps_ROM c) ltac:(repeat keeps_ROM_step).
  apply keeps_ROM_ret.
Qed.

Lemma keeps_ROM_cpu_execute : keeps_ROM cpu_execute.
Proof.
  unfold cpu_execute.
  repeat first [apply keeps_ROM_execute_opcode | keeps_ROM_step].
Qed.

Lemma keeps_ROM_run n : forall m, ROM (snd (run n m)) = ROM m.
Proof.
  induction n as [| n IH]; intros m; [reflexivity |].
  cbn [run]. pose proof (keeps_ROM_cpu_execute m) as H. unfold exec in H.
  destruct (cpu_execute m) as [c m1]. cbn [snd] in H.
  specialize (IH m1). destruct (run n m1) as [cs m2]. cbn [snd] in *. congruence.
Qed.

(** X22 - The ROM is read-only: no step of the CPU, whatever the opcode
    and whatever address it writes to, no interrupt entry and no reset
    changes a byte of the ROM, however long the machine runs. *)
Theorem rom_is_read_only (m : machine) :
  (forall n, ROM (snd (run n m)) = ROM m)
  /\ ROM (exec cpu_nmi m) = ROM m
  /\ ROM (exec motherboard_reset m) = ROM m
  /\ (forall level, ROM (exec (cpu_irq level) m) = ROM m).
Proof.
  split_all.
  - intros n. apply keeps_ROM_run.
  - revert m. change (keeps_ROM cpu_nmi). repeat keeps_ROM_step.
  - revert m. change (keeps_ROM motherboard_reset).
    unfold motherboard_reset. apply keeps_ROM_bind; [intros m; reflexivity | intro].
    repeat keeps_ROM_step.
  - intros level. reflexivity.
Qed.

(** ** The cycles of a step *)

Lemma adds_ret {T} (v : T) : adds 0 0 (ret v).
Proof. intros m. unfold exec, ret. cbn [snd]. lia. Qed.

Lemma adds_bind {T U} l1 h1 l2 h2 (c : M T) (k : T -> M U) :
  adds l1 h1 c -> (forall v, adds l2 h2 (k v)) ->
  adds (l1 + l2) (h1 + h2) (bind c k).
Proof.
  intros Hc Hk m. unfold exec, bind.
  specialize (Hc m). unfold exec in Hc.
  destruct (c m) as [v m1]. cbn [snd] in Hc.
  specialize (Hk v m1). unfold exec in Hk. lia.
Qed.

Lemma adds_if {T} l1 h1 l2 h2 (b : bool) (c1 c2 : M T) :
  adds l1 h1 c1 -> adds l2 h2 c2 ->
  adds (Z.min l1 l2) (Z.max h1 h2) (if b then c1 else c2).
Proof.
  intros H1 H2 m. specialize (H1 m). specialize (H2 m). destruct b; lia.
Qed.

Lemma adds_weaken {T} l h lo hi (c : M T) :
  adds l h c -> lo <= l -> h <= hi -> adds lo hi c.
Proof. intros H Hl Hh m. specialize (H m). lia. Qed.

Lemma adds_get f : adds 0 0 (get f).
Proof. intros m. unfold exec, get. cbn [snd]. lia. Qed.

Lemma adds_put w v :
  (forall c, cycles (w v c) = cycles c) -> adds 0 0 (put w v).
Proof.
  intros H m. unfold exec, put. cbn [snd cpu with_cpu]. rewrite H. lia.
Qed.

Lemma adds_add_cycles n : adds n n (add_cycles n).
Proof.
  intros m. unfold exec, add_cycles, bind, get, put.
  cbn [snd cpu with_cpu]. unfold with_cycles. cbn [cycles]. lia.
Qed.

Lemma adds_read_byte address : adds 0 0 (read_byte address).
Proof. intros m. rewrite read_byte_cpu. lia. Qed.

Lemma write_byte_cpu address data m :
  cpu (exec (write_byte address data) m) = cpu m.
Proof.
  unfold write_byte, motherboard_writebyte, mc6850_writebyte. cbv zeta.
  repeat match goal with
         | |- context [if ?b then _ else _] => destruct b
         | |- context [match ?z with 0 => _ | Z.pos _ => _ | Z.neg _ => _ end] =>
             destruct z as [| [| |] |]
         end; reflexivity.
Qed.

Lemma adds_write_byte address data : adds 0 0 (write_byte address data).
Proof. intros m. rewrite write_byte_cpu. lia. Qed.

Lemma adds_fprintf_stderr msg : adds 0 0 (fprintf_stderr msg).
Proof. intros m. unfold exec, fprintf_stderr. cbn [snd cpu with_term]. lia. Qed.

Ltac adds_step :=
  lazymatch goal with
  | |- adds _ _ (ret _) => apply adds_ret
  | |- adds _ _ (bind _ _) => eapply adds_bind; [| intro]
  | |- adds _ _ (add_cycles _) => apply adds_add_cycles
  | |- adds _ _ (get _) => apply adds_get
  | |- adds _ _ (put _ _) => apply adds_put; intros []; reflexivity
  | |- adds _ _ (read_byte _) => apply adds_read_byte
  | |- adds _ _ (write_byte _ _) => apply adds_write_byte
  | |- adds _ _ (fprintf_stderr _) => apply adds_fprintf_stderr
  | |- adds _ _ (if _ then _ else _) => eapply adds_if
  | |- adds _ _ ?c => let h := head_of c in unfold h; cbv beta zeta
  end.

(** The bounds of a computation, found along its structure. *)
Ltac adds_bounds :=
  eapply adds_weaken;
  [ repeat adds_step
  | apply Z.leb_le; vm_compute; reflexivity
  | apply Z.leb_le; vm_compute; reflexivity ].

Lemma adds_do_irq vector : adds 7 7 (do_irq vector).
Proof. adds_bounds. Qed.

Lemma documented_byte op : documented op = true -> byte op.
Proof.
  unfold documented. rewrite existsb_exists. intros (x & Hin & E).
  apply Z.eqb_eq in E. subst x.
  assert (F : forallb (fun x => (0 <=? x) && (x <=? 0xFF)) documented_opcodes = true)
    by reflexivity.
  rewrite forallb_forall in F. specialize (F op Hin).
  apply andb_true_iff in F. unfold byte. lia.
Qed.

(** A documented opcode costs 2 to 7 cycles; any other costs none. *)
Lemma adds_execute_opcode op :
  adds (if documented op then 2 else 0) (if documented op then 7 else 0)
       (execute_opcode op).
Proof.
  revert op.
  each_opcode (fun (op : Z) (c : M unit) =>
                 adds (if documented op then 2 else 0)
                      (if documented op then 7 else 0) c)
              ltac:(adds_bounds).
  destruct (documented op) eqn:D; [apply documented_byte in D; contradiction |].
  apply adds_ret.
Qed.

Lemma irq_check_cycles m :
  cycles (cpu (exec irq_check m)) = if irq_serviced m then 7 else 0.
Proof.
  unfold irq_check, irq_serviced, exec, bind, put, get. cbn [fst snd cpu with_cpu].
  change (IRQ_PIN_LEVEL (with_cycles 0 (cpu m))) with (IRQ_PIN_LEVEL (cpu m)).
  change (I_Flag (with_cycles 0 (cpu m))) with (I_Flag (cpu m)).
  destruct (negb (truth (IRQ_PIN_LEVEL (cpu m)) || truth (I_Flag (cpu m)))).
  - pose proof (adds_do_irq IRQ_VECTOR (with_cpu (with_cycles 0 (cpu m)) m)) as H.
    unfold exec in H. cbn [cpu with_cpu] in H.
    change (cycles (with_cycles 0 (cpu m))) with 0 in H. lia.
  - reflexivity.
Qed.

Lemma step_cycles m :
  let op := fetched_opcode (exec irq_check m) in
  let base := if irq_serviced m then 7 else 0 in
  base + (if documented op then 2 else 0) <= eval cpu_execute m
    <= base + (if documented op then 7 else 0).
Proof.
  intros op base.
  set (m1 := with_cpu (with_PC (u16 (PC (cpu (exec irq_check m)) + 1))
                               (cpu (exec irq_check m)))
                      (exec (read_byte (PC (cpu (exec irq_check m))))
                            (exec irq_check m))).
  assert (E : eval cpu_execute m = cycles (cpu (exec (execute_opcode op) m1))).
  { unfold eval. rewrite cpu_execute_decompose.
    unfold bind at 1. rewrite fetch_execute_eq. fold op m1.
    unfold exec. destruct (execute_opcode op m1) as [[] m2]. reflexivity. }
  rewrite E. pose proof (adds_execute_opcode op m1) as H.
  assert (C : cycles (cpu m1) = base).
  { unfold m1. cbn [cpu with_cpu].
    change (cycles (with_PC ?v ?c)) with (cycles c).
    apply irq_check_cycles. }
  rewrite C in H. exact H.
Qed.

(** X23 - The cycles a step returns.  A step that executes a documented
    opcode returns 2 to 7 cycles, 7 more when it first services an IRQ; a
    step that executes any other opcode returns none but the 7 of the IRQ
    entry.  So a step returns 0 exactly when it services no IRQ and
    executes an opcode outside the documented set, and never more
    than 14. *)
Theorem step_cycle_bounds (m : machine) :
  let op := fetched_opcode (exec irq_check m) in
  let base := if irq_serviced m then 7 else 0 in
  let n := eval cpu_execute m in
  (if documented op then base + 2 <= n <= base + 7 else n = base)
  /\ 0 <= n <= 14
  /\ (n = 0 <-> irq_serviced m = false /\ documented op = false).
Proof.
  intros op base n. pose proof (step_cycles m) as H. cbv zeta in H.
  fold op base n in H. subst base.
  destruct (documented op), (irq_serviced m); split_all; try lia;
    split; try (intros [? ?]); try discriminate; try lia; split; congruence || lia.
Qed.

(** * The driver loop *)

Lemma time_slice_done fuel c m : 20000 <= c -> time_slice fuel c m = (Some c, m).
Proof.
  intros H. destruct fuel; cbn [time_slice];
    replace (c <? 20000) with false by (symmetry; apply Z.ltb_ge; lia);
    reflexivity.
Qed.

Lemma run_S k m :
  run (S k) m =
  (eval cpu_execute m + fst (run k (exec cpu_execute m)),
   snd (run k (exec cpu_execute m))).
Proof.
  cbn [run]. unfold eval, exec. destruct (cpu_execute m) as [c m1].
  cbn [fst snd]. destruct (run k m1); reflexivity.
Qed.

(** X24 - A time slice ends, and soon after 20000 cycles.  Started with
    fewer than 20000 cycles counted and with enough fuel for steps of 2
    cycles, the loop [while (cycles < 20000) cycles += cpu_execute();]
    ends provided no step returns 0; it has then run the machine some [n]
    steps, counted their cycles, and stopped between 20000 and 20013. *)
Theorem time_slice_completes (fuel : nat) (c0 : Z) (m : machine) :
  c0 < 20000 ->
  20000 <= c0 + 2 * Z.of_nat fuel ->
  (forall k, (k < fuel)%nat -> eval cpu_execute (snd (run k m)) <> 0) ->
  exists n c,
    (n <= fuel)%nat
    /\ time_slice fuel c0 m = (Some c, snd (run n m))
    /\ c = c0 + fst (run n m)
    /\ 20000 <= c <= 20013.
Proof.
  revert c0 m. induction fuel as [| k IH]; intros c0 m Hc Hf Hs; [lia |].
  assert (N : 2 <= eval cpu_execute m <= 14).
  { pose proof (Hs 0%nat ltac:(lia)) as H0. cbn [run snd] in H0.
    pose proof (step_cycles m) as B. cbv zeta in B.
    destruct (documented _), (irq_serviced m); lia. }
  assert (U : time_slice (S k) c0 m =
              time_slice k (c0 + eval cpu_execute m) (exec cpu_execute m)).
  { cbn [time_slice].
    replace (c0 <? 20000) with true by (symmetry; apply Z.ltb_lt; lia).
    unfold bind, eval, exec. destruct (cpu_execute m); reflexivity. }
  destruct (Z_lt_dec (c0 + eval cpu_execute m) 20000) as [Hlt | Hge].
  - destruct (IH (c0 + eval cpu_execute m) (exec cpu_execute m) Hlt ltac:(lia))
      as (n & c & Hn & E & Ec & Hb).
    { intros j Hj. specialize (Hs (S j) ltac:(lia)).
      rewrite run_S in Hs. exact Hs. }
    exists (S n), c. rewrite U, E, run_S. cbn [fst snd].
    split_all; [lia | reflexivity | lia | lia | lia].
  - exists 1%nat, (c0 + eval cpu_execute m).
    rewrite U, time_slice_done, run_S by lia. cbn [run fst snd].
    split_all; [lia | reflexivity | lia | lia | lia].
Qed.

Lemma time_slice_completes_witness :
  exists n c,
    (n <= 5)%nat
    /\ time_slice 5 19990 m_loop = (Some c, snd (run n m_loop))
    /\ c = 19990 + fst (run n m_loop)
    /\ 20000 <= c <= 20013.
Proof.
  apply (time_slice_completes 5 19990 m_loop); [lia | lia |].
  intros k Hk.
  do 5 (destruct k as [| k]; [vm_compute; discriminate |]). lia.
Defined.

(** ** An illegal opcode where the reset vector points *)

Lemma read_byte_outside_acia address m :
  word16 address ->
  ~ 0xF000 <= address <= 0xF7FF ->
  read_byte address m =
  (if in_range 0x0000 0x7FFF address then RAM m (Z.land address RAMMASK)
   else if in_range 0x8000 0xEFFF address then ROM m (Z.land address ROMMASK)
   else if in_range 0xF800 0xFFFF address then ROM m (Z.land address ROMMASK)
   else 0xFF, m).
Proof.
  intros W H. unfold read_byte, motherboard_readbyte. cbv zeta.
  rewrite (u16_id address W).
  destruct (in_range 0x0000 0x7FFF address); [reflexivity |].
  destruct (in_range 0x8000 0xEFFF address); [reflexivity |].
  replace (in_range 0xF000 0xF7FF address) with false
    by (symmetry; unfold in_range; apply andb_false_iff;
        rewrite Z.leb_gt, Z.leb_gt; lia).
  destruct (in_range 0xF800 0xFFFF address); reflexivity.
Qed.

(** The state in which the machine is stuck: [PC] where the reset vector
    points, outside the ACIA window, an illegal opcode there, and no IRQ
    to service. *)
Lemma stuck_step m :
  PC (cpu m) = word (ROM m 0x7FFD) (ROM m 0x7FFC) ->
  irq_serviced m = false ->
  ~ 0xF000 <= PC (cpu m) <= 0xF7FF ->
  illegal (fetched_opcode m) ->
  exists m',
    cpu_execute m = (0, m')
    /\ PC (cpu m') = word (ROM m' 0x7FFD) (ROM m' 0x7FFC)
    /\ irq_serviced m' = false
    /\ ~ 0xF000 <= PC (cpu m') <= 0xF7FF
    /\ illegal (fetched_opcode m')
    /\ List.length (stderr (term m')) = S (List.length (stderr (term m))).
Proof.
  intros Hpc Hirq Hw Hill.
  set (m0 := with_cpu (with_cycles 0 (cpu m)) m).
  assert (P0 : PC (cpu m0) = PC (cpu m)) by reflexivity.
  assert (F0 : fetched_opcode m0 = fetched_opcode m)
    by (apply fetched_opcode_with_cpu; reflexivity).
  assert (Wpc : word16 (PC (cpu m))) by (rewrite Hpc; apply u16_word16).
  assert (R0 : exec (read_byte (PC (cpu m0))) m0 = m0)
    by (unfold exec; rewrite P0, (read_byte_outside_acia _ _ Wpc Hw);
        reflexivity).
  eexists. split.
  - rewrite cpu_execute_decompose, (irq_check_idle m Hirq). fold m0.
    unfold bind at 1. rewrite fetch_execute_eq, R0, F0.
    rewrite (illegal_dispatch _ Hill), illegal_opcode_spec.
    unfold get. cbn [cpu with_cpu cycles with_PC with_cycles m0]. reflexivity.
  - cbn [cpu ROM RAM term stderr PC with_cpu with_PC with_cycles m0
         IRQ_PIN_LEVEL I_Flag].
    split_all.
    + reflexivity.
    + unfold irq_serviced. cbn [cpu IRQ_PIN_LEVEL I_Flag].
      change (truth 4) with true. rewrite orb_true_r. reflexivity.
    + rewrite <- Hpc. exact Hw.
    + unfold fetched_opcode in *. unfold eval in *.
      cbn [cpu PC]. rewrite <- Hpc.
      rewrite (read_byte_outside_acia _ m Wpc Hw) in Hill.
      rewrite (read_byte_outside_acia _ _ Wpc Hw).
      cbn [fst ROM RAM] in *. exact Hill.
    + rewrite length_app. cbn [List.length]. lia.
Qed.

(** X25 - An illegal opcode where the reset vector points stops the
    emulator for good.  With [PC] at the reset target, outside the ACIA
    window, an illegal opcode there and no IRQ to service, every step
    resets the CPU, prints one more message and returns 0 cycles: the
    cycle count of any number of steps is 0, and the loop
    [while (cycles < 20000) cycles += cpu_execute();] never ends, whatever
    the fuel. *)
Theorem illegal_opcode_at_reset_target_hangs (m : machine) :
  PC (cpu m) = word (ROM m 0x7FFD) (ROM m 0x7FFC) ->
  irq_serviced m = false ->
  ~ 0xF000 <= PC (cpu m) <= 0xF7FF ->
  illegal (fetched_opcode m) ->
  forall n,
    fst (run n m) = 0
    /\ List.length (stderr (term (snd (run n m)))) =
         (List.length (stderr (term m)) + n)%nat
    /\ forall c0, c0 < 20000 -> eval (time_slice n c0) m = None.
Proof.
  intros Hpc Hirq Hw Hill n. revert m Hpc Hirq Hw Hill.
  induction n as [| n IH]; intros m Hpc Hirq Hw Hill.
  - split_all; [reflexivity | cbn [run snd]; lia |].
    intros c0 Hc. cbn [time_slice].
    replace (c0 <? 20000) with true by (symmetry; apply Z.ltb_lt; lia).
    reflexivity.
  - destruct (stuck_step m Hpc Hirq Hw Hill) as (m' & E & Hpc' & Hirq' & Hw' & Hill' & L).
    destruct (IH m' Hpc' Hirq' Hw' Hill') as (R & S' & T).
    rewrite run_S. unfold eval at 1, exec. rewrite E. cbn [fst snd].
    split_all.
    + lia.
    + rewrite S', L. lia.
    + intros c0 Hc. unfold eval. cbn [time_slice].
      replace (c0 <? 20000) with true by (symmetry; apply Z.ltb_lt; lia).
      unfold bind. rewrite E. replace (c0 + 0) with c0 by lia.
      apply (T c0 Hc).
Qed.

Lemma illegal_opcode_at_reset_target_hangs_witness :
  fst (run 100 m_c3) = 0 /\ eval (time_slice 100 0) m_c3 = None.
Proof.
  assert (Hw : ~ 0xF000 <= PC (cpu m_c3) <= 0xF7FF)
    by (change (PC (cpu m_c3)) with 0xFFFF; lia).
  assert (F : fetched_opcode m_c3 = 0x02) by (vm_compute; reflexivity).
  assert (Hill : illegal (fetched_opcode m_c3))
    by (rewrite F; split; [unfold byte; lia | reflexivity]).
  destruct (illegal_opcode_at_reset_target_hangs m_c3 eq_refl eq_refl Hw Hill 100%nat)
    as (R & _ & T).
  split; [exact R | apply T; lia].
Defined.

(** * Time arithmetic *)

Lemma long_fits z : LONG_MIN <= z <= LONG_MAX -> long z = Some z.
Proof.
  intros H. unfold long.
  replace (LONG_MIN <=? z) with true by (symmetry; apply Z.leb_le; lia).
  replace (z <=? LONG_MAX) with true by (symmetry; apply Z.leb_le; lia).
  reflexivity.
Qed.

Ltac long_arith :=
  unfold LONG_MIN, LONG_MAX, normal in *;
  change (2 ^ 63) with 9223372036854775808 in *;
  change (2 ^ 32) with 4294967296 in *.

(** X26 - The difference of two normal timespecs.  [timerspecsub] returns
    a timespec with [0 <= tv_nsec < 1000000000] that stands for the time
    of [stop] minus the time of [start], also when [stop] is the earlier
    one; no operation overflows, and [timespec_to_ns] of the result is
    that difference in nanoseconds. *)
Theorem timerspecsub_elapsed (stop start : timespec) :
  normal stop -> normal start ->
  exists r,
    timerspecsub stop start = Some r
    /\ 0 <= tv_nsec r < 1000000000
    /\ nanoseconds r = nanoseconds stop - nanoseconds start
    /\ timespec_to_ns r = Some (nanoseconds stop - nanoseconds start).
Proof.
  intros Hs Ht. long_arith. unfold timerspecsub, timespec_to_ns, nanoseconds.
  destruct stop as [s1 n1], start as [s0 n0]. cbn [tv_sec tv_nsec] in *.
  rewrite (long_fits (n1 - n0)) by (long_arith; lia). cbn [and_then].
  destruct (Z.ltb_spec (n1 - n0) 0) as [Hneg | Hpos].
  - rewrite (long_fits (s1 - s0)) by (long_arith; lia). cbn [and_then].
    rewrite (long_fits (s1 - s0 - 1)) by (long_arith; lia). cbn [and_then].
    rewrite (long_fits (n1 - n0 + 1000000000)) by (long_arith; lia).
    cbn [and_then]. eexists. split; [reflexivity |]. cbn [tv_sec tv_nsec].
    rewrite (long_fits ((s1 - s0 - 1) * 1000000000)) by (long_arith; lia).
    cbn [and_then]. rewrite long_fits by (long_arith; lia).
    split_all; try lia. f_equal. lia.
  - rewrite (long_fits (s1 - s0)) by (long_arith; lia). cbn [and_then].
    eexists. split; [reflexivity |]. cbn [tv_sec tv_nsec].
    rewrite (long_fits ((s1 - s0) * 1000000000)) by (long_arith; lia).
    cbn [and_then]. rewrite long_fits by (long_arith; lia).
    split_all; try lia. f_equal. lia.
Qed.

Lemma timerspecsub_elapsed_witness :
  exists r,
    timerspecsub (mkTimespec 5 100) (mkTimespec 3 999999900) = Some r
    /\ 0 <= tv_nsec r < 1000000000
    /\ nanoseconds r = 1000000200
    /\ timespec_to_ns r = Some 1000000200.
Proof.
  assert (H1 : normal (mkTimespec 5 100)) by (unfold normal; cbn; lia).
  assert (H0 : normal (mkTimespec 3 999999900)) by (unfold normal; cbn; lia).
  exact (timerspecsub_elapsed (mkTimespec 5 100) (mkTimespec 3 999999900) H1 H0).
Defined.

(** X27 - The three conversions agree.  For a timespec with
    [0 <= tv_nsec < 1000000000] and seconds of moderate size, negative
    ones too, [timespec_to_us] and [timespec_to_ms] are the nanoseconds of
    [timespec_to_ns] divided by 1000 and by 1000000, rounded down. *)
Theorem timespec_conversions (t : timespec) :
  normal t ->
  timespec_to_ns t = Some (nanoseconds t)
  /\ timespec_to_us t = Some (nanoseconds t / 1000)
  /\ timespec_to_ms t = Some (nanoseconds t / 1000000).
Proof.
  intros H. long_arith. unfold timespec_to_ns, timespec_to_us, timespec_to_ms, nanoseconds.
  destruct t as [s n]. cbn [tv_sec tv_nsec] in *.
  assert (Q3 : Z.quot n 1000 = n / 1000) by (apply Z.quot_div_nonneg; lia).
  assert (Q6 : Z.quot n 1000000 = n / 1000000) by (apply Z.quot_div_nonneg; lia).
  assert (D3 : (s * 1000000000 + n) / 1000 = s * 1000000 + n / 1000).
  { replace (s * 1000000000) with (s * 1000000 * 1000) by lia.
    apply Z.div_add_l. lia. }
  assert (D6 : (s * 1000000000 + n) / 1000000 = s * 1000 + n / 1000000).
  { replace (s * 1000000000) with (s * 1000 * 1000000) by lia.
    apply Z.div_add_l. lia. }
  assert (B3 : 0 <= n / 1000 < 1000000)
    by (split; [apply Z.div_pos; lia | apply Z.div_lt_upper_bound; lia]).
  assert (B6 : 0 <= n / 1000000 < 1000)
    by (split; [apply Z.div_pos; lia | apply Z.div_lt_upper_bound; lia]).
  rewrite Q3, Q6, D3, D6.
  rewrite (long_fits (s * 1000000000)), (long_fits (s * 1000000)),
    (long_fits (s * 1000)) by (long_arith; lia).
  cbn [and_then].
  rewrite !long_fits by (long_arith; lia).
  split_all; reflexivity.
Qed.

Lemma timespec_conversions_witness :
  timespec_to_us (mkTimespec (-1) 999999000) = Some (-1)
  /\ timespec_to_ms (mkTimespec (-1) 999999000) = Some (-1)
  /\ timespec_to_ms (mkTimespec 2 20000000) = Some 2020.
Proof.
  assert (H1 : normal (mkTimespec (-1) 999999000)) by (unfold normal; cbn; lia).
  assert (H2 : normal (mkTimespec 2 20000000)) by (unfold normal; cbn; lia).
  destruct (timespec_conversions _ H1) as (_ & U & S1).
  destruct (timespec_conversions _ H2) as (_ & _ & S2).
  split_all; [exact U | exact S1 | exact S2].
Defined.

(** * The state stays within its types *)

(** ** Bytes *)

Lemma byte_word16 v : byte v -> word16 v.
Proof. unfold byte, word16. lia. Qed.

Lemma byte_of_bool b : byte (of_bool b).
Proof. destruct b; unfold byte; cbn; lia. Qed.

Lemma byte_land_r x k : byte k -> byte (Z.land x k).
Proof.
  intros [H0 H1].
  assert (E : Z.land x k = Z.land (x mod 2 ^ 8) k).
  { rewrite <- Z.land_ones by lia.
    rewrite <- Z.land_assoc. f_equal.
    rewrite Z.land_comm, Z.land_ones by lia.
    symmetry. apply Z.mod_small. change (2 ^ 8) with 256. lia. }
  rewrite E. pose proof (Z.mod_pos_bound x (2 ^ 8) ltac:(lia)) as B.
  change (2 ^ 8) with 256 in *. set (a := x mod 256) in *.
  assert (Ha : byte a) by (unfold byte; lia).
  assert (Hk : byte k) by (unfold byte; lia).
  assert (H : (0 <=? Z.land a k) && (Z.land a k <=? 0xFF) = true).
  { clearbody a. pattern a, k.
    apply (forall_byte2 (fun a k => (0 <=? Z.land a k) && (Z.land a k <=? 0xFF)));
      [vm_cast_no_check (eq_refl true) | exact Ha | exact Hk]. }
  apply andb_true_iff in H. unfold byte. lia.
Qed.

Lemma byte_land_l x k : byte x -> byte (Z.land x k).
Proof. intros H. rewrite Z.land_comm. apply byte_land_r, H. Qed.

Lemma byte_lor a b : byte a -> byte b -> byte (Z.lor a b).
Proof.
  intros Ha Hb.
  assert (H : (0 <=? Z.lor a b) && (Z.lor a b <=? 0xFF) = true).
  { pattern a, b.
    apply (forall_byte2 (fun a b => (0 <=? Z.lor a b) && (Z.lor a b <=? 0xFF)));
      [vm_cast_no_check (eq_refl true) | exact Ha | exact Hb]. }
  apply andb_true_iff in H. unfold byte. lia.
Qed.

Lemma byte_lxor a b : byte a -> byte b -> byte (Z.lxor a b).
Proof.
  intros Ha Hb.
  assert (H : (0 <=? Z.lxor a b) && (Z.lxor a b <=? 0xFF) = true).
  { pattern a, b.
    apply (forall_byte2 (fun a b => (0 <=? Z.lxor a b) && (Z.lxor a b <=? 0xFF)));
      [vm_cast_no_check (eq_refl true) | exact Ha | exact Hb]. }
  apply andb_true_iff in H. unfold byte. lia.
Qed.

Lemma byte_shiftr a n : 0 <= n -> byte a -> byte (Z.shiftr a n).
Proof.
  intros Hn [H0 H1]. rewrite Z.shiftr_div_pow2 by exact Hn.
  assert (0 < 2 ^ n) by (apply Z.pow_pos_nonneg; lia).
  split.
  - apply Z.div_pos; lia.
  - apply Z.div_lt_upper_bound; nia.
Qed.

Lemma word16_word h l : word16 (word h l).
Proof. apply u16_word16. Qed.

(** A value within its type, from what is known of its parts. *)
Ltac in_type :=
  lazymatch goal with
  | |- True => exact I
  | H : ?P |- ?P => exact H
  | |- byte (u8 _) => apply u8_byte
  | |- byte (of_bool _) => apply byte_of_bool
  | |- word16 (u16 _) => apply u16_word16
  | |- word16 (word _ _) => apply word16_word
  | |- byte (if ?b then _ else _) => destruct b; in_type
  | |- byte (Z.lor _ _) => apply byte_lor; in_type
  | |- byte (Z.lxor _ _) => apply byte_lxor; in_type
  | |- byte (Z.shiftr _ _) => apply byte_shiftr; [lia | in_type]
  | |- byte (Z.land _ ?k) =>
      first [ apply byte_land_r; in_type | apply byte_land_l; in_type ]
  | |- byte B_Flag_Mask => unfold byte, B_Flag_Mask; lia
  | |- word16 _ => first [ apply byte_word16; in_type | unfold word16; lia ]
  | |- byte _ => unfold byte; lia
  end.

(** ** The rules of [typed] *)

Lemma typed_ret {T} (Q : T -> Prop) (v : T) : Q v -> typed 0 Q (ret v).
Proof.
  intros H m Hm. unfold exec, eval, ret. cbn [fst snd].
  split_all; [exact Hm | exact H |].
  exists []. rewrite app_nil_r. split; [reflexivity | cbn; lia].
Qed.

Lemma typed_bind {T U} n1 n2 (Q1 : T -> Prop) (Q : U -> Prop)
      (c : M T) (k : T -> M U) :
  typed n1 Q1 c -> (forall v, Q1 v -> typed n2 Q (k v)) ->
  typed (n1 + n2) Q (bind c k).
Proof.
  intros Hc Hk m Hm. unfold exec, eval, bind.
  destruct (Hc m Hm) as (W1 & V1 & l1 & E1 & L1). unfold exec, eval in *.
  destruct (c m) as [v m1]. cbn [fst snd] in *.
  destruct (Hk v V1 m1 W1) as (W2 & V2 & l2 & E2 & L2).
  unfold exec, eval in *.
  split_all; [exact W2 | exact V2 |].
  exists (l1 ++ l2). rewrite E2, E1, app_assoc, length_app.
  split; [reflexivity | lia].
Qed.

Lemma typed_if {T} n1 n2 (Q : T -> Prop) (b : bool) (c1 c2 : M T) :
  typed n1 Q c1 -> typed n2 Q c2 ->
  typed (Nat.max n1 n2) Q (if b then c1 else c2).
Proof.
  intros H1 H2 m Hm.
  destruct b; [destruct (H1 m Hm) as (W & V & l & E & L)
              | destruct (H2 m Hm) as (W & V & l & E & L)];
    (split_all; [exact W | exact V | exists l; split; [exact E | lia]]).
Qed.

Lemma typed_weaken {T} n n' (Q Q' : T -> Prop) (c : M T) :
  typed n Q c -> (forall v, Q v -> Q' v) -> (n <= n')%nat -> typed n' Q' c.
Proof.
  intros H HQ Hn m Hm. destruct (H m Hm) as (W & V & l & E & L).
  split_all; [exact W | apply HQ, V | exists l; split; [exact E | lia]].
Qed.

Lemma typed_cpu_only {T} (Q : T -> Prop) (f : cpu6502 -> T) (g : cpu6502 -> cpu6502) :
  (forall c, cpu_typed c -> cpu_typed (g c) /\ Q (f c)) ->
  typed 0 Q (fun m => (f (cpu m), with_cpu (g (cpu m)) m)).
Proof.
  intros H m (Hc & Hrom & Hram & Ha & Ho). destruct (H _ Hc) as [Hg Hq].
  unfold exec, eval, machine_typed. cbn [fst snd cpu ROM RAM acia term with_cpu].
  split_all; try assumption.
  exists []. rewrite app_nil_r. split; [reflexivity | cbn; lia].
Qed.

Lemma typed_get (Q : Z -> Prop) f :
  (forall c, cpu_typed c -> Q (f c)) -> typed 0 Q (get f).
Proof.
  intros H m Hm. unfold exec, eval, get. cbn [fst snd].
  split_all; [exact Hm | apply H, Hm |].
  exists []. rewrite app_nil_r. split; [reflexivity | cbn; lia].
Qed.

Lemma typed_put w v :
  (forall c, cpu_typed c -> cpu_typed (w v c)) ->
  typed 0 (fun _ : unit => True) (put w v).
Proof.
  intros H. apply (typed_cpu_only (fun _ => True) (fun _ => tt) (w v)).
  intros c Hc. split; [apply H, Hc | exact I].
Qed.

Ltac cpu_field :=
  let c := fresh "c" in
  intros c; unfold cpu_typed; destruct c;
  cbv beta delta
      [with_cycles with_IRQ_PIN_LEVEL with_A with_X with_Y with_SP with_PC
       with_N_Flag with_V_Flag with_D_Flag with_I_Flag with_Z_Flag with_C_Flag];
  cbn [cycles IRQ_PIN_LEVEL A X Y SP PC N_Flag V_Flag D_Flag I_Flag Z_Flag C_Flag];
  intros (? & ? & ? & ? & ? & ? & ? & ? & ? & ? & ? & ?).

Lemma typed_get_byte f :
  (forall c, cpu_typed c -> byte (f c)) -> typed 0 byte (get f).
Proof. apply typed_get. Qed.

Lemma typed_add_cycles n : typed 0 (fun _ : unit => True) (add_cycles n).
Proof.
  unfold add_cycles.
  apply (typed_cpu_only (fun _ => True) (fun _ => tt)
           (fun c => with_cycles (cycles c + n) c)).
  cpu_field. split_all; try assumption. exact I.
Qed.

Lemma typed_fprintf_stderr msg : typed 0 (fun _ : unit => True) (fprintf_stderr msg).
Proof.
  intros m (Hc & Hrom & Hram & Ha & Ho).
  unfold exec, eval, fprintf_stderr, machine_typed.
  cbn [fst snd cpu ROM RAM acia term with_term stdout].
  split_all; try assumption; try exact I.
  exists []. rewrite app_nil_r. split; [reflexivity | cbn; lia].
Qed.

(** ** The bus *)

Lemma typed_pure {T} (Q : T -> Prop) (c : M T) :
  (forall m, machine_typed m -> exec c m = m /\ Q (eval c m)) -> typed 0 Q c.
Proof.
  intros H m Hm. destruct (H m Hm) as [E V]. rewrite E.
  split_all; [exact Hm | exact V |].
  exists []. rewrite app_nil_r. split; [reflexivity | cbn; lia].
Qed.

Lemma typed_mc6850_readbyte address : typed 0 byte (mc6850_readbyte address).
Proof.
  intros m Hm. pose proof Hm as (Hc & Hrom & Hram & (Ht & Hr & Hcr & Hs) & Ho).
  assert (N : forall l : list Z, exists l', l = l ++ l' /\ (List.length l' <= 0)%nat)
    by (intros l; exists []; rewrite app_nil_r; split; [reflexivity | cbn; lia]).
  unfold mc6850_readbyte.
  destruct (negb (truth (Z.land address 0x0800))).
  - destruct (Z.land address 0x0001) as [| [| |] |].
    + unfold exec, eval, bind, check_keyboard_ready, get_SR, put_SR, ret.
      destruct (truth (flag_datafile (term m)));
        cbn [fst snd];
        match goal with
        | |- context [truth ?r] => destruct (truth r)
        end;
        unfold machine_typed, acia_typed;
        cbn [fst snd cpu ROM RAM acia term with_acia TDR RDR CR SR];
        split_all; try assumption; try apply u8_byte; apply N.
    + unfold exec, eval, bind, ret. cbn [fst snd].
      split_all; try assumption; [unfold byte; lia | apply N].
    + unfold exec, eval, bind, ret. cbn [fst snd].
      split_all; try assumption; [unfold byte; lia | apply N].
    + unfold exec, eval, bind, read_keyboard, put_RDR, get_RDR, get_SR, put_SR, ret.
      destruct (truth (flag_datafile (term m)));
        [destruct (truth (datasize (term m)));
           [destruct (fgetc (datafile (term m))) |]
        | destruct (truth (stdin_has_data (term m)))];
        unfold machine_typed, acia_typed;
        cbn [fst snd cpu ROM RAM acia term with_acia with_term TDR RDR CR SR stdout];
        split_all; try assumption; try apply u8_byte; apply N.
    + unfold exec, eval, bind, ret. cbn [fst snd].
      split_all; try assumption; [unfold byte; lia | apply N].
  - unfold exec, eval, ret. cbn [fst snd].
    split_all; try assumption; [unfold byte; lia | apply N].
Qed.

Lemma typed_read_byte address : typed 0 byte (read_byte address).
Proof.
  unfold read_byte, motherboard_readbyte. cbv zeta.
  repeat match goal with
         | |- typed _ _ (if ?b then _ else _) => destruct b
         end;
    try apply typed_mc6850_readbyte;
    try (apply typed_pure; intros m (Hc & Hrom & Hram & Ha & Ho);
         split; [reflexivity |]);
    [apply Hram | apply Hrom | apply Hrom | unfold eval, ret; cbn; unfold byte; lia].
Qed.

Lemma typed_write_byte address data :
  byte data -> typed 1 (fun _ : unit => True) (write_byte address data).
Proof.
  intros Hd m Hm. pose proof Hm as (Hc & Hrom & Hram & (Ht & Hr & Hcr & Hs) & Ho).
  assert (N : forall l : list Z, exists l', l = l ++ l' /\ (List.length l' <= 1)%nat)
    by (intros l; exists []; rewrite app_nil_r; split; [reflexivity | cbn; lia]).
  unfold write_byte, motherboard_writebyte, mc6850_writebyte, rom_writebyte.
  cbv zeta.
  repeat match goal with
         | |- context [if ?b then _ else _] => destruct b
         | |- context [match ?z with 0 => _ | Z.pos _ => _ | Z.neg _ => _ end] =>
             destruct z as [| [| |] |]
         end;
    unfold exec, eval, bind, ret, ram_writebyte, put_CR, write_terminal, get_SR, put_SR,
      machine_typed, acia_typed;
    cbn [fst snd cpu ROM RAM acia term with_acia with_term with_RAM TDR RDR CR SR stdout];
    split_all; try assumption; try exact I; try apply u8_byte; try apply N.
  - intros a. unfold store. destruct (a =? _); [apply u8_byte | apply Hram].
  - apply Forall_app. split; [exact Ho | constructor; [apply u8_byte | constructor]].
  - exists [u8 (u8 data)]. split; [reflexivity | cbn; lia].
Qed.

Lemma typed_write_ram address data :
  0 <= address <= 0x7FFF ->
  typed 0 (fun _ : unit => True) (write_byte address data).
Proof.
  intros H m (Hc & Hrom & Hram & Ha & Ho).
  unfold exec, eval. rewrite write_ram by exact H.
  unfold machine_typed. cbn [fst snd cpu ROM RAM acia term with_RAM].
  split_all; try assumption; try exact I.
  - intros a. unfold store. destruct (a =? _); [apply u8_byte | apply Hram].
  - exists []. rewrite app_nil_r. split; [reflexivity | cbn; lia].
Qed.

(** ** The CPU *)

Lemma typed_weaken_n {T} n n' (Q : T -> Prop) (c : M T) :
  typed n Q c -> (n <= n')%nat -> typed n' Q c.
Proof. intros H Hn. apply (typed_weaken n n' Q Q c H); [auto | exact Hn]. Qed.

Create HintDb typed discriminated.
#[local] Hint Constants Opaque : typed.

#[local] Hint Resolve typed_read_byte typed_add_cycles typed_fprintf_stderr : typed.
#[local] Hint Extern 1 (byte _) => solve [in_type] : typed.
#[local] Hint Extern 1 (word16 _) => solve [in_type] : typed.

(** One step along the structure of a computation. *)
Ltac typed_step :=
  lazymatch goal with
  | |- typed _ _ (bind _ _) => eapply typed_bind; [| intros ? ?]
  | |- typed _ _ (ret tt) => apply (typed_ret (fun _ : unit => True)); exact I
  | |- typed _ _ (ret _) => apply typed_ret; cbv beta; in_type
  | |- typed _ _ (if _ then _ else _) => eapply typed_if
  | |- typed _ _ (get PC) => apply (typed_get word16 PC); cpu_field; assumption
  | |- typed _ _ (get cycles) => apply (typed_get (fun _ => True) cycles); intros; exact I
  | |- typed _ _ (get ?f) => apply (typed_get byte f); cpu_field; assumption
  | |- typed _ _ (put _ _) => apply typed_put; cpu_field; split_all; in_type
  | |- typed _ _ (write_byte _ _) => apply typed_write_byte; in_type
  | |- typed _ _ ?c =>
      first [ solve [eauto 2 with typed nocore]
            | let h := head_of c in unfold h; cbv beta zeta ]
  end.

(** The whole of a computation, with the bytes it sends counted. *)
Ltac typed_all :=
  eapply typed_weaken_n; [repeat typed_step | cbn; lia].

Lemma typed_push data : typed 0 (fun _ : unit => True) (push data).
Proof.
  unfold push.
  eapply typed_weaken_n; [| apply Nat.le_refl].
  eapply (typed_bind 0 0); [typed_step | intros sp Hsp].
  eapply (typed_bind 0 0); [| intros ? ?; typed_step].
  apply typed_write_ram. rewrite stack_address by exact Hsp.
  unfold byte in Hsp. lia.
Qed.
#[local] Hint Resolve typed_push : typed.

Lemma typed_pop : typed 0 byte pop.
Proof. unfold pop. typed_all. Qed.
#[local] Hint Resolve typed_pop : typed.

Lemma typed_push16 data : typed 0 (fun _ : unit => True) (push16 data).
Proof. unfold push16. typed_all. Qed.
#[local] Hint Resolve typed_push16 : typed.

Lemma typed_pop16 : typed 0 word16 pop16.
Proof. unfold pop16. typed_all. Qed.

Lemma typed_read_word address : typed 0 word16 (read_word address).
Proof. unfold read_word. typed_all. Qed.

Lemma typed_fetch : typed 0 byte fetch.
Proof. unfold fetch. typed_all. Qed.
#[local] Hint Resolve typed_pop16 typed_read_word typed_fetch : typed.

Lemma typed_fetch16 : typed 0 word16 fetch16.
Proof. unfold fetch16. typed_all. Qed.

Lemma typed_get_P : typed 0 byte get_P.
Proof. unfold get_P. cbv zeta. typed_all. Qed.

Lemma typed_set_P data : typed 0 (fun _ : unit => True) (set_P data).
Proof. unfold set_P. typed_all. Qed.

Lemma typed_update_NZ data : typed 0 (fun _ : unit => True) (update_NZ data).
Proof. unfold update_NZ. typed_all. Qed.

Lemma typed_compare a b : typed 0 (fun _ : unit => True) (compare a b).
Proof. unfold compare. typed_all. Qed.
#[local] Hint Resolve typed_fetch16 typed_get_P typed_set_P typed_update_NZ
  typed_compare : typed.

Lemma typed_do_irq vector : typed 0 (fun _ : unit => True) (do_irq vector).
Proof. unfold do_irq. typed_all. Qed.

Lemma typed_cpu_reset : typed 0 (fun _ : unit => True) cpu_reset.
Proof. unfold cpu_reset. typed_all. Qed.
#[local] Hint Resolve typed_do_irq typed_cpu_reset : typed.

Lemma typed_illegal_opcode opcode :
  typed 0 (fun _ : unit => True) (illegal_opcode opcode).
Proof. unfold illegal_opcode. typed_all. Qed.
#[local] Hint Resolve typed_illegal_opcode : typed.

(** *** Addressing modes: the effective address is a 16-bit word *)

Lemma typed_absolute : typed 0 word16 absolute.
Proof. apply typed_fetch16. Qed.

Lemma typed_zeropage : typed 0 word16 zeropage.
Proof.
  apply (typed_weaken 0 0 byte word16); [apply typed_fetch | apply byte_word16 | lia].
Qed.

Lemma typed_absoluteX : typed 0 word16 absoluteX.
Proof. unfold absoluteX. typed_all. Qed.

Lemma typed_absoluteX_1 : typed 0 word16 absoluteX_1.
Proof. unfold absoluteX_1. typed_all. Qed.

Lemma typed_absoluteY : typed 0 word16 absoluteY.
Proof. unfold absoluteY. typed_all. Qed.

Lemma typed_absoluteY_1 : typed 0 word16 absoluteY_1.
Proof. unfold absoluteY_1. typed_all. Qed.

Lemma typed_inmediate : typed 0 word16 inmediate.
Proof. unfold inmediate. typed_all. Qed.

Lemma typed_indirect : typed 0 word16 indirect.
Proof. unfold indirect. typed_all. Qed.

Lemma typed_indirectX : typed 0 word16 indirectX.
Proof. unfold indirectX. typed_all. Qed.

Lemma typed_indirectY : typed 0 word16 indirectY.
Proof. unfold indirectY. typed_all. Qed.

Lemma typed_indirectY_1 : typed 0 word16 indirectY_1.
Proof. unfold indirectY_1. typed_all. Qed.

Lemma typed_zeropageX : typed 0 word16 zeropageX.
Proof. unfold zeropageX. typed_all. Qed.

Lemma typed_zeropageY : typed 0 word16 zeropageY.
Proof. unfold zeropageY. typed_all. Qed.

#[local] Hint Resolve typed_absolute typed_zeropage
  typed_absoluteX typed_absoluteX_1 typed_absoluteY typed_absoluteY_1 typed_inmediate typed_indirect
  typed_indirectX typed_indirectY typed_indirectY_1 typed_zeropageX typed_zeropageY : typed.

(** *** Instructions: at most one byte goes to the terminal *)

Lemma typed_ADC address : typed 1 (fun _ : unit => True) (ADC address).
Proof. unfold ADC. typed_all. Qed.

Lemma typed_AND address : typed 1 (fun _ : unit => True) (AND address).
Proof. unfold AND. typed_all. Qed.

Lemma typed_ASL address : typed 1 (fun _ : unit => True) (ASL address).
Proof. unfold ASL. typed_all. Qed.

Lemma typed_BIT address : typed 1 (fun _ : unit => True) (BIT address).
Proof. unfold BIT. typed_all. Qed.

Lemma typed_CMP address : typed 1 (fun _ : unit => True) (CMP address).
Proof. unfold CMP. typed_all. Qed.

Lemma typed_CPX address : typed 1 (fun _ : unit => True) (CPX address).
Proof. unfold CPX. typed_all. Qed.

Lemma typed_CPY address : typed 1 (fun _ : unit => True) (CPY address).
Proof. unfold CPY. typed_all. Qed.

Lemma typed_DEC address : typed 1 (fun _ : unit => True) (DEC address).
Proof. unfold DEC. typed_all. Qed.

Lemma typed_EOR address : typed 1 (fun _ : unit => True) (EOR address).
Proof. unfold EOR. typed_all. Qed.

Lemma typed_INC address : typed 1 (fun _ : unit => True) (INC address).
Proof. unfold INC. typed_all. Qed.

Lemma typed_LDA address : typed 1 (fun _ : unit => True) (LDA address).
Proof. unfold LDA. typed_all. Qed.

Lemma typed_LDX address : typed 1 (fun _ : unit => True) (LDX address).
Proof. unfold LDX. typed_all. Qed.

Lemma typed_LDY address : typed 1 (fun _ : unit => True) (LDY address).
Proof. unfold LDY. typed_all. Qed.

Lemma typed_LSR address : typed 1 (fun _ : unit => True) (LSR address).
Proof. unfold LSR. typed_all. Qed.

Lemma typed_ORA address : typed 1 (fun _ : unit => True) (ORA address).
Proof. unfold ORA. typed_all. Qed.

Lemma typed_ROL address : typed 1 (fun _ : unit => True) (ROL address).
Proof. unfold ROL. typed_all. Qed.

Lemma typed_ROR address : typed 1 (fun _ : unit => True) (ROR address).
Proof. unfold ROR. typed_all. Qed.

Lemma typed_SBC address : typed 1 (fun _ : unit => True) (SBC address).
Proof. unfold SBC. typed_all. Qed.

Lemma typed_STA address : typed 1 (fun _ : unit => True) (STA address).
Proof. unfold STA. typed_all. Qed.

Lemma typed_STX address : typed 1 (fun _ : unit => True) (STX address).
Proof. unfold STX. typed_all. Qed.

Lemma typed_STY address : typed 1 (fun _ : unit => True) (STY address).
Proof. unfold STY. typed_all. Qed.

Lemma typed_JMP address :
  word16 address -> typed 1 (fun _ : unit => True) (JMP address).
Proof. intros H. unfold JMP. typed_all. Qed.

Lemma typed_JSR address :
  word16 address -> typed 1 (fun _ : unit => True) (JSR address).
Proof. intros H. unfold JSR. typed_all. Qed.

Lemma typed_BXX condition : typed 1 (fun _ : unit => True) (BXX condition).
Proof. unfold BXX. typed_all. Qed.

Lemma typed_ASL_ACC : typed 1 (fun _ : unit => True) ASL_ACC.
Proof. unfold ASL_ACC. typed_all. Qed.

Lemma typed_BRK : typed 1 (fun _ : unit => True) BRK.
Proof. unfold BRK. typed_all. Qed.

Lemma typed_CLC : typed 1 (fun _ : unit => True) CLC.
Proof. unfold CLC. typed_all. Qed.

Lemma typed_CLD : typed 1 (fun _ : unit => True) CLD.
Proof. unfold CLD. typed_all. Qed.

Lemma typed_CLI : typed 1 (fun _ : unit => True) CLI.
Proof. unfold CLI. typed_all. Qed.

Lemma typed_CLV : typed 1 (fun _ : unit => True) CLV.
Proof. unfold CLV. typed_all. Qed.

Lemma typed_DEX : typed 1 (fun _ : unit => True) DEX.
Proof. unfold DEX. typed_all. Qed.

Lemma typed_DEY : typed 1 (fun _ : unit => True) DEY.
Proof. unfold DEY. typed_all. Qed.

Lemma typed_INX : typed 1 (fun _ : unit => True) INX.
Proof. unfold INX. typed_all. Qed.

Lemma typed_INY : typed 1 (fun _ : unit => True) INY.
Proof. unfold INY. typed_all. Qed.

Lemma typed_LSR_ACC : typed 1 (fun _ : unit => True) LSR_ACC.
Proof. unfold LSR_ACC. typed_all. Qed.

Lemma typed_PHA : typed 1 (fun _ : unit => True) PHA.
Proof. unfold PHA. typed_all. Qed.

Lemma typed_PHP : typed 1 (fun _ : unit => True) PHP.
Proof. unfold PHP. typed_all. Qed.

Lemma typed_PLA : typed 1 (fun _ : unit => True) PLA.
Proof. unfold PLA. typed_all. Qed.

Lemma typed_PLP : typed 1 (fun _ : unit => True) PLP.
Proof. unfold PLP. typed_all. Qed.

Lemma typed_ROL_ACC : typed 1 (fun _ : unit => True) ROL_ACC.
Proof. unfold ROL_ACC. typed_all. Qed.

Lemma typed_ROR_ACC : typed 1 (fun _ : unit => True) ROR_ACC.
Proof. unfold ROR_ACC. typed_all. Qed.

Lemma typed_RTI : typed 1 (fun _ : unit => True) RTI.
Proof. unfold RTI. typed_all. Qed.

Lemma typed_RTS : typed 1 (fun _ : unit => True) RTS.
Proof. unfold RTS. typed_all. Qed.

Lemma typed_SEC : typed 1 (fun _ : unit => True) SEC.
Proof. unfold SEC. typed_all. Qed.

Lemma typed_SED : typed 1 (fun _ : unit => True) SED.
Proof. unfold SED. typed_all. Qed.

Lemma typed_SEI : typed 1 (fun _ : unit => True) SEI.
Proof. unfold SEI. typed_all. Qed.

Lemma typed_TAX : typed 1 (fun _ : unit => True) TAX.
Proof. unfold TAX. typed_all. Qed.

Lemma typed_TAY : typed 1 (fun _ : unit => True) TAY.
Proof. unfold TAY. typed_all. Qed.

Lemma typed_TSX : typed 1 (fun _ : unit => True) TSX.
Proof. unfold TSX. typed_all. Qed.

Lemma typed_TXA : typed 1 (fun _ : unit => True) TXA.
Proof. unfold TXA. typed_all. Qed.

Lemma typed_TXS : typed 1 (fun _ : unit => True) TXS.
Proof. unfold TXS. typed_all. Qed.

Lemma typed_TYA : typed 1 (fun _ : unit => True) TYA.
Proof. unfold TYA. typed_all. Qed.

#[local] Hint Resolve
  typed_ADC typed_AND typed_ASL typed_BIT typed_CMP typed_CPX
  typed_CPY typed_DEC typed_EOR typed_INC typed_LDA typed_LDX
  typed_LDY typed_LSR typed_ORA typed_ROL typed_ROR typed_SBC
  typed_STA typed_STX typed_STY typed_JMP typed_JSR typed_BXX
  typed_ASL_ACC typed_BRK typed_CLC typed_CLD typed_CLI typed_CLV
  typed_DEX typed_DEY typed_INX typed_INY typed_LSR_ACC typed_PHA
  typed_PHP typed_PLA typed_PLP typed_ROL_ACC typed_ROR_ACC typed_RTI
  typed_RTS typed_SEC typed_SED typed_SEI typed_TAX typed_TAY
  typed_TSX typed_TXA typed_TXS typed_TYA : typed.

(** *** The opcode switch and the step *)

Lemma typed_execute_opcode opcode :
  typed 1 (fun _ : unit => True) (execute_opcode opcode).
Proof.
  revert opcode.
  each_opcode (fun (_ : Z) (c : M unit) => typed 1 (fun _ : unit => True) c)
              ltac:(typed_all).
  typed_all.
Qed.
#[local] Hint Resolve typed_execute_opcode : typed.

Lemma typed_cpu_execute : typed 1 (fun _ : Z => True) cpu_execute.
Proof. unfold cpu_execute. typed_all. Qed.

Lemma typed_run n : forall m,
  machine_typed m ->
  machine_typed (snd (run n m))
  /\ exists l, stdout (term (snd (run n m))) = stdout (term m) ++ l
               /\ (List.length l <= n)%nat.
Proof.
  induction n as [| n IH]; intros m Hm.
  - cbn [run snd]. split; [exact Hm |].
    exists []. rewrite app_nil_r. split; [reflexivity | cbn; lia].
  - rewrite run_S. cbn [snd].
    destruct (typed_cpu_execute m Hm) as (W & _ & l1 & E1 & L1).
    destruct (IH _ W) as (W2 & l2 & E2 & L2).
    split; [exact W2 |].
    exists (l1 ++ l2). rewrite E2, E1, app_assoc, length_app.
    split; [reflexivity | lia].
Qed.

Lemma typed_load base bytes rest :
  Forall byte bytes -> (forall a, byte (rest a)) -> forall a, byte (load base bytes rest a).
Proof.
  intros Hb Hr a. unfold load.
  destruct (in_range _ _ a); [| apply Hr].
  rewrite Forall_forall in Hb.
  destruct (nth_in_or_default (Z.to_nat (a - base)) bytes 0) as [Hin | E].
  - apply Hb, Hin.
  - rewrite E. unfold byte. lia.
Qed.

Lemma typed_blank a : byte (blank a).
Proof. unfold blank, byte. cbn. lia. Qed.

Lemma typed_motherboard_reset : typed 0 (fun _ : unit => True) motherboard_reset.
Proof.
  unfold motherboard_reset.
  eapply typed_weaken_n; [| apply Nat.le_refl].
  apply (typed_bind 0 0 (fun _ : unit => True)); [| intros ? ?; apply typed_cpu_reset].
  intros m (Hc & Hrom & Hram & Ha & Ho).
  unfold exec, eval, mc6850_reset, machine_typed, acia_typed.
  cbn [fst snd cpu ROM RAM acia term with_acia TDR RDR CR SR].
  split_all; try assumption; try exact I; try (unfold byte; lia).
  exists []. rewrite app_nil_r. split; [reflexivity | cbn; lia].
Qed.

Lemma typed_power_on rom ram :
  (forall a, byte (rom a)) -> (forall a, byte (ram a)) ->
  machine_typed (power_on rom ram).
Proof.
  intros Hrom Hram. unfold power_on. apply typed_motherboard_reset.
  unfold machine_typed, cpu_typed, acia_typed, term_idle.
  cbn [cpu ROM RAM acia term stdout TDR RDR CR SR
       IRQ_PIN_LEVEL A X Y SP PC N_Flag V_Flag D_Flag I_Flag Z_Flag C_Flag].
  split_all; try assumption; try (unfold byte; lia); try (unfold word16; lia).
  constructor.
Qed.

(** X28 - The state stays within its C types.  From a machine whose
    registers and flags are bytes, whose [PC] is a 16-bit word and whose
    memory cells and ACIA registers are bytes, every step, whatever the
    opcode, every interrupt entry and every reset leaves such a machine
    again, and so does any number of steps. *)
Theorem machine_stays_typed (m : machine) :
  machine_typed m ->
  machine_typed (exec cpu_execute m)
  /\ machine_typed (exec cpu_nmi m)
  /\ machine_typed (exec cpu_reset m)
  /\ machine_typed (exec motherboard_reset m)
  /\ (forall level, byte level -> machine_typed (exec (cpu_irq level) m))
  /\ (forall n, machine_typed (snd (run n m))).
Proof.
  intros Hm. split_all.
  - apply typed_cpu_execute, Hm.
  - apply (typed_do_irq NMI_VECTOR), Hm.
  - apply typed_cpu_reset, Hm.
  - apply typed_motherboard_reset, Hm.
  - intros level Hl.
    assert (T : typed 0 (fun _ : unit => True) (cpu_irq level))
      by (unfold cpu_irq; typed_all).
    apply T, Hm.
  - intros n. apply typed_run, Hm.
Qed.

Lemma machine_stays_typed_witness :
  machine_typed (exec cpu_execute m_out)
  /\ machine_typed (snd (run 2 m_out)).
Proof.
  assert (H : machine_typed m_out).
  { apply typed_power_on; [apply typed_blank |].
    apply typed_load; [| apply typed_blank].
    repeat (constructor; [unfold byte; lia |]). constructor. }
  destruct (machine_stays_typed m_out H) as (S1 & _ & _ & _ & _ & R).
  split; [exact S1 | apply R].
Defined.

(** X29 - A step sends at most one byte to the terminal.  From a machine
    within its types, the output after [n] steps is the output before
    followed by at most [n] values, each of them a byte: nothing already
    sent is changed, and no instruction, interrupt entries included,
    writes the ACIA data register twice. *)
Theorem steps_send_at_most_one_byte_each (m : machine) (n : nat) :
  machine_typed m ->
  exists l,
    stdout (term (snd (run n m))) = stdout (term m) ++ l
    /\ (List.length l <= n)%nat
    /\ Forall byte l.
Proof.
  intros Hm. destruct (typed_run n m Hm) as ((_ & _ & _ & _ & Ho) & l & E & L).
  exists l. split_all; [exact E | exact L |].
  rewrite E in Ho. apply Forall_app in Ho. apply Ho.
Qed.

Lemma steps_send_at_most_one_byte_each_witness :
  exists l,
    stdout (term (snd (run 2 m_out))) = stdout (term m_out) ++ l
    /\ (List.length l <= 2)%nat
    /\ Forall byte l.
Proof.
  apply steps_send_at_most_one_byte_each.
  apply typed_power_on; [apply typed_blank |].
  apply typed_load; [| apply typed_blank].
  repeat (constructor; [unfold byte; lia |]). constructor.
Defined.
